(** * finance-app: analysis and alerting engine

    A shallow embedding of [backend/financial.py] (the data model),
    [backend/financial_analysis.py], [backend/financial_analysis_simple.py]
    (the two [FinancialAnalyzer] classes) and [backend/alert_system.py]
    (the [AlertSystem]), followed by the properties of the specification
    that concern them.

    Conventions of the embedding:
    - Python floats are exact rationals ([Q]); the literals 0.3, 1.5 and
      30.44 are the rationals 3/10, 3/2 and 3044/100.
    - [date] is the proleptic Gregorian calendar of Python's [datetime],
      without the MINYEAR/MAXYEAR range check.
    - a query against the database is a filter over the rows of the
      [Store], in table order; an ORM relationship attribute
      ([limit.category]) is a field of the row that carries it.
    - code that can raise returns a [result]; the only exceptions the
      modelled code can reach are the ones of [exn]. *)

From Stdlib Require Import ZArith QArith Qround Lqa Lia List String Ascii.
From Stdlib Require Import DecimalString DecimalZ.
From Stdlib Require Import Sorted.
From stdpp Require Import base list.
Import ListNotations.

Local Open Scope Z_scope.

(** ** Exceptions and results *)

Inductive exn : Type :=
| ZeroDivisionError
| KeyError
| IndexError.

Inductive result (A : Type) : Type :=
| Ok (a : A)
| Raise (e : exn).

Arguments Ok {A} a.
Arguments Raise {A} e.

Definition rbind {A B : Type} (r : result A) (k : A -> result B) : result B :=
  match r with
  | Ok a => k a
  | Raise e => Raise e
  end.

Notation "'try!' x ':=' r 'in' k" := (rbind r (fun x => k))
  (at level 10, x name, r at level 100, k at level 200).

Definition returns {A : Type} (r : result A) : Prop :=
  exists a, r = Ok a.

(** [for x in xs: acc = body(acc, x)] where the body may raise. *)
Fixpoint for_each {A S : Type} (body : S -> A -> result S) (xs : list A) (s : S)
  : result S :=
  match xs with
  | [] => Ok s
  | x :: xs' => try! s' := body s x in for_each body xs' s'
  end.

(** ** Python numbers *)

Module Py.

Definition ltb (x y : Q) : bool := (Qnum x * QDen y <? Qnum y * QDen x)%Z.
Definition leb (x y : Q) : bool := Qle_bool x y.
Definition gtb (x y : Q) : bool := ltb y x.
Definition geb (x y : Q) : bool := leb y x.
Definition eqb (x y : Q) : bool := Qeq_bool x y.

(** [x / y] on floats. *)
Definition truediv (x y : Q) : result Q :=
  if eqb y 0 then Raise ZeroDivisionError else Ok (x / y)%Q.

(** [max(a, b)] and [min(a, b)]: the first argument wins a tie. *)
Definition max (a b : Q) : Q := if gtb b a then b else a.
Definition min (a b : Q) : Q := if ltb b a then b else a.

(** [sum(xs)]. *)
Definition sum (xs : list Q) : Q := fold_left Qplus xs 0%Q.

(** [abs(x)]. *)
Definition abs (x : Q) : Q := if ltb x 0 then (- x)%Q else x.

(** [round(x, 1)]: to the nearest tenth, ties to the even tenth. *)
Definition round1 (x : Q) : Q :=
  let t := (x * 10)%Q in
  let f := Qfloor t in
  let r := (t - inject_Z f)%Q in
  let n := if ltb r (1 # 2) then f
           else if ltb (1 # 2) r then f + 1
           else if Z.even f then f else f + 1 in
  (inject_Z n / 10)%Q.

(** Truth value of an optional number: [None] and zero are false. *)
Definition truthy (o : option Q) : bool :=
  match o with
  | Some q => negb (eqb q 0)
  | None => false
  end.

(** [o or 0.0]. *)
Definition or_zero (o : option Q) : Q :=
  match o with
  | Some q => if eqb q 0 then 0%Q else q
  | None => 0%Q
  end.

(** [float(o) if o else 0.0]. *)
Definition float_or_zero (o : option Q) : Q :=
  if truthy o then match o with Some q => q | None => 0%Q end else 0%Q.

(** [str(n)] for an integer. *)
Definition str (n : Z) : string := NilZero.string_of_int (Z.to_int n).

(** [range(a, b)]. *)
Definition range (a b : Z) : list Z :=
  map (fun i => a + Z.of_nat i) (seq 0 (Z.to_nat (b - a))).

(** [f"{n:02d}"] and [f"{n:04d}"] for a non-negative integer. *)
Definition pad (width : nat) (n : Z) : string :=
  let s := str n in
  String.append (String.concat "" (repeat "0"%string (width - String.length s))) s.

End Py.

(** ** Calendar dates ([datetime.date], [timedelta], [relativedelta]) *)

Record date : Type := mkdate { year : Z; month : Z; day : Z }.

Module Date.

Definition eqb (a b : date) : bool :=
  (year a =? year b) && (month a =? month b) && (day a =? day b).

Definition ltb (a b : date) : bool :=
  (year a <? year b)
  || ((year a =? year b)
      && ((month a <? month b)
          || ((month a =? month b) && (day a <? day b)))).

Definition leb (a b : date) : bool := ltb a b || eqb a b.
Definition geb (a b : date) : bool := leb b a.

Definition is_leap (y : Z) : bool :=
  (y mod 4 =? 0) && (negb (y mod 100 =? 0) || (y mod 400 =? 0)).

Definition DAYS_IN_MONTH (m : Z) : Z :=
  match m with
  | 1 => 31 | 2 => 28 | 3 => 31 | 4 => 30 | 5 => 31 | 6 => 30
  | 7 => 31 | 8 => 31 | 9 => 30 | 10 => 31 | 11 => 30 | 12 => 31
  | _ => 0
  end.

Definition DAYS_BEFORE_MONTH (m : Z) : Z :=
  match m with
  | 1 => 0 | 2 => 31 | 3 => 59 | 4 => 90 | 5 => 120 | 6 => 151
  | 7 => 181 | 8 => 212 | 9 => 243 | 10 => 273 | 11 => 304 | 12 => 334
  | _ => 0
  end.

Definition days_before_year (y : Z) : Z :=
  let y := y - 1 in y * 365 + y / 4 - y / 100 + y / 400.

(** [calendar.monthrange(y, m)[1]]. *)
Definition days_in_month (y m : Z) : Z :=
  if (m =? 2) && is_leap y then 29 else DAYS_IN_MONTH m.

Definition days_before_month (y m : Z) : Z :=
  DAYS_BEFORE_MONTH m + (if (m >? 2) && is_leap y then 1 else 0).

Definition toordinal (d : date) : Z :=
  days_before_year (year d) + days_before_month (year d) (month d) + day d.

Definition DI400Y : Z := Eval cbv in days_before_year 401.
Definition DI100Y : Z := Eval cbv in days_before_year 101.
Definition DI4Y : Z := Eval cbv in days_before_year 5.

Definition fromordinal (n : Z) : date :=
  let n := n - 1 in
  let n400 := n / DI400Y in
  let n := n mod DI400Y in
  let y := n400 * 400 + 1 in
  let n100 := n / DI100Y in
  let n := n mod DI100Y in
  let n4 := n / DI4Y in
  let n := n mod DI4Y in
  let n1 := n / 365 in
  let n := n mod 365 in
  let y := y + n100 * 100 + n4 * 4 + n1 in
  if (n1 =? 4) || (n100 =? 4) then mkdate (y - 1) 12 31
  else
    let leapyear := (n1 =? 3) && (negb (n4 =? 24) || (n100 =? 3)) in
    let m := Z.shiftr (n + 50) 5 in
    let preceding :=
      DAYS_BEFORE_MONTH m + (if (m >? 2) && leapyear then 1 else 0) in
    let '(m, preceding) :=
      if preceding >? n
      then (m - 1,
            preceding
            - (DAYS_IN_MONTH (m - 1)
               + (if (m - 1 =? 2) && leapyear then 1 else 0)))
      else (m, preceding) in
    mkdate y m (n - preceding + 1).

(** [d + timedelta(days=n)], [d - timedelta(days=n)], [(a - b).days]. *)
Definition add_days (d : date) (n : Z) : date := fromordinal (toordinal d + n).
Definition sub_days (d : date) (n : Z) : date := fromordinal (toordinal d - n).
Definition days_between (a b : date) : Z := toordinal a - toordinal b.

(** [d + relativedelta(months=k)]: the month count is first normalised
    into years and months, the day is clipped to the target month. *)
Definition add_months (d : date) (k : Z) : date :=
  let s := Z.sgn k in
  let years := s * ((k * s) / 12) in
  let months := s * ((k * s) mod 12) in
  let y := year d + years in
  let m := month d + months in
  let '(y, m) :=
    if m >? 12 then (y + 1, m - 12)
    else if m <? 1 then (y - 1, m + 12)
    else (y, m) in
  mkdate y m (Z.min (days_in_month y m) (day d)).

Definition sub_months (d : date) (k : Z) : date := add_months d (- k).

(** [calendar.month_name[m]], also [strftime('%B')] in the C locale. *)
Definition month_name (m : Z) : string :=
  match m with
  | 1 => "January" | 2 => "February" | 3 => "March" | 4 => "April"
  | 5 => "May" | 6 => "June" | 7 => "July" | 8 => "August"
  | 9 => "September" | 10 => "October" | 11 => "November"
  | 12 => "December" | _ => ""
  end.

(** [f"{year}-{month:02d}"]. *)
Definition month_key (y m : Z) : string :=
  String.append (Py.str y) (String "-" (Py.pad 2 m)).

(** [d.isoformat()]. *)
Definition isoformat (d : date) : string :=
  String.append (Py.pad 4 (year d))
    (String "-" (String.append (Py.pad 2 (month d))
       (String "-" (Py.pad 2 (day d))))).

(** A date of the calendar. *)
Definition valid (d : date) : Prop :=
  1 <= year d /\ 1 <= month d <= 12
  /\ 1 <= day d <= days_in_month (year d) (month d).

End Date.

(** ** Loops and dictionaries *)

(** [for x in xs: out.append(f(x))]. *)
Definition for_append {A B : Type} (f : A -> result B) (xs : list A) (out : list B)
  : result (list B) :=
  for_each (fun acc x => try! y := f x in Ok (acc ++ [y])) xs out.

(** A Python [dict] with string keys: insertion-ordered, assignment to a
    key that is present replaces the value where it stands. *)
Module Dict.

Definition t (V : Type) : Type := list (string * V).

Fixpoint set {V : Type} (d : t V) (k : string) (v : V) : t V :=
  match d with
  | [] => [(k, v)]
  | (k', v') :: d' =>
      if String.eqb k' k then (k', v) :: d' else (k', v') :: set d' k v
  end.

Fixpoint get {V : Type} (d : t V) (k : string) : result V :=
  match d with
  | [] => Raise KeyError
  | (k', v) :: d' => if String.eqb k' k then Ok v else get d' k
  end.

Definition keys {V : Type} (d : t V) : list string := map fst d.
Definition values {V : Type} (d : t V) : list V := map snd d.
Definition items {V : Type} (d : t V) : list (string * V) := d.

(** [{k: v for (k, v) in rows}]. *)
Definition of_rows {V : Type} (rows : list (string * V)) : t V :=
  fold_left (fun d kv => set d (fst kv) (snd kv)) rows [].

(** [bool(d)]. *)
Definition truthy {V : Type} (d : t V) : bool :=
  match d with [] => false | _ => true end.

End Dict.

(** ** SQL aggregates: [None] over no rows *)

Module Sql.

Definition sum (xs : list Q) : option Q :=
  match xs with
  | [] => None
  | _ => Some (Py.sum xs)
  end.

Definition avg (xs : list Q) : option Q :=
  match xs with
  | [] => None
  | _ => Some (Py.sum xs / inject_Z (Z.of_nat (length xs)))%Q
  end.

End Sql.

(** ** The data model ([financial.py]) *)

Inductive TransactionType : Type := INCOME | EXPENSE.

Definition TransactionType_eqb (a b : TransactionType) : bool :=
  match a, b with
  | INCOME, INCOME | EXPENSE, EXPENSE => true
  | _, _ => false
  end.

Module Category.
Record t : Type := mk {
  id : Z;
  name : string;
  color : string;
  is_default : bool
}.
End Category.

Module Transaction.
Record t : Type := mk {
  id : Z;
  description : string;
  amount : Q;
  transaction_type : TransactionType;
  transaction_date : date;
  category_id : Z;
  account_id : Z
}.
End Transaction.

(** [created_at] keeps the calendar date of the timestamp, which is all
    the code reads of it ([goal.created_at.date()]). *)
Module Goal.
Record t : Type := mk {
  id : Z;
  name : string;
  description : string;
  target_amount : Q;
  current_amount : Q;
  target_date : date;
  created_at : date;
  is_active : bool
}.
End Goal.

Module SpendingLimit.
Record t : Type := mk {
  id : Z;
  category_id : Z;
  monthly_limit : Q;
  month_year : string;
  category : Category.t
}.
End SpendingLimit.

Module RecurringTransaction.
Record t : Type := mk {
  id : Z;
  description : string;
  amount : Q;
  transaction_type : TransactionType;
  frequency : string;
  start_date : date;
  end_date : option date;
  next_occurrence : date;
  category_id : Z;
  category : Category.t;
  is_active : bool
}.
End RecurringTransaction.

(** The tables read through [db.session.query]. *)
Record Store : Type := mkStore {
  transactions : list Transaction.t;
  categories : list Category.t;
  goals : list Goal.t;
  spending_limits : list SpendingLimit.t;
  recurring_transactions : list RecurringTransaction.t
}.

(** The filters shared by the queries of both analyzers and of the alert
    system. *)
Module Query.

(** [transaction_date >= lo, transaction_date <= hi, transaction_type == ty]. *)
Definition in_period (lo hi : date) (ty : TransactionType) (x : Transaction.t)
  : bool :=
  Date.geb (Transaction.transaction_date x) lo
  && Date.leb (Transaction.transaction_date x) hi
  && TransactionType_eqb (Transaction.transaction_type x) ty.

(** The same, with [category_id == c]. *)
Definition in_period_of (c : Z) (lo hi : date) (ty : TransactionType)
    (x : Transaction.t) : bool :=
  (Transaction.category_id x =? c) && in_period lo hi ty x.

Definition amounts (xs : list Transaction.t) : list Q :=
  map Transaction.amount xs.

(** [query(func.sum(Transaction.amount)).filter(...).scalar()]. *)
Definition sum_where (db : Store) (p : Transaction.t -> bool) : option Q :=
  Sql.sum (amounts (List.filter p (transactions db))).

(** [query(func.avg(Transaction.amount)).filter(...).scalar()]. *)
Definition avg_where (db : Store) (p : Transaction.t -> bool) : option Q :=
  Sql.avg (amounts (List.filter p (transactions db))).

(** The expenses of a category from the first day of the current month
    to the current date, [... .scalar() or 0.0]: the query that both
    analyzers and the alert system run for every spending limit. *)
Definition current_spent (db : Store) (current_date : date) (category_id : Z) : Q :=
  let start_of_month := mkdate (year current_date) (month current_date) 1 in
  Py.or_zero
    (sum_where db (in_period_of category_id start_of_month current_date EXPENSE)).

(** [query(Goal).filter(Goal.is_active == True).all()]. *)
Definition active_goals (db : Store) : list Goal.t :=
  List.filter Goal.is_active (goals db).

(** [query(SpendingLimit).filter(SpendingLimit.month_year == key).all()]. *)
Definition limits_of (db : Store) (key : string) : list SpendingLimit.t :=
  List.filter (fun l => String.eqb (SpendingLimit.month_year l) key)
    (spending_limits db).

End Query.

(** ** The dictionaries the analyzers return, as records (field = key) *)

Module Summary.
Record t : Type := mk {
  total_income : Q;
  total_expenses : Q;
  expenses_by_category : Dict.t Q;
  partial_balance : Q;
  days_in_month : Z;
  total_days_in_month : Z
}.
End Summary.

Module ExpenseProjection.
Record t : Type := mk {
  year : Z;
  month : Z;
  month_name : string;
  recurring_expenses : Q;
  historical_average : Q;
  projected_total : Q;
  projected_by_category : Dict.t Q
}.
End ExpenseProjection.

Module IncomeProjection.
Record t : Type := mk {
  year : Z;
  month : Z;
  month_name : string;
  recurring_income : Q;
  historical_average : Q;
  projected_total : Q
}.
End IncomeProjection.

Module SavingsEntry.
Record t : Type := mk {
  month : string;
  year : Z;
  projected_income : Q;
  projected_expenses : Q;
  projected_savings : Q;
  savings_rate : Q
}.
End SavingsEntry.

Module ScoreFactors.
Record t : Type := mk {
  positive_balance : Q;
  spending_discipline : Q;
  savings_capacity : Q;
  income_diversification : Q
}.
End ScoreFactors.

Module HealthScore.
Record t : Type := mk {
  total_score : Q;
  score_factors : ScoreFactors.t;
  health_level : string;
  recommendations : list string
}.
End HealthScore.

(** ** [financial_analysis.py]: class [FinancialAnalyzer] *)

Module FinancialAnalysis.

Module LimitStatus.
Record t : Type := mk {
  category_name : string;
  monthly_limit : Q;
  current_spent : Q;
  remaining : Q;
  percentage_used : Q;
  is_over_limit : bool
}.
End LimitStatus.

Module GoalAnalysis.
Record t : Type := mk {
  id : Z;
  name : string;
  description : string;
  target_amount : Q;
  current_amount : Q;
  amount_needed : Q;
  target_date : string;
  days_remaining : Z;
  months_remaining : Q;
  monthly_savings_needed : Q;
  progress_percentage : Q;
  is_achievable : bool;
  avg_monthly_savings_capacity : Q
}.
End GoalAnalysis.

Section Analyzer.

Variable db : Store.
(** [self.current_date], of which [__init__] also keeps the month and
    the year. *)
Variable current_date : date.

Definition current_month : Z := month current_date.
Definition current_year : Z := year current_date.

Definition _get_days_in_month (y m : Z) : Z :=
  let next_month := if m =? 12 then mkdate (y + 1) 1 1 else mkdate y (m + 1) 1 in
  let last_day := Date.sub_days next_month 1 in
  day last_day.

Definition get_current_month_summary : Summary.t :=
  let start_of_month := mkdate current_year current_month 1 in
  (* Category joined with Transaction, grouped by category; one row
     per category that has expenses, in the order of the categories *)
  let expenses_query :=
    flat_map (fun c : Category.t =>
      match Query.sum_where db
              (Query.in_period_of (Category.id c) start_of_month
                 current_date EXPENSE) with
      | Some total => [(Category.name c, total)]
      | None => []
      end) (categories db) in
  let expenses_by_category := Dict.of_rows expenses_query in
  let total_expenses := Py.sum (Dict.values expenses_by_category) in
  let income_query :=
    Query.sum_where db (Query.in_period start_of_month current_date INCOME) in
  let total_income := Py.float_or_zero income_query in
  let partial_balance := (total_income - total_expenses)%Q in
  {| Summary.total_income := total_income;
     Summary.total_expenses := total_expenses;
     Summary.expenses_by_category := expenses_by_category;
     Summary.partial_balance := partial_balance;
     Summary.days_in_month := day current_date;
     Summary.total_days_in_month :=
       _get_days_in_month current_year current_month |}.

(** The body of the loop of [get_spending_limits_status]. *)
Definition limit_status (limit : SpendingLimit.t) : result LimitStatus.t :=
  let current_spent :=
    Query.current_spent db current_date (SpendingLimit.category_id limit) in
  try! percentage_used :=
    (if Py.gtb (SpendingLimit.monthly_limit limit) 0
     then try! q := Py.truediv current_spent (SpendingLimit.monthly_limit limit)
          in Ok (q * 100)%Q
     else Ok 0%Q) in
  let remaining := (SpendingLimit.monthly_limit limit - current_spent)%Q in
  Ok {| LimitStatus.category_name :=
          Category.name (SpendingLimit.category limit);
        LimitStatus.monthly_limit := SpendingLimit.monthly_limit limit;
        LimitStatus.current_spent := current_spent;
        LimitStatus.remaining := remaining;
        LimitStatus.percentage_used := percentage_used;
        LimitStatus.is_over_limit :=
          Py.gtb current_spent (SpendingLimit.monthly_limit limit) |}.

Definition get_spending_limits_status : result (list LimitStatus.t) :=
  let month_year := Date.month_key current_year current_month in
  let limits := Query.limits_of db month_year in
  for_append limit_status limits [].

Definition _should_occur_in_month (recurring_transaction : RecurringTransaction.t)
    (y m : Z) : bool :=
  if String.eqb (RecurringTransaction.frequency recurring_transaction) "monthly"
  then true
  else if String.eqb (RecurringTransaction.frequency recurring_transaction) "yearly"
  then month (RecurringTransaction.start_date recurring_transaction) =? m
  else if String.eqb (RecurringTransaction.frequency recurring_transaction) "weekly"
  then true
  else false.

(** The query of [_get_recurring_expenses_for_month] and of
    [_get_recurring_income_for_month]. *)
Definition recurring_in_window (ty : TransactionType) (target_date : date)
    (r : RecurringTransaction.t) : bool :=
  RecurringTransaction.is_active r
  && TransactionType_eqb (RecurringTransaction.transaction_type r) ty
  && Date.leb (RecurringTransaction.start_date r) target_date
  && match RecurringTransaction.end_date r with
     | None => true
     | Some e => Date.geb e target_date
     end.

Definition recurring_total (ty : TransactionType) (y m : Z) : Q :=
  let target_date := mkdate y m 1 in
  let recurring_transactions :=
    List.filter (recurring_in_window ty target_date) (recurring_transactions db) in
  fold_left (fun total transaction =>
               if _should_occur_in_month transaction y m
               then (total + RecurringTransaction.amount transaction)%Q
               else total)
    recurring_transactions 0%Q.

Definition _get_recurring_expenses_for_month (y m : Z) : Q :=
  recurring_total EXPENSE y m.

Definition _get_recurring_income_for_month (y m : Z) : Q :=
  recurring_total INCOME y m.

(** [extract('year', d) == y, extract('month', d) == m, type == ty]. *)
Definition in_year_month (y m : Z) (ty : TransactionType) (x : Transaction.t)
  : bool :=
  (year (Transaction.transaction_date x) =? y)
  && (month (Transaction.transaction_date x) =? m)
  && TransactionType_eqb (Transaction.transaction_type x) ty.

Definition historical_average (ty : TransactionType) (target_month : Z)
  : result Q :=
  let historical_data :=
    fold_left (fun historical_data year_offset =>
                 let historical_year := current_year - year_offset in
                 let total :=
                   Query.sum_where db (in_year_month historical_year target_month ty) in
                 match total with
                 | Some q =>
                     if Py.truthy total then historical_data ++ [q]
                     else historical_data
                 | None => historical_data
                 end)
      (Py.range 1 4) [] in
  match historical_data with
  | [] => Ok 0%Q
  | _ => Py.truediv (Py.sum historical_data)
           (inject_Z (Z.of_nat (length historical_data)))
  end.

Definition _get_historical_average_expenses (target_month : Z) : result Q :=
  historical_average EXPENSE target_month.

Definition _get_historical_average_income (target_month : Z) : result Q :=
  historical_average INCOME target_month.

Definition _combine_projections (recurring historical : Q) : Q :=
  if Py.gtb recurring 0
  then (recurring + historical * (3 # 10))%Q
  else historical.

Definition _project_expenses_by_category (y m : Z) : Dict.t Q :=
  fold_left (fun projections (category : Category.t) =>
               let historical_avg :=
                 Query.avg_where db
                   (fun x =>
                      (Transaction.category_id x =? Category.id category)
                      && TransactionType_eqb (Transaction.transaction_type x) EXPENSE
                      && (month (Transaction.transaction_date x) =? m)) in
               Dict.set projections (Category.name category)
                 (Py.float_or_zero historical_avg))
    (categories db) [].

Definition project_future_expenses (months_ahead : Z)
  : result (Dict.t ExpenseProjection.t) :=
  for_each (fun projections month_offset =>
              let target_date := Date.add_months current_date month_offset in
              let target_month := month target_date in
              let target_year := year target_date in
              let recurring_expenses :=
                _get_recurring_expenses_for_month target_year target_month in
              try! historical_avg := _get_historical_average_expenses target_month in
              let projected_expenses :=
                _combine_projections recurring_expenses historical_avg in
              Ok (Dict.set projections (Date.month_key target_year target_month)
                    {| ExpenseProjection.year := target_year;
                       ExpenseProjection.month := target_month;
                       ExpenseProjection.month_name := Date.month_name target_month;
                       ExpenseProjection.recurring_expenses := recurring_expenses;
                       ExpenseProjection.historical_average := historical_avg;
                       ExpenseProjection.projected_total := projected_expenses;
                       ExpenseProjection.projected_by_category :=
                         _project_expenses_by_category target_year target_month |}))
    (Py.range 1 (months_ahead + 1)) [].

Definition project_future_income (months_ahead : Z)
  : result (Dict.t IncomeProjection.t) :=
  for_each (fun projections month_offset =>
              let target_date := Date.add_months current_date month_offset in
              let target_month := month target_date in
              let target_year := year target_date in
              let recurring_income :=
                _get_recurring_income_for_month target_year target_month in
              try! historical_avg_income :=
                _get_historical_average_income target_month in
              let projected_income := Py.max recurring_income historical_avg_income in
              Ok (Dict.set projections (Date.month_key target_year target_month)
                    {| IncomeProjection.year := target_year;
                       IncomeProjection.month := target_month;
                       IncomeProjection.month_name := Date.month_name target_month;
                       IncomeProjection.recurring_income := recurring_income;
                       IncomeProjection.historical_average := historical_avg_income;
                       IncomeProjection.projected_total := projected_income |}))
    (Py.range 1 (months_ahead + 1)) [].

(** The body of the loop of [calculate_savings_capacity]. *)
Definition savings_entry (expense_projections : Dict.t ExpenseProjection.t)
    (income_projections : Dict.t IncomeProjection.t) (month_key : string)
  : result SavingsEntry.t :=
  try! inc := Dict.get income_projections month_key in
  let projected_income := IncomeProjection.projected_total inc in
  try! exp := Dict.get expense_projections month_key in
  let projected_expenses := ExpenseProjection.projected_total exp in
  let monthly_savings := (projected_income - projected_expenses)%Q in
  try! savings_rate :=
    (if Py.gtb projected_income 0
     then try! q := Py.truediv monthly_savings projected_income in Ok (q * 100)%Q
     else Ok 0%Q) in
  Ok {| SavingsEntry.month := ExpenseProjection.month_name exp;
        SavingsEntry.year := ExpenseProjection.year exp;
        SavingsEntry.projected_income := projected_income;
        SavingsEntry.projected_expenses := projected_expenses;
        SavingsEntry.projected_savings := monthly_savings;
        SavingsEntry.savings_rate := savings_rate |}.

Definition calculate_savings_capacity (months_ahead : Z)
  : result (Dict.t SavingsEntry.t) :=
  try! expense_projections := project_future_expenses months_ahead in
  try! income_projections := project_future_income months_ahead in
  for_each (fun savings_capacity month_key =>
              try! e := savings_entry expense_projections income_projections month_key in
              Ok (Dict.set savings_capacity month_key e))
    (Dict.keys expense_projections) [].

(** The body of the loop of [analyze_goals_progress]. *)
Definition analyze_goal (goal : Goal.t) : result GoalAnalysis.t :=
  let days_remaining :=
    Date.days_between (Goal.target_date goal) current_date in
  let months_remaining :=
    Py.max 1 (inject_Z days_remaining / (3044 # 100))%Q in
  let amount_needed := (Goal.target_amount goal - Goal.current_amount goal)%Q in
  try! monthly_savings_needed :=
    (if Py.gtb months_remaining 0
     then Py.truediv amount_needed months_remaining
     else Ok amount_needed) in
  try! savings_capacity := calculate_savings_capacity 3 in
  try! avg_monthly_savings :=
    Py.truediv
      (Py.sum (map SavingsEntry.projected_savings (Dict.values savings_capacity)))
      (inject_Z (Z.of_nat (length savings_capacity))) in
  let is_achievable := Py.leb monthly_savings_needed avg_monthly_savings in
  try! progress_percentage :=
    (if Py.gtb (Goal.target_amount goal) 0
     then try! q := Py.truediv (Goal.current_amount goal) (Goal.target_amount goal)
          in Ok (q * 100)%Q
     else Ok 0%Q) in
  Ok {| GoalAnalysis.id := Goal.id goal;
        GoalAnalysis.name := Goal.name goal;
        GoalAnalysis.description := Goal.description goal;
        GoalAnalysis.target_amount := Goal.target_amount goal;
        GoalAnalysis.current_amount := Goal.current_amount goal;
        GoalAnalysis.amount_needed := amount_needed;
        GoalAnalysis.target_date := Date.isoformat (Goal.target_date goal);
        GoalAnalysis.days_remaining := days_remaining;
        GoalAnalysis.months_remaining := Py.round1 months_remaining;
        GoalAnalysis.monthly_savings_needed := monthly_savings_needed;
        GoalAnalysis.progress_percentage := progress_percentage;
        GoalAnalysis.is_achievable := is_achievable;
        GoalAnalysis.avg_monthly_savings_capacity := avg_monthly_savings |}.

Definition analyze_goals_progress : result (list GoalAnalysis.t) :=
  let goals := Query.active_goals db in
  for_append analyze_goal goals [].

Definition _count_income_sources : Z :=
  let three_months_ago := Date.sub_months current_date 3 in
  (* distinct Category.id over Category joined with Transaction *)
  let sources :=
    List.filter (fun c : Category.t =>
              existsb (fun x =>
                         (Transaction.category_id x =? Category.id c)
                         && Date.geb (Transaction.transaction_date x) three_months_ago
                         && TransactionType_eqb (Transaction.transaction_type x) INCOME)
                (transactions db))
      (categories db) in
  Z.of_nat (length (nodup Z.eq_dec (map Category.id sources))).

Definition _get_health_level (score : Q) : string :=
  if Py.geb score 80 then "Excelente"
  else if Py.geb score 60 then "Boa"
  else if Py.geb score 40 then "Regular"
  else if Py.geb score 20 then "Ruim"
  else "Crítica".

Definition _get_health_recommendations (score_factors : ScoreFactors.t)
  : list string :=
  let recommendations := [] in
  let recommendations :=
    if Py.ltb (ScoreFactors.positive_balance score_factors) 15
    then recommendations
         ++ ["Reduza gastos desnecessários para manter saldo positivo"%string]
    else recommendations in
  let recommendations :=
    if Py.ltb (ScoreFactors.spending_discipline score_factors) 15
    then recommendations
         ++ ["Revise e ajuste seus limites de gastos por categoria"%string]
    else recommendations in
  let recommendations :=
    if Py.ltb (ScoreFactors.savings_capacity score_factors) 10
    then recommendations
         ++ ["Procure aumentar sua renda ou reduzir despesas para melhorar a capacidade de poupança"%string]
    else recommendations in
  let recommendations :=
    if Py.ltb (ScoreFactors.income_diversification score_factors) 15
    then recommendations
         ++ ["Considere diversificar suas fontes de renda"%string]
    else recommendations in
  match recommendations with
  | [] => ["Parabéns! Sua saúde financeira está em bom estado. Continue assim!"%string]
  | _ => recommendations
  end.

Definition get_financial_health_score : result HealthScore.t :=
  let current_summary := get_current_month_summary in
  try! spending_limits := get_spending_limits_status in
  try! savings_capacity := calculate_savings_capacity 1 in
  (* 1. positive balance *)
  let positive_balance :=
    if Py.gtb (Summary.partial_balance current_summary) 0
    then 25%Q
    else Py.max 0 (25 + (Summary.partial_balance current_summary / 1000) * 5)%Q in
  (* 2. spending limits *)
  let spending_discipline :=
    match spending_limits with
    | _ :: _ =>
        let over_limit_count :=
          Py.sum (map (fun _ => 1%Q)
                    (List.filter LimitStatus.is_over_limit spending_limits)) in
        Py.max 0 (25 - over_limit_count * 10)%Q
    | [] => 15%Q
    end in
  (* 3. savings capacity *)
  try! savings_capacity_factor :=
    (if Dict.truthy savings_capacity
     then match Dict.values savings_capacity with
          | first :: _ =>
              let next_month_savings := SavingsEntry.projected_savings first in
              if Py.gtb next_month_savings 0
              then Ok (Py.min 25 ((next_month_savings / 1000) * 5))%Q
              else Ok 0%Q
          | [] => Raise IndexError
          end
     else Ok 0%Q) in
  (* 4. income sources *)
  let income_sources := _count_income_sources in
  let income_diversification := Py.min 25 (inject_Z (income_sources * 8)) in
  let score_factors :=
    {| ScoreFactors.positive_balance := positive_balance;
       ScoreFactors.spending_discipline := spending_discipline;
       ScoreFactors.savings_capacity := savings_capacity_factor;
       ScoreFactors.income_diversification := income_diversification |} in
  let total_score :=
    Py.sum [positive_balance; spending_discipline; savings_capacity_factor;
            income_diversification] in
  Ok {| HealthScore.total_score := Py.round1 total_score;
        HealthScore.score_factors := score_factors;
        HealthScore.health_level := _get_health_level total_score;
        HealthScore.recommendations := _get_health_recommendations score_factors |}.

End Analyzer.

End FinancialAnalysis.

(** ** [financial_analysis_simple.py]: class [FinancialAnalyzer] *)

Module FinancialAnalysisSimple.

Module LimitStatus.
Record t : Type := mk {
  category_id : Z;
  category_name : string;
  category : string * string;  (* name, color *)
  monthly_limit : Q;
  current_spent : Q;
  remaining : Q;
  percentage_used : Q
}.
End LimitStatus.

Module GoalProgress.
Record t : Type := mk {
  id : Z;
  name : string;
  description : string;
  target_amount : Q;
  current_amount : Q;
  target_date : string;
  progress_percentage : Q;
  remaining_amount : Q;
  days_remaining : Z;
  months_remaining : Q;
  monthly_needed : Q
}.
End GoalProgress.

Module Dashboard.
Record t : Type := mk {
  current_month_summary : Summary.t;
  health_score : HealthScore.t;
  savings_capacity : Dict.t SavingsEntry.t;
  income_projections : Dict.t IncomeProjection.t;
  expense_projections : Dict.t ExpenseProjection.t;
  goals_progress : list GoalProgress.t;
  spending_limits_status : list LimitStatus.t
}.
End Dashboard.

Section Analyzer.

Variable db : Store.
Variable current_date : date.

Definition get_current_month_summary : Summary.t :=
  let current_month := month current_date in
  let current_year := year current_date in
  let start_of_month := mkdate current_year current_month 1 in
  let total_income :=
    Py.or_zero
      (Query.sum_where db (Query.in_period start_of_month current_date INCOME)) in
  let total_expenses :=
    Py.or_zero
      (Query.sum_where db (Query.in_period start_of_month current_date EXPENSE)) in
  (* Category joined with Transaction, grouped by category name; one
     row per name that has expenses, in the order of the categories *)
  let joined (c : Category.t) : list Transaction.t :=
    List.filter (Query.in_period_of (Category.id c) start_of_month current_date EXPENSE)
      (transactions db) in
  let names :=
    nodup string_dec
      (map Category.name
         (List.filter (fun c => match joined c with [] => false | _ => true end)
            (categories db))) in
  let category_expenses :=
    map (fun n =>
           (n, Sql.sum
                 (Query.amounts
                    (flat_map joined
                       (List.filter (fun c => String.eqb (Category.name c) n)
                          (categories db))))))
      names in
  let expenses_by_category :=
    fold_left (fun d row => Dict.set d (fst row) (Py.float_or_zero (snd row)))
      category_expenses [] in
  let partial_balance := (total_income - total_expenses)%Q in
  {| Summary.total_income := total_income;
     Summary.total_expenses := total_expenses;
     Summary.expenses_by_category := expenses_by_category;
     Summary.partial_balance := partial_balance;
     Summary.days_in_month := day current_date;
     Summary.total_days_in_month := Date.days_in_month current_year current_month |}.

(** The body of the loop of [get_spending_limits_status]. *)
Definition limit_status (limit : SpendingLimit.t) : result LimitStatus.t :=
  let current_spent :=
    Query.current_spent db current_date (SpendingLimit.category_id limit) in
  try! percentage_used :=
    (if Py.gtb (SpendingLimit.monthly_limit limit) 0
     then try! q := Py.truediv current_spent (SpendingLimit.monthly_limit limit)
          in Ok (q * 100)%Q
     else Ok 0%Q) in
  Ok {| LimitStatus.category_id := SpendingLimit.category_id limit;
        LimitStatus.category_name := Category.name (SpendingLimit.category limit);
        LimitStatus.category :=
          (Category.name (SpendingLimit.category limit),
           Category.color (SpendingLimit.category limit));
        LimitStatus.monthly_limit := SpendingLimit.monthly_limit limit;
        LimitStatus.current_spent := current_spent;
        LimitStatus.remaining :=
          (SpendingLimit.monthly_limit limit - current_spent)%Q;
        LimitStatus.percentage_used := percentage_used |}.

Definition get_spending_limits_status : result (list LimitStatus.t) :=
  let month_year := Date.month_key (year current_date) (month current_date) in
  let limits := Query.limits_of db month_year in
  for_append limit_status limits [].

Definition historical_window (ty : TransactionType) : Transaction.t -> bool :=
  let three_months_ago := Date.sub_months current_date 3 in
  Query.in_period three_months_ago current_date ty.

Definition _calculate_historical_income_average : Q :=
  Py.float_or_zero (Query.avg_where db (historical_window INCOME)).

Definition _calculate_historical_expense_average : Q :=
  Py.float_or_zero (Query.avg_where db (historical_window EXPENSE)).

(** Every active recurring transaction of the type counts, whatever
    its frequency and dates. *)
Definition recurring_total (ty : TransactionType) : Q :=
  let recurring_transactions :=
    List.filter (fun r =>
              RecurringTransaction.is_active r
              && TransactionType_eqb (RecurringTransaction.transaction_type r) ty)
      (recurring_transactions db) in
  fold_left (fun total transaction =>
               (total + RecurringTransaction.amount transaction)%Q)
    recurring_transactions 0%Q.

Definition _calculate_recurring_income (target_date : date) : Q :=
  recurring_total INCOME.

Definition _calculate_recurring_expenses (target_date : date) : Q :=
  recurring_total EXPENSE.

Definition _calculate_projected_income (target_date : date) : Q :=
  let historical_avg := _calculate_historical_income_average in
  let recurring_income := _calculate_recurring_income target_date in
  Py.max historical_avg recurring_income.

Definition _calculate_projected_expenses (target_date : date) : Q :=
  let historical_avg := _calculate_historical_expense_average in
  let recurring_expenses := _calculate_recurring_expenses target_date in
  Py.max historical_avg recurring_expenses.

Definition _calculate_projected_expenses_by_category (target_date : date)
  : Dict.t Q :=
  fold_left (fun projections (category : Category.t) =>
               let three_months_ago := Date.sub_months current_date 3 in
               let avg_expense :=
                 Query.avg_where db
                   (Query.in_period_of (Category.id category) three_months_ago
                      current_date EXPENSE) in
               Dict.set projections (Category.name category)
                 (Py.float_or_zero avg_expense))
    (categories db) [].

Definition calculate_savings_capacity (months : Z)
  : result (Dict.t SavingsEntry.t) :=
  for_each (fun results i =>
              let future_date := Date.add_months current_date (i + 1) in
              let month_key := Date.month_key (year future_date) (month future_date) in
              let projected_income := _calculate_projected_income future_date in
              let projected_expenses := _calculate_projected_expenses future_date in
              let projected_savings := (projected_income - projected_expenses)%Q in
              try! savings_rate :=
                (if Py.gtb projected_income 0
                 then try! q := Py.truediv projected_savings projected_income
                      in Ok (q * 100)%Q
                 else Ok 0%Q) in
              Ok (Dict.set results month_key
                    {| SavingsEntry.month := Date.month_name (month future_date);
                       SavingsEntry.year := year future_date;
                       SavingsEntry.projected_income := projected_income;
                       SavingsEntry.projected_expenses := projected_expenses;
                       SavingsEntry.projected_savings := projected_savings;
                       SavingsEntry.savings_rate := savings_rate |}))
    (Py.range 0 months) [].

Definition calculate_income_projections (months : Z) : Dict.t IncomeProjection.t :=
  fold_left (fun results i =>
               let future_date := Date.add_months current_date (i + 1) in
               let month_key := Date.month_key (year future_date) (month future_date) in
               let projected_income := _calculate_projected_income future_date in
               let recurring_income := _calculate_recurring_income future_date in
               let historical_average := _calculate_historical_income_average in
               Dict.set results month_key
                 {| IncomeProjection.month := month future_date;
                    IncomeProjection.month_name := Date.month_name (month future_date);
                    IncomeProjection.year := year future_date;
                    IncomeProjection.projected_total := projected_income;
                    IncomeProjection.recurring_income := recurring_income;
                    IncomeProjection.historical_average := historical_average |})
    (Py.range 0 months) [].

Definition calculate_expense_projections (months : Z) : Dict.t ExpenseProjection.t :=
  fold_left (fun results i =>
               let future_date := Date.add_months current_date (i + 1) in
               let month_key := Date.month_key (year future_date) (month future_date) in
               let projected_expenses := _calculate_projected_expenses future_date in
               let recurring_expenses := _calculate_recurring_expenses future_date in
               let historical_average := _calculate_historical_expense_average in
               let projected_by_category :=
                 _calculate_projected_expenses_by_category future_date in
               Dict.set results month_key
                 {| ExpenseProjection.month := month future_date;
                    ExpenseProjection.month_name := Date.month_name (month future_date);
                    ExpenseProjection.year := year future_date;
                    ExpenseProjection.projected_total := projected_expenses;
                    ExpenseProjection.recurring_expenses := recurring_expenses;
                    ExpenseProjection.historical_average := historical_average;
                    ExpenseProjection.projected_by_category := projected_by_category |})
    (Py.range 0 months) [].

(** The body of the loop of [get_goals_progress]. *)
Definition goal_progress (goal : Goal.t) : result GoalProgress.t :=
  try! progress_percentage :=
    (if Py.gtb (Goal.target_amount goal) 0
     then try! q := Py.truediv (Goal.current_amount goal) (Goal.target_amount goal)
          in Ok (q * 100)%Q
     else Ok 0%Q) in
  let remaining_amount := (Goal.target_amount goal - Goal.current_amount goal)%Q in
  let days_remaining := Date.days_between (Goal.target_date goal) current_date in
  let months_remaining := Py.max 0 (inject_Z days_remaining / (3044 # 100))%Q in
  try! monthly_needed :=
    (if Py.gtb months_remaining 0
     then Py.truediv remaining_amount months_remaining
     else Ok remaining_amount) in
  Ok {| GoalProgress.id := Goal.id goal;
        GoalProgress.name := Goal.name goal;
        GoalProgress.description := Goal.description goal;
        GoalProgress.target_amount := Goal.target_amount goal;
        GoalProgress.current_amount := Goal.current_amount goal;
        GoalProgress.target_date := Date.isoformat (Goal.target_date goal);
        GoalProgress.progress_percentage := progress_percentage;
        GoalProgress.remaining_amount := remaining_amount;
        GoalProgress.days_remaining := days_remaining;
        GoalProgress.months_remaining := months_remaining;
        GoalProgress.monthly_needed := monthly_needed |}.

Definition get_goals_progress : result (list GoalProgress.t) :=
  let goals := Query.active_goals db in
  for_append goal_progress goals [].

Definition calculate_health_score : result HealthScore.t :=
  let current_month_data := get_current_month_summary in
  (* positive balance (25) *)
  let positive_balance :=
    if Py.gtb (Summary.partial_balance current_month_data) 0 then 25%Q else 0%Q in
  (* savings rate (30) *)
  try! savings_capacity :=
    (if Py.gtb (Summary.total_income current_month_data) 0
     then try! savings_rate :=
            Py.truediv (Summary.partial_balance current_month_data)
              (Summary.total_income current_month_data) in
          if Py.geb savings_rate (2 # 10) then Ok 30%Q
          else if Py.geb savings_rate (1 # 10) then Ok 20%Q
          else if Py.gtb savings_rate 0 then Ok 10%Q
          else Ok 0%Q
     else Ok 0%Q) in
  (* spending limits (30) *)
  try! limits_status := get_spending_limits_status in
  try! spending_discipline :=
    match limits_status with
    | _ :: _ =>
        let within_limits :=
          Py.sum (map (fun _ => 1%Q)
                    (List.filter (fun limit =>
                               Py.leb (LimitStatus.current_spent limit)
                                 (LimitStatus.monthly_limit limit))
                       limits_status)) in
        try! q := Py.truediv within_limits
                    (inject_Z (Z.of_nat (length limits_status))) in
        Ok (q * 30)%Q
    | [] => Ok 15%Q
    end in
  (* income sources (15): distinct Category.name over Category joined
     with Transaction *)
  let income_sources :=
    Z.of_nat
      (length
         (nodup string_dec
            (map Category.name
               (List.filter (fun c : Category.t =>
                          existsb (fun x =>
                                     (Transaction.category_id x =? Category.id c)
                                     && TransactionType_eqb
                                          (Transaction.transaction_type x) INCOME)
                            (transactions db))
                  (categories db))))) in
  let income_diversification :=
    if income_sources >=? 3 then 15%Q
    else if income_sources =? 2 then 10%Q
    else if income_sources =? 1 then 5%Q
    else 0%Q in
  let score_factors :=
    {| ScoreFactors.positive_balance := positive_balance;
       ScoreFactors.savings_capacity := savings_capacity;
       ScoreFactors.spending_discipline := spending_discipline;
       ScoreFactors.income_diversification := income_diversification |} in
  let total_score :=
    Py.sum [positive_balance; savings_capacity; spending_discipline;
            income_diversification] in
  let health_level :=
    if Py.geb total_score 80 then "Excelente"%string
    else if Py.geb total_score 60 then "Boa"%string
    else if Py.geb total_score 40 then "Regular"%string
    else "Ruim"%string in
  let recommendations := [] in
  let recommendations :=
    if Py.eqb positive_balance 0
    then recommendations
         ++ ["Procure reduzir despesas ou aumentar receitas para manter saldo positivo"%string]
    else recommendations in
  let recommendations :=
    if Py.ltb savings_capacity 20
    then recommendations
         ++ ["Procure aumentar sua renda ou reduzir despesas para melhorar a capacidade de poupança"%string]
    else recommendations in
  let recommendations :=
    if Py.ltb spending_discipline 20
    then recommendations
         ++ ["Revise e ajuste seus limites de gastos por categoria"%string]
    else recommendations in
  let recommendations :=
    if Py.ltb income_diversification 10
    then recommendations
         ++ ["Considere diversificar suas fontes de renda"%string]
    else recommendations in
  let recommendations :=
    match recommendations with
    | [] => ["Continue mantendo seus bons hábitos financeiros!"%string]
    | _ => recommendations
    end in
  Ok {| HealthScore.total_score := total_score;
        HealthScore.score_factors := score_factors;
        HealthScore.health_level := health_level;
        HealthScore.recommendations := recommendations |}.


End Analyzer.

End FinancialAnalysisSimple.

(** ** [alert_system.py] *)

Inductive AlertType : Type :=
| SPENDING_LIMIT_WARNING
| SPENDING_LIMIT_EXCEEDED
| GOAL_BEHIND_SCHEDULE
| GOAL_DEADLINE_APPROACHING
| LOW_BALANCE_PROJECTION
| UNUSUAL_SPENDING
| BILL_REMINDER
| POSITIVE_TREND.

Inductive AlertPriority : Type := LOW | MEDIUM | HIGH | CRITICAL.

Definition AlertType_value (t : AlertType) : string :=
  match t with
  | SPENDING_LIMIT_WARNING => "spending_limit_warning"
  | SPENDING_LIMIT_EXCEEDED => "spending_limit_exceeded"
  | GOAL_BEHIND_SCHEDULE => "goal_behind_schedule"
  | GOAL_DEADLINE_APPROACHING => "goal_deadline_approaching"
  | LOW_BALANCE_PROJECTION => "low_balance_projection"
  | UNUSUAL_SPENDING => "unusual_spending"
  | BILL_REMINDER => "bill_reminder"
  | POSITIVE_TREND => "positive_trend"
  end.

Definition AlertPriority_value (p : AlertPriority) : string :=
  match p with
  | LOW => "low"
  | MEDIUM => "medium"
  | HIGH => "high"
  | CRITICAL => "critical"
  end.

Definition AlertType_eqb (a b : AlertType) : bool :=
  String.eqb (AlertType_value a) (AlertType_value b).

Definition AlertPriority_eqb (a b : AlertPriority) : bool :=
  match a, b with
  | LOW, LOW | MEDIUM, MEDIUM | HIGH, HIGH | CRITICAL, CRITICAL => true
  | _, _ => false
  end.

(** An f-string, kept as its pieces: the rendering of a float
    ([_format_currency], [:.1f]) is left to the reader of the alert. *)
Inductive Piece : Type :=
| Text (s : string)
| Currency (amount : Q)
| Fixed1 (x : Q)
| Int (n : Z).

(** A value of an alert's [data] dictionary. *)
Inductive Value : Type :=
| VFloat (x : Q)
| VInt (n : Z)
| VStr (s : string).

Module Alert.

Record t : Type := mk {
  alert_type : AlertType;
  priority : AlertPriority;
  title : list Piece;
  message : list Piece;
  data : Dict.t Value;
  action_url : string;
  created_at : Z;
  is_read : bool
}.

(** [Alert.__init__], [now] being what [datetime.utcnow()] returns. *)
Definition new (now : Z) (alert_type : AlertType) (priority : AlertPriority)
    (title message : list Piece) (data : Dict.t Value) (action_url : string) : t :=
  {| alert_type := alert_type;
     priority := priority;
     title := title;
     message := message;
     data := data;
     action_url := action_url;
     created_at := now;
     is_read := false |}.

(** [alert.is_read = b]. *)
Definition set_is_read (a : t) (b : bool) : t :=
  {| alert_type := alert_type a;
     priority := priority a;
     title := title a;
     message := message a;
     data := data a;
     action_url := action_url a;
     created_at := created_at a;
     is_read := b |}.

End Alert.

Module AlertDict.
Record t : Type := mk {
  type : string;
  priority : string;
  title : list Piece;
  message : list Piece;
  data : Dict.t Value;
  action_url : string;
  created_at : Z;
  is_read : bool
}.
End AlertDict.

Module AlertsSummary.
Record t : Type := mk {
  total : Z;
  unread : Z;
  by_priority : Dict.t Z;
  alerts : list AlertDict.t
}.
End AlertsSummary.

Module AlertSystem.

Definition to_dict (a : Alert.t) : AlertDict.t :=
  {| AlertDict.type := AlertType_value (Alert.alert_type a);
     AlertDict.priority := AlertPriority_value (Alert.priority a);
     AlertDict.title := Alert.title a;
     AlertDict.message := Alert.message a;
     AlertDict.data := Alert.data a;
     AlertDict.action_url := Alert.action_url a;
     AlertDict.created_at := Alert.created_at a;
     AlertDict.is_read := Alert.is_read a |}.

(** The methods that only read or update [self.alerts]. Every slot of
    the list holds an [Alert] that was constructed for that slot, so the
    list of objects is the list of their records. *)

Definition get_alerts_by_priority (alerts : list Alert.t) (priority : AlertPriority)
  : list Alert.t :=
  List.filter (fun alert => AlertPriority_eqb (Alert.priority alert) priority) alerts.

Definition get_unread_alerts_count (alerts : list Alert.t) : Z :=
  Z.of_nat (length (List.filter (fun alert => negb (Alert.is_read alert)) alerts)).

Definition mark_alert_as_read (alerts : list Alert.t) (alert_index : Z)
  : result (list Alert.t) :=
  if (0 <=? alert_index) && (alert_index <? Z.of_nat (length alerts))
  then match alerts !! Z.to_nat alert_index with
       | Some a =>
           Ok (<[Z.to_nat alert_index := Alert.set_is_read a true]> alerts)
       | None => Raise IndexError
       end
  else Ok alerts.

Definition get_alerts_summary (alerts : list Alert.t) : AlertsSummary.t :=
  let total := Z.of_nat (length alerts) in
  let by_priority :=
    [("critical"%string, Z.of_nat (length (get_alerts_by_priority alerts CRITICAL)));
     ("high"%string, Z.of_nat (length (get_alerts_by_priority alerts HIGH)));
     ("medium"%string, Z.of_nat (length (get_alerts_by_priority alerts MEDIUM)));
     ("low"%string, Z.of_nat (length (get_alerts_by_priority alerts LOW)))] in
  let unread := get_unread_alerts_count alerts in
  {| AlertsSummary.total := total;
     AlertsSummary.unread := unread;
     AlertsSummary.by_priority := by_priority;
     AlertsSummary.alerts := map to_dict alerts |}.

Section Pass.

Variable db : Store.
(** [self.current_date], read when the [AlertSystem] was constructed. *)
Variable current_date : date.
(** [date.today()] as read by the [FinancialAnalyzer] that
    [_check_balance_projections] constructs. *)
Variable today : date.
(** [datetime.utcnow()] as read by the n-th [Alert] constructed in a
    pass, which is the alert at index n of [self.alerts]. *)
Variable utcnow : nat -> Z.

Definition append (alerts : list Alert.t) (alert_type : AlertType)
    (priority : AlertPriority) (title message : list Piece)
    (data : Dict.t Value) (action_url : string) : list Alert.t :=
  alerts ++ [Alert.new (utcnow (length alerts)) alert_type priority title
               message data action_url].

(** [(part / whole) * 100 if whole > 0 else 0]. *)
Definition percentage_of (part whole : Q) : result Q :=
  if Py.gtb whole 0
  then try! q := Py.truediv part whole in Ok (q * 100)%Q
  else Ok 0%Q.

(** The body of the loop of [_check_spending_limits]. *)
Definition check_limit (alerts : list Alert.t) (limit : SpendingLimit.t)
  : result (list Alert.t) :=
  let current_spent :=
    Query.current_spent db current_date (SpendingLimit.category_id limit) in
  let monthly_limit := SpendingLimit.monthly_limit limit in
  let category_name := Category.name (SpendingLimit.category limit) in
  try! percentage_used := percentage_of current_spent monthly_limit in
  if Py.gtb current_spent monthly_limit then
    let excess := (current_spent - monthly_limit)%Q in
    Ok (append alerts SPENDING_LIMIT_EXCEEDED HIGH
          [Text "Limite excedido: "; Text category_name]
          [Text "Você excedeu o limite de "; Currency monthly_limit;
           Text " em "; Text category_name; Text " por "; Currency excess;
           Text "."]
          [("category_id", VInt (SpendingLimit.category_id limit));
           ("category_name", VStr category_name);
           ("limit", VFloat monthly_limit);
           ("spent", VFloat current_spent);
           ("excess", VFloat excess);
           ("percentage", VFloat percentage_used)]%string
          (String.append "/transactions?category="
             (Py.str (SpendingLimit.category_id limit))))
  else if Py.geb percentage_used 80 then
    let remaining := (monthly_limit - current_spent)%Q in
    Ok (append alerts SPENDING_LIMIT_WARNING MEDIUM
          [Text "Atenção: "; Text category_name]
          [Text "Você já gastou "; Fixed1 percentage_used;
           Text "% do limite em "; Text category_name; Text ". Restam ";
           Currency remaining; Text "."]
          [("category_id", VInt (SpendingLimit.category_id limit));
           ("category_name", VStr category_name);
           ("limit", VFloat monthly_limit);
           ("spent", VFloat current_spent);
           ("remaining", VFloat remaining);
           ("percentage", VFloat percentage_used)]%string
          (String.append "/transactions?category="
             (Py.str (SpendingLimit.category_id limit))))
  else Ok alerts.

Definition _check_spending_limits (alerts : list Alert.t) : result (list Alert.t) :=
  let month_year := Date.month_key (year current_date) (month current_date) in
  let limits := Query.limits_of db month_year in
  for_each check_limit limits alerts.

Definition _calculate_total_months (goal : Goal.t) : Q :=
  let total_days := Date.days_between (Goal.target_date goal) (Goal.created_at goal) in
  Py.max 1 (inject_Z total_days / (3044 # 100))%Q.

(** The body of the loop of [_check_goals_progress]. *)
Definition check_goal (alerts : list Alert.t) (goal : Goal.t)
  : result (list Alert.t) :=
  let days_remaining := Date.days_between (Goal.target_date goal) current_date in
  let months_remaining := Py.max 0 (inject_Z days_remaining / (3044 # 100))%Q in
  try! alerts :=
    (if (0 <? days_remaining) && (days_remaining <=? 30) then
       try! progress_percentage :=
         percentage_of (Goal.current_amount goal) (Goal.target_amount goal) in
       if Py.ltb progress_percentage 90 then
         Ok (append alerts GOAL_DEADLINE_APPROACHING HIGH
               [Text "Meta próxima do prazo: "; Text (Goal.name goal)]
               [Text "Sua meta '"; Text (Goal.name goal); Text "' vence em ";
                Int days_remaining; Text " dias e está ";
                Fixed1 progress_percentage; Text "% concluída."]
               [("goal_id", VInt (Goal.id goal));
                ("goal_name", VStr (Goal.name goal));
                ("target_amount", VFloat (Goal.target_amount goal));
                ("current_amount", VFloat (Goal.current_amount goal));
                ("progress_percentage", VFloat progress_percentage);
                ("days_remaining", VInt days_remaining)]%string
               "/goals")
       else Ok alerts
     else Ok alerts) in
  if Py.gtb months_remaining 0 then
    try! q := Py.truediv months_remaining (_calculate_total_months goal) in
    let ideal_progress := (1 - q)%Q in
    try! actual_progress :=
      (if Py.gtb (Goal.target_amount goal) 0
       then Py.truediv (Goal.current_amount goal) (Goal.target_amount goal)
       else Ok 0%Q) in
    if Py.ltb actual_progress (ideal_progress - (1 # 10))%Q then
      let amount_needed := (Goal.target_amount goal - Goal.current_amount goal)%Q in
      try! monthly_needed :=
        (if Py.gtb months_remaining 0
         then Py.truediv amount_needed months_remaining
         else Ok amount_needed) in
      Ok (append alerts GOAL_BEHIND_SCHEDULE MEDIUM
            [Text "Meta atrasada: "; Text (Goal.name goal)]
            [Text "Sua meta '"; Text (Goal.name goal);
             Text "' está atrasada. Você precisa poupar ";
             Currency monthly_needed; Text " por mês para alcançá-la."]
            [("goal_id", VInt (Goal.id goal));
             ("goal_name", VStr (Goal.name goal));
             ("ideal_progress", VFloat (ideal_progress * 100));
             ("actual_progress", VFloat (actual_progress * 100));
             ("monthly_needed", VFloat monthly_needed);
             ("months_remaining", VFloat months_remaining)]%string
            "/goals")
    else Ok alerts
  else Ok alerts.

Definition _check_goals_progress (alerts : list Alert.t) : result (list Alert.t) :=
  let goals := Query.active_goals db in
  for_each check_goal goals alerts.

(** The loop of [_check_balance_projections], which leaves at the
    first month it alerts on. *)
Fixpoint balance_loop (items : list (string * SavingsEntry.t))
    (alerts : list Alert.t) : list Alert.t :=
  match items with
  | [] => alerts
  | (month_key, data) :: rest =>
      if Py.ltb (SavingsEntry.projected_savings data) 0 then
        append alerts LOW_BALANCE_PROJECTION HIGH
          [Text "Saldo negativo projetado"]
          [Text "Em "; Text (SavingsEntry.month data); Text " de ";
           Int (SavingsEntry.year data);
           Text ", suas despesas podem exceder as receitas em ";
           Currency (Py.abs (SavingsEntry.projected_savings data)); Text "."]
          [("month", VStr (SavingsEntry.month data));
           ("year", VInt (SavingsEntry.year data));
           ("projected_income", VFloat (SavingsEntry.projected_income data));
           ("projected_expenses", VFloat (SavingsEntry.projected_expenses data));
           ("projected_deficit",
            VFloat (Py.abs (SavingsEntry.projected_savings data)))]%string
          "/projections"
        (* break *)
      else balance_loop rest alerts
  end.

Definition _check_balance_projections (alerts : list Alert.t)
  : result (list Alert.t) :=
  try! savings_capacity := FinancialAnalysis.calculate_savings_capacity db today 3 in
  Ok (balance_loop (Dict.items savings_capacity) alerts).

Definition _check_unusual_spending (alerts : list Alert.t)
  : result (list Alert.t) :=
  let week_ago := Date.sub_days current_date 7 in
  let recent_expenses :=
    Py.or_zero (Query.sum_where db (Query.in_period week_ago current_date EXPENSE)) in
  let three_months_ago := Date.sub_months current_date 3 in
  let historical_weekly_avg :=
    Py.or_zero
      (Query.avg_where db
         (fun x =>
            Date.geb (Transaction.transaction_date x) three_months_ago
            && Date.ltb (Transaction.transaction_date x) week_ago
            && TransactionType_eqb (Transaction.transaction_type x) EXPENSE)) in
  let historical_weekly_avg := (historical_weekly_avg * 7)%Q in
  if Py.gtb recent_expenses (historical_weekly_avg * (3 # 2))%Q
     && Py.gtb historical_weekly_avg 0
  then
    let excess := (recent_expenses - historical_weekly_avg)%Q in
    try! q := Py.truediv recent_expenses historical_weekly_avg in
    Ok (append alerts UNUSUAL_SPENDING MEDIUM
          [Text "Gastos acima do normal"]
          [Text "Seus gastos desta semana ("; Currency recent_expenses;
           Text ") estão "; Currency excess; Text " acima da média histórica."]
          [("recent_expenses", VFloat recent_expenses);
           ("historical_average", VFloat historical_weekly_avg);
           ("excess", VFloat excess);
           ("percentage_increase", VFloat ((q - 1) * 100))]%string
          "/transactions")
  else Ok alerts.

Definition _check_bill_reminders (alerts : list Alert.t) : list Alert.t :=
  let next_week := Date.add_days current_date 7 in
  let recurring_transactions :=
    List.filter (fun r =>
              RecurringTransaction.is_active r
              && TransactionType_eqb (RecurringTransaction.transaction_type r) EXPENSE
              && Date.leb (RecurringTransaction.next_occurrence r) next_week
              && Date.geb (RecurringTransaction.next_occurrence r) current_date)
      (recurring_transactions db) in
  fold_left (fun alerts transaction =>
               let days_until :=
                 Date.days_between (RecurringTransaction.next_occurrence transaction)
                   current_date in
               append alerts BILL_REMINDER LOW
                 [Text "Lembrete: "; Text (RecurringTransaction.description transaction)]
                 [Text "A conta '"; Text (RecurringTransaction.description transaction);
                  Text "' de "; Currency (RecurringTransaction.amount transaction);
                  Text " vence em "; Int days_until; Text " dia(s)."]
                 [("transaction_id", VInt (RecurringTransaction.id transaction));
                  ("description", VStr (RecurringTransaction.description transaction));
                  ("amount", VFloat (RecurringTransaction.amount transaction));
                  ("due_date",
                   VStr (Date.isoformat (RecurringTransaction.next_occurrence transaction)));
                  ("days_until", VInt days_until);
                  ("category",
                   VStr (Category.name (RecurringTransaction.category transaction)))]%string
                 "/transactions")
    recurring_transactions alerts.

Definition _get_month_income (y m : Z) (start_date end_date : date) : Q :=
  Py.float_or_zero (Query.sum_where db (Query.in_period start_date end_date INCOME)).

Definition _get_month_expenses (y m : Z) (start_date end_date : date) : Q :=
  Py.float_or_zero (Query.sum_where db (Query.in_period start_date end_date EXPENSE)).

Definition _check_positive_trends (alerts : list Alert.t) : result (list Alert.t) :=
  let current_month := month current_date in
  let current_year := year current_date in
  let start_of_month := mkdate current_year current_month 1 in
  let current_month_income :=
    _get_month_income current_year current_month start_of_month current_date in
  let current_month_expenses :=
    _get_month_expenses current_year current_month start_of_month current_date in
  let current_savings := (current_month_income - current_month_expenses)%Q in
  let '(prev_month, prev_year) :=
    if current_month =? 1 then (12, current_year - 1)
    else (current_month - 1, current_year) in
  let days_in_current_month := day current_date in
  let prev_month_start := mkdate prev_year prev_month 1 in
  let prev_month_end :=
    mkdate prev_year prev_month (Z.min days_in_current_month 28) in
  let prev_month_income :=
    _get_month_income prev_year prev_month prev_month_start prev_month_end in
  let prev_month_expenses :=
    _get_month_expenses prev_year prev_month prev_month_start prev_month_end in
  let prev_savings := (prev_month_income - prev_month_expenses)%Q in
  if Py.gtb current_savings prev_savings && Py.gtb prev_savings 0 then
    let improvement := (current_savings - prev_savings)%Q in
    try! improvement_percentage :=
      (if Py.gtb prev_savings 0
       then try! q := Py.truediv current_savings prev_savings in Ok ((q - 1) * 100)%Q
       else Ok 0%Q) in
    Ok (append alerts POSITIVE_TREND LOW
          [Text "Parabéns! Economia melhorou"]
          [Text "Você está economizando "; Currency improvement;
           Text " a mais que no mês passado. Continue assim!"]
          [("current_savings", VFloat current_savings);
           ("previous_savings", VFloat prev_savings);
           ("improvement", VFloat improvement);
           ("improvement_percentage", VFloat improvement_percentage)]%string
          "/dashboard")
  else Ok alerts.

Definition generate_all_alerts : result (list Alert.t) :=
  let alerts := [] in
  try! alerts := _check_spending_limits alerts in
  try! alerts := _check_goals_progress alerts in
  try! alerts := _check_balance_projections alerts in
  try! alerts := _check_unusual_spending alerts in
  let alerts := _check_bill_reminders alerts in
  try! alerts := _check_positive_trends alerts in
  Ok alerts.

End Pass.

End AlertSystem.

(** ** [self.alerts] as a list of references

    Python keeps [self.alerts] as a list of references to [Alert] objects.
    [generate_all_alerts] rebinds it to a new list and appends every
    [Alert] it constructs exactly once, so the slots of the list refer to
    different objects; [mark_alert_as_read] assigns to a field of the
    object a slot refers to. *)

Module ObjectStore.

Record t : Type := mk {
  objects : list Alert.t;   (* the object at each address *)
  alerts : list nat         (* [self.alerts]: addresses *)
}.

(** The slots of [self.alerts], dereferenced. *)
Definition contents (s : t) : list (option Alert.t) :=
  map (fun r => objects s !! r) (alerts s).

(** The store holds the list of alerts [l]. *)
Definition represents (s : t) (l : list Alert.t) : Prop :=
  contents s = map Some l.

(** [self.alerts = []] followed by the construction and the append of
    each alert of [new]. *)
Definition replace_alerts (s : t) (new : list Alert.t) : t :=
  {| objects := objects s ++ new;
     alerts := seq (length (objects s)) (length new) |}.

Definition mark_alert_as_read (s : t) (alert_index : Z) : result t :=
  if (0 <=? alert_index) && (alert_index <? Z.of_nat (length (alerts s)))
  then match alerts s !! Z.to_nat alert_index with
       | Some r =>
           match objects s !! r with
           | Some a =>
               Ok {| objects := <[r := Alert.set_is_read a true]> (objects s);
                     alerts := alerts s |}
           | None => Raise IndexError
           end
       | None => Raise IndexError
       end
  else Ok s.

End ObjectStore.

(** ** Vocabulary of the properties *)

(** The value a call returns, [d] if it raises. *)
Definition value_of {A : Type} (d : A) (r : result A) : A :=
  match r with
  | Ok a => a
  | Raise _ => d
  end.

(** The three states of a spending limit. The alert system reports the
    state of a limit by the alert it appends for it: none when the limit
    is respected. *)
Inductive LimitState : Type := Exceeded | Warning | WithinLimit.

Definition state_of_alerts (new : list Alert.t) : LimitState :=
  match new with
  | [] => WithinLimit
  | a :: _ =>
      match Alert.alert_type a with
      | SPENDING_LIMIT_EXCEEDED => Exceeded
      | SPENDING_LIMIT_WARNING => Warning
      | _ => WithinLimit
      end
  end.

(** The two blends of a recurring amount with a historical average. *)
Definition blend_additive (recurring historical : Q) : Q :=
  if Py.gtb recurring 0 then (recurring + (3 # 10) * historical)%Q else historical.

Definition blend_max (recurring historical : Q) : Q :=
  Py.max recurring historical.

(** The priority each rule gives to the alerts of its type. *)
Definition rule_priority (t : AlertType) : AlertPriority :=
  match t with
  | SPENDING_LIMIT_EXCEEDED => HIGH
  | SPENDING_LIMIT_WARNING => MEDIUM
  | GOAL_DEADLINE_APPROACHING => HIGH
  | GOAL_BEHIND_SCHEDULE => MEDIUM
  | LOW_BALANCE_PROJECTION => HIGH
  | UNUSUAL_SPENDING => MEDIUM
  | BILL_REMINDER => LOW
  | POSITIVE_TREND => LOW
  end.

(** The recurring transactions that [_get_recurring_expenses_for_month]
    and [_get_recurring_income_for_month] add up for a month. *)
Definition counted_in_month (db : Store) (ty : TransactionType) (y m : Z)
  : list RecurringTransaction.t :=
  List.filter (fun r => FinancialAnalysis._should_occur_in_month r y m)
    (List.filter (FinancialAnalysis.recurring_in_window ty (mkdate y m 1))
       (recurring_transactions db)).

(** The reading of the limit states in the testable properties of the
    specification: a warning only below 100 percent. *)
Definition spec_limit_state (spent limit percentage_used : Q) : LimitState :=
  if Py.gtb spent limit then Exceeded
  else if Py.leb 80 percentage_used && Py.ltb percentage_used 100 then Warning
  else WithinLimit.

(** The dictionary key of the month that lies [month_offset] months
    after [current_date]. *)
Definition target_key (current_date : date) (month_offset : Z) : string :=
  let target_date := Date.add_months current_date month_offset in
  Date.month_key (year target_date) (month target_date).

(** Months counted from year 0, to compare the months of two dates. *)
Definition month_index (d : date) : Z := year d * 12 + month d.

(** What a loop that assigns the key [key x] for every [x] of [xs] makes
    of a dictionary [d0]: the keys of the result, what holds of all its
    values, and its entries when the keys are new and distinct. *)
Definition built_by {A V : Type} (key : A -> string) (R : A -> V -> Prop)
    (xs : list A) (d0 d' : Dict.t V) : Prop :=
  (forall k, In k (Dict.keys d') <-> In k (Dict.keys d0) \/ In k (map key xs))
  /\ (forall P : V -> Prop,
        (forall x v, In x xs -> R x v -> P v) ->
        Forall P (Dict.values d0) -> Forall P (Dict.values d'))
  /\ (List.NoDup (map key xs) ->
      (forall x, In x xs -> ~ In (key x) (Dict.keys d0)) ->
      exists vs, d' = d0 ++ combine (map key xs) vs /\ Forall2 R xs vs).

(** The entry of the expense projections for a month offset. *)
Definition expense_entry_ok (current_date : date) (month_offset : Z)
    (e : ExpenseProjection.t) : Prop :=
  let target_date := Date.add_months current_date month_offset in
  ExpenseProjection.year e = year target_date
  /\ ExpenseProjection.month e = month target_date
  /\ ExpenseProjection.month_name e = Date.month_name (month target_date)
  /\ ExpenseProjection.projected_total e
     = FinancialAnalysis._combine_projections
         (ExpenseProjection.recurring_expenses e)
         (ExpenseProjection.historical_average e).

(** The entry of the income projections for a month offset. *)
Definition income_entry_ok (current_date : date) (month_offset : Z)
    (e : IncomeProjection.t) : Prop :=
  let target_date := Date.add_months current_date month_offset in
  IncomeProjection.year e = year target_date
  /\ IncomeProjection.month e = month target_date
  /\ IncomeProjection.month_name e = Date.month_name (month target_date)
  /\ IncomeProjection.projected_total e
     = Py.max (IncomeProjection.recurring_income e)
         (IncomeProjection.historical_average e).

(** An alert of one of the given types, with the priority of its rule. *)
Definition by_rule (types : list AlertType) (a : Alert.t) : Prop :=
  In (Alert.alert_type a) types
  /\ Alert.priority a = rule_priority (Alert.alert_type a).

(** A month without projected deficit. *)
Definition no_deficit (item : string * SavingsEntry.t) : Prop :=
  Py.ltb (SavingsEntry.projected_savings (snd item)) 0 = false.

(** The progress figures that the alerts of a goal carry: the percentage
    of the deadline alert and the fraction, times 100, of the
    behind-schedule alert. *)
Definition carries_progress (percentage fraction : Q) (a : Alert.t) : Prop :=
  (Alert.alert_type a = GOAL_DEADLINE_APPROACHING ->
   Dict.get (Alert.data a) "progress_percentage" = Ok (VFloat percentage))
  /\ (Alert.alert_type a = GOAL_BEHIND_SCHEDULE ->
      Dict.get (Alert.data a) "actual_progress" = Ok (VFloat (fraction * 100))).

(** The two figures that [_check_unusual_spending] compares: the expenses
    of the last seven days and the average over the three months before
    them, times 7. The average is the one the query computes, over the
    amounts of the transactions. *)
Definition unusual_window (current_date : date) (x : Transaction.t) : bool :=
  Date.geb (Transaction.transaction_date x) (Date.sub_months current_date 3)
  && Date.ltb (Transaction.transaction_date x) (Date.sub_days current_date 7)
  && TransactionType_eqb (Transaction.transaction_type x) EXPENSE.

Definition recent_expenses (db : Store) (current_date : date) : Q :=
  Py.or_zero
    (Query.sum_where db
       (Query.in_period (Date.sub_days current_date 7) current_date EXPENSE)).

Definition historical_weekly_avg (db : Store) (current_date : date) : Q :=
  (Py.or_zero (Query.avg_where db (unusual_window current_date)) * 7)%Q.

(** The historical weekly average in the words of the specification: the
    daily mean of the expenses of the window, that is their sum over the
    number of days of the window, times 7. *)
Definition daily_mean_weekly_avg (db : Store) (current_date : date) : Q :=
  let days :=
    Date.days_between (Date.sub_days current_date 7) (Date.sub_months current_date 3) in
  let total :=
    Py.sum (Query.amounts (List.filter (unusual_window current_date) (transactions db))) in
  ((if 0 <? days then total / inject_Z days else 0) * 7)%Q.

(** What one pass makes of one spending limit: [new] are the alerts the
    alert system appends for it. *)
Definition limit_alerts_ok (db : Store) (current_date : date)
    (limit : SpendingLimit.t) (new : list Alert.t) : Prop :=
  let spent := Query.current_spent db current_date (SpendingLimit.category_id limit) in
  let lim := SpendingLimit.monthly_limit limit in
  let pct := if Py.gtb lim 0 then (spent / lim * 100)%Q else 0%Q in
  (length new <= 1)%nat
  /\ (state_of_alerts new = Exceeded <-> (lim < spent)%Q)
  /\ (state_of_alerts new = Warning <-> ~ (lim < spent)%Q /\ (80 <= pct)%Q)
  /\ (state_of_alerts new = WithinLimit <-> ~ (lim < spent)%Q /\ ~ (80 <= pct)%Q)
  /\ Forall (fun a => Dict.get (Alert.data a) "percentage" = Ok (VFloat pct)) new.

(** And [st], its entry in the status list of the analyzer. *)
Definition limit_status_ok (db : Store) (current_date : date)
    (limit : SpendingLimit.t) (st : FinancialAnalysis.LimitStatus.t) : Prop :=
  let spent := Query.current_spent db current_date (SpendingLimit.category_id limit) in
  let lim := SpendingLimit.monthly_limit limit in
  let pct := if Py.gtb lim 0 then (spent / lim * 100)%Q else 0%Q in
  FinancialAnalysis.LimitStatus.percentage_used st = pct
  /\ (FinancialAnalysis.LimitStatus.is_over_limit st = true <-> (lim < spent)%Q).

(** ** [alerts.py]: the routes over the alert system

    The module keeps one [AlertSystem] for the life of the process: its
    [current_date] is the date of the import of the module, and its
    [alerts] list is the state the routes share. A handler takes the state
    and returns its response and the state it leaves. Of a request only
    the parameters the handler reads are kept. *)

Module AlertsRoutes.

(** [AlertPriority(value)] and [AlertType(value)]: the member with that
    value, [ValueError] ([None]) when there is none. *)
Definition AlertPriority_of_value (v : string) : option AlertPriority :=
  List.find (fun p => String.eqb (AlertPriority_value p) v)
    [LOW; MEDIUM; HIGH; CRITICAL].

Definition AlertType_of_value (v : string) : option AlertType :=
  List.find (fun t => String.eqb (AlertType_value t) v)
    [SPENDING_LIMIT_WARNING; SPENDING_LIMIT_EXCEEDED; GOAL_BEHIND_SCHEDULE;
     GOAL_DEADLINE_APPROACHING; LOW_BALANCE_PROJECTION; UNUSUAL_SPENDING;
     BILL_REMINDER; POSITIVE_TREND].

(** [s.lower()], on the letters A to Z. *)
Definition lower_char (c : ascii) : ascii :=
  let n := nat_of_ascii c in
  if ((65 <=? n) && (n <=? 90))%nat then ascii_of_nat (n + 32) else c.

Fixpoint lower (s : string) : string :=
  match s with
  | EmptyString => EmptyString
  | String c s' => String (lower_char c) (lower s')
  end.

(** The query parameters of [GET /alerts]: [request.args.get(name)]. *)
Record Args : Type := mkArgs {
  priority : option string;
  type : option string;
  unread_only : option string
}.

(** An entry of the lists of [GET /alerts/types]. *)
Record Member : Type := mkMember {
  value : string;
  name : string;
  description : string
}.

(** The bodies of the responses. *)
Inductive Body : Type :=
| AlertsData (alerts : list AlertDict.t) (total : Z) (summary : AlertsSummary.t)
| TypesData (types priorities : list Member)
| SummaryData (summary : AlertsSummary.t)
| PriorityData (alerts : list AlertDict.t) (total : Z) (priority : string)
| Message (message : string)
| TestData (message : list Piece) (alerts : list AlertDict.t)
| Error (error : string)
| Failure (e : exn).

Record Response : Type := mkResponse {
  status : Z;
  success : bool;
  body : Body
}.

Definition ok (b : Body) : Response := mkResponse 200 true b.
Definition bad_request (error : string) : Response :=
  mkResponse 400 false (Error error).
(** [except Exception as e: return ..., 500]. *)
Definition server_error (e : exn) : Response := mkResponse 500 false (Failure e).

(** [bool(s)] for an optional string: a parameter that is absent or
    empty does not filter. *)
Definition given (o : option string) : option string :=
  match o with
  | Some EmptyString => None
  | _ => o
  end.

(** [member.name]. *)
Definition AlertType_name (t : AlertType) : string :=
  match t with
  | SPENDING_LIMIT_WARNING => "SPENDING_LIMIT_WARNING"
  | SPENDING_LIMIT_EXCEEDED => "SPENDING_LIMIT_EXCEEDED"
  | GOAL_BEHIND_SCHEDULE => "GOAL_BEHIND_SCHEDULE"
  | GOAL_DEADLINE_APPROACHING => "GOAL_DEADLINE_APPROACHING"
  | LOW_BALANCE_PROJECTION => "LOW_BALANCE_PROJECTION"
  | UNUSUAL_SPENDING => "UNUSUAL_SPENDING"
  | BILL_REMINDER => "BILL_REMINDER"
  | POSITIVE_TREND => "POSITIVE_TREND"
  end.

Definition AlertPriority_name (p : AlertPriority) : string :=
  match p with
  | LOW => "LOW"
  | MEDIUM => "MEDIUM"
  | HIGH => "HIGH"
  | CRITICAL => "CRITICAL"
  end.

(** [for alert_type in AlertType] and [for priority in AlertPriority]:
    the members in the order of their definition. *)
Definition AlertType_members : list AlertType :=
  [SPENDING_LIMIT_WARNING; SPENDING_LIMIT_EXCEEDED; GOAL_BEHIND_SCHEDULE;
   GOAL_DEADLINE_APPROACHING; LOW_BALANCE_PROJECTION; UNUSUAL_SPENDING;
   BILL_REMINDER; POSITIVE_TREND].

Definition AlertPriority_members : list AlertPriority := [LOW; MEDIUM; HIGH; CRITICAL].

(** [descriptions.get(key, default)] for a dictionary keyed by the
    members of an enumeration. *)
Definition get_or {K : Type} (eqb : K -> K -> bool) (descriptions : list (K * string))
    (key : K) (default : string) : string :=
  match List.find (fun kv => eqb (fst kv) key) descriptions with
  | Some kv => snd kv
  | None => default
  end.

Definition _get_alert_type_description (alert_type : AlertType) : string :=
  let descriptions :=
    [(SPENDING_LIMIT_WARNING, "Aviso de aproximação do limite de gastos");
     (SPENDING_LIMIT_EXCEEDED, "Limite de gastos excedido");
     (GOAL_BEHIND_SCHEDULE, "Meta atrasada em relação ao cronograma");
     (GOAL_DEADLINE_APPROACHING, "Prazo da meta se aproximando");
     (LOW_BALANCE_PROJECTION, "Projeção de saldo baixo ou negativo");
     (UNUSUAL_SPENDING, "Gastos incomuns detectados");
     (BILL_REMINDER, "Lembrete de conta a pagar");
     (POSITIVE_TREND, "Tendência positiva na economia")]%string in
  get_or AlertType_eqb descriptions alert_type "Tipo de alerta desconhecido".

Definition _get_priority_description (priority : AlertPriority) : string :=
  let descriptions :=
    [(LOW, "Baixa - Informativo");
     (MEDIUM, "Média - Requer atenção");
     (HIGH, "Alta - Ação recomendada");
     (CRITICAL, "Crítica - Ação imediata necessária")]%string in
  get_or AlertPriority_eqb descriptions priority "Prioridade desconhecida".

(** [GET /alerts/types]. *)
Definition get_alert_types : Response :=
  let types :=
    map (fun alert_type =>
           {| value := AlertType_value alert_type;
              name := AlertType_name alert_type;
              description := _get_alert_type_description alert_type |})
      AlertType_members in
  let priorities :=
    map (fun priority =>
           {| value := AlertPriority_value priority;
              name := AlertPriority_name priority;
              description := _get_priority_description priority |})
      AlertPriority_members in
  ok (TypesData types priorities).

Section Routes.

Variable db : Store.
(** [alert_system.current_date]. *)
Variable current_date : date.
(** [date.today()] and [datetime.utcnow()] during the request. *)
Variable today : date.
Variable utcnow : nat -> Z.

(** [alert_system.generate_all_alerts()]: the new list is also the
    state. Were the pass to raise, the state would keep the alerts
    appended so far; the pass returns for every ledger, and the state
    of that case is left empty. *)
Definition regenerate : result (list Alert.t) :=
  AlertSystem.generate_all_alerts db current_date today utcnow.

(** [GET /alerts]. *)
Definition get_alerts (args : Args) (state : list Alert.t)
  : Response * list Alert.t :=
  let priority_filter := priority args in
  let alert_type_filter := type args in
  let unread_only :=
    String.eqb
      (lower (match unread_only args with Some v => v | None => "false" end))
      "true" in
  match regenerate with
  | Raise e => (server_error e, [])
  | Ok alerts =>
      let filtered_alerts := alerts in
      let after_priority :=
        match given priority_filter with
        | Some v =>
            match AlertPriority_of_value v with
            | Some priority =>
                Ok (List.filter
                      (fun alert => AlertPriority_eqb (Alert.priority alert) priority)
                      filtered_alerts)
            | None => Raise KeyError
            end
        | None => Ok filtered_alerts
        end in
      match after_priority with
      | Raise _ => (bad_request "Prioridade inválida", alerts)
      | Ok filtered_alerts =>
          let after_type :=
            match given alert_type_filter with
            | Some v =>
                match AlertType_of_value v with
                | Some alert_type =>
                    Ok (List.filter
                          (fun alert => AlertType_eqb (Alert.alert_type alert) alert_type)
                          filtered_alerts)
                | None => Raise KeyError
                end
            | None => Ok filtered_alerts
            end in
          match after_type with
          | Raise _ => (bad_request "Tipo de alerta inválido", alerts)
          | Ok filtered_alerts =>
              let filtered_alerts :=
                if unread_only
                then List.filter (fun alert => negb (Alert.is_read alert))
                       filtered_alerts
                else filtered_alerts in
              let alerts_data := map AlertSystem.to_dict filtered_alerts in
              (ok (AlertsData alerts_data (Z.of_nat (length alerts_data))
                     (AlertSystem.get_alerts_summary alerts)),
               alerts)
          end
      end
  end.

(** [GET /alerts/summary]. *)
Definition get_alerts_summary (state : list Alert.t) : Response * list Alert.t :=
  match regenerate with
  | Raise e => (server_error e, [])
  | Ok alerts => (ok (SummaryData (AlertSystem.get_alerts_summary alerts)), alerts)
  end.

(** [POST /alerts/<int:alert_index>/mark-read]. *)
Definition mark_alert_read (alert_index : Z) (state : list Alert.t)
  : Response * list Alert.t :=
  match AlertSystem.mark_alert_as_read state alert_index with
  | Raise e => (server_error e, state)
  | Ok state' => (ok (Message "Alerta marcado como lido"), state')
  end.

(** [GET /alerts/priority/<priority>]. *)
Definition get_alerts_by_priority (priority : string) (state : list Alert.t)
  : Response * list Alert.t :=
  match AlertPriority_of_value priority with
  | None => (bad_request "Prioridade inválida", state)
  | Some priority_enum =>
      match regenerate with
      | Raise e => (server_error e, [])
      | Ok alerts =>
          let selected := AlertSystem.get_alerts_by_priority alerts priority_enum in
          let alerts_data := map AlertSystem.to_dict selected in
          (ok (PriorityData alerts_data (Z.of_nat (length alerts_data)) priority),
           alerts)
      end
  end.

(** [POST /alerts/test]. *)
Definition generate_test_alerts (state : list Alert.t) : Response * list Alert.t :=
  let test_alerts :=
    [Alert.new (utcnow 0%nat) SPENDING_LIMIT_EXCEEDED HIGH
       [Text "Teste: Limite excedido"]
       [Text "Este é um alerta de teste para limite excedido."]
       [("category", VStr "Alimentação"); ("limit", VInt 1000);
        ("spent", VInt 1200)]%string
       "/transactions";
     Alert.new (utcnow 1%nat) GOAL_DEADLINE_APPROACHING MEDIUM
       [Text "Teste: Meta próxima do prazo"]
       [Text "Este é um alerta de teste para meta próxima do prazo."]
       [("goal", VStr "Viagem"); ("days_remaining", VInt 15)]%string
       "/goals";
     Alert.new (utcnow 2%nat) POSITIVE_TREND LOW
       [Text "Teste: Tendência positiva"]
       [Text "Este é um alerta de teste para tendência positiva."]
       [("improvement", VInt 500)]%string
       "/dashboard"] in
  (ok (TestData [Int (Z.of_nat (length test_alerts)); Text " alertas de teste criados"]
         (map AlertSystem.to_dict test_alerts)),
   [] ++ test_alerts).

End Routes.

End AlertsRoutes.

(** ** Vocabulary of the further properties *)

(** [alert.is_read = True]. *)
Definition mark_read (a : Alert.t) : Alert.t := Alert.set_is_read a true.

(** The place of a rule in the pass. *)
Definition rule_rank (t : AlertType) : nat :=
  match t with
  | SPENDING_LIMIT_EXCEEDED | SPENDING_LIMIT_WARNING => 0
  | GOAL_DEADLINE_APPROACHING | GOAL_BEHIND_SCHEDULE => 1
  | LOW_BALANCE_PROJECTION => 2
  | UNUSUAL_SPENDING => 3
  | BILL_REMINDER => 4
  | POSITIVE_TREND => 5
  end.

(** An alert of an earlier or of the same rule. *)
Definition rule_before (a b : Alert.t) : Prop :=
  (rule_rank (Alert.alert_type a) <= rule_rank (Alert.alert_type b))%nat.



(** The types of the alerts of a list, in order. *)
Definition types_of (l : list Alert.t) : list AlertType := map Alert.alert_type l.

(** A float of an alert's data that satisfies [P]. *)
Definition data_float (a : Alert.t) (key : string) (P : Q -> Prop) : Prop :=
  exists x, Dict.get (Alert.data a) key = Ok (VFloat x) /\ P x.

(** An integer of an alert's data that satisfies [P]. *)
Definition data_int (a : Alert.t) (key : string) (P : Z -> Prop) : Prop :=
  exists n, Dict.get (Alert.data a) key = Ok (VInt n) /\ P n.

(** The year that [fromordinal] reaches after [q400] cycles of 400
    years, [q100] centuries, [q4] cycles of 4 years and [q1] years. *)
Definition year_of (q400 q100 q4 q1 : Z) : Z :=
  q400 * 400 + 1 + q100 * 100 + q4 * 4 + q1.

(** An active recurring expense whose next occurrence lies 0 to 7 days
    after a date. *)
Definition due_within_week (current_date : date) (r : RecurringTransaction.t) : bool :=
  RecurringTransaction.is_active r
  && TransactionType_eqb (RecurringTransaction.transaction_type r) EXPENSE
  && (0 <=? Date.days_between (RecurringTransaction.next_occurrence r) current_date)
  && (Date.days_between (RecurringTransaction.next_occurrence r) current_date <=? 7).

(** The reminder of a recurring transaction. *)
Definition reminds (current_date : date) (r : RecurringTransaction.t) (a : Alert.t)
  : Prop :=
  Alert.alert_type a = BILL_REMINDER
  /\ Alert.priority a = LOW
  /\ Dict.get (Alert.data a) "transaction_id" = Ok (VInt (RecurringTransaction.id r))
  /\ Dict.get (Alert.data a) "amount" = Ok (VFloat (RecurringTransaction.amount r))
  /\ Dict.get (Alert.data a) "days_until"
     = Ok (VInt (Date.days_between (RecurringTransaction.next_occurrence r) current_date)).

(** The days from the date of a transaction to a date. *)
Definition age (current_date : date) (x : Transaction.t) : Z :=
  Date.days_between current_date (Transaction.transaction_date x).

(** An expense dated on a date or on one of the seven days before it. *)
Definition spent_in_last_week (current_date : date) (x : Transaction.t) : bool :=
  (0 <=? age current_date x) && (age current_date x <=? 7)
  && TransactionType_eqb (Transaction.transaction_type x) EXPENSE.

(** An expense dated more than seven days before a date, and not before
    the day three months before it. *)
Definition spent_before_last_week (current_date : date) (x : Transaction.t) : bool :=
  (age current_date x <=? Date.days_between current_date (Date.sub_months current_date 3))
  && (7 <? age current_date x)
  && TransactionType_eqb (Transaction.transaction_type x) EXPENSE.

(** The four factors of a health score, added up. *)
Definition factor_sum (f : ScoreFactors.t) : Q :=
  (ScoreFactors.positive_balance f + ScoreFactors.spending_discipline f
   + ScoreFactors.savings_capacity f + ScoreFactors.income_diversification f)%Q.

(** The spending limits of the month of a date. *)
Definition limits_of_month (db : Store) (current_date : date) : list SpendingLimit.t :=
  Query.limits_of db (Date.month_key (year current_date) (month current_date)).

(** The alerts of a list that report an exceeded spending limit. *)
Definition exceeded_alerts (l : list Alert.t) : list Alert.t :=
  List.filter (fun a => AlertType_eqb (Alert.alert_type a) SPENDING_LIMIT_EXCEEDED) l.

(** Whether the expenses of the month exceed a spending limit. *)
Definition over_limit (db : Store) (current_date : date) (limit : SpendingLimit.t)
  : bool :=
  Py.gtb (Query.current_spent db current_date (SpendingLimit.category_id limit))
    (SpendingLimit.monthly_limit limit).

(** The rows of a query grouped by category: one row, with its name and
    its total, for every category that has a total. *)
Definition rows_of {A : Type} (name : A -> string) (total : A -> option Q)
    (cs : list A) : list (string * Q) :=
  flat_map (fun c => match total c with
                     | Some t => [(name c, t)]
                     | None => []
                     end) cs.

(** The mean of the projected savings of a savings capacity, as
    [analyze_goals_progress] takes it. *)
Definition mean_projected_savings (sc : Dict.t SavingsEntry.t) : Q :=
  (Py.sum (map SavingsEntry.projected_savings (Dict.values sc))
   / inject_Z (Z.of_nat (length sc)))%Q.

(** ** Example ledgers *)

Definition cat_food : Category.t :=
  {| Category.id := 1; Category.name := "Alimentação";
     Category.color := "#007bff"; Category.is_default := true |}.

Definition cat_salary : Category.t :=
  {| Category.id := 2; Category.name := "Salário";
     Category.color := "#28a745"; Category.is_default := true |}.

Definition expense (id : Z) (amount : Q) (on : date) : Transaction.t :=
  {| Transaction.id := id;
     Transaction.description := "despesa";
     Transaction.amount := amount;
     Transaction.transaction_type := EXPENSE;
     Transaction.transaction_date := on;
     Transaction.category_id := 1;
     Transaction.account_id := 1 |}.

Definition income (id : Z) (amount : Q) (on : date) : Transaction.t :=
  {| Transaction.id := id;
     Transaction.description := "receita";
     Transaction.amount := amount;
     Transaction.transaction_type := INCOME;
     Transaction.transaction_date := on;
     Transaction.category_id := 2;
     Transaction.account_id := 1 |}.

Definition clock (n : nat) : Z := 1736899200 + Z.of_nat n.

Definition yearly_insurance : RecurringTransaction.t :=
  {| RecurringTransaction.id := 1;
     RecurringTransaction.description := "seguro";
     RecurringTransaction.amount := 1200;
     RecurringTransaction.transaction_type := EXPENSE;
     RecurringTransaction.frequency := "yearly";
     RecurringTransaction.start_date := mkdate 2020 3 10;
     RecurringTransaction.end_date := None;
     RecurringTransaction.next_occurrence := mkdate 2026 3 10;
     RecurringTransaction.category_id := 4;
     RecurringTransaction.category :=
       {| Category.id := 4; Category.name := "Seguros";
          Category.color := "#007bff"; Category.is_default := false |};
     RecurringTransaction.is_active := true |}.


(** A food limit of 1000 for January 2025, spent to the last cent. *)
Definition food_limit : SpendingLimit.t :=
  {| SpendingLimit.id := 1;
     SpendingLimit.category_id := 1;
     SpendingLimit.monthly_limit := 1000;
     SpendingLimit.month_year := "2025-01";
     SpendingLimit.category := cat_food |}.

Definition ledger_limit_reached : Store :=
  {| transactions := [expense 1 1000 (mkdate 2025 1 10)];
     categories := [cat_food; cat_salary];
     goals := [];
     spending_limits := [food_limit];
     recurring_transactions := [] |}.

(** Rent of 1500 a month and no income: every projected month is in
    deficit. *)
Definition monthly_rent : RecurringTransaction.t :=
  {| RecurringTransaction.id := 2;
     RecurringTransaction.description := "aluguel";
     RecurringTransaction.amount := 1500;
     RecurringTransaction.transaction_type := EXPENSE;
     RecurringTransaction.frequency := "monthly";
     RecurringTransaction.start_date := mkdate 2024 1 5;
     RecurringTransaction.end_date := None;
     RecurringTransaction.next_occurrence := mkdate 2025 2 5;
     RecurringTransaction.category_id := 1;
     RecurringTransaction.category := cat_food;
     RecurringTransaction.is_active := true |}.

Definition ledger_rent_only : Store :=
  {| transactions := [];
     categories := [cat_food; cat_salary];
     goals := [];
     spending_limits := [];
     recurring_transactions := [monthly_rent] |}.

(** A salary of 5000 and a rent of 1500 every month, and one February of
    history: 4000 earned and 1000 spent in February 2024. *)
Definition monthly_salary : RecurringTransaction.t :=
  {| RecurringTransaction.id := 3;
     RecurringTransaction.description := "salário";
     RecurringTransaction.amount := 5000;
     RecurringTransaction.transaction_type := INCOME;
     RecurringTransaction.frequency := "monthly";
     RecurringTransaction.start_date := mkdate 2024 1 1;
     RecurringTransaction.end_date := None;
     RecurringTransaction.next_occurrence := mkdate 2025 2 1;
     RecurringTransaction.category_id := 2;
     RecurringTransaction.category := cat_salary;
     RecurringTransaction.is_active := true |}.

Definition ledger_salary_and_rent : Store :=
  {| transactions := [income 1 4000 (mkdate 2024 2 5); expense 2 1000 (mkdate 2024 2 10)];
     categories := [cat_food; cat_salary];
     goals := [];
     spending_limits := [];
     recurring_transactions := [monthly_rent; monthly_salary] |}.

(** A goal of 1000 with nothing saved, due on 2025-01-16. *)
Definition goal_trip : Goal.t :=
  {| Goal.id := 1;
     Goal.name := "Viagem";
     Goal.description := "";
     Goal.target_amount := 1000;
     Goal.current_amount := 0;
     Goal.target_date := mkdate 2025 1 16;
     Goal.created_at := mkdate 2024 3 22;
     Goal.is_active := true |}.

(** A goal whose target amount is zero. *)
Definition goal_empty : Goal.t :=
  {| Goal.id := 2;
     Goal.name := "Reserva";
     Goal.description := "";
     Goal.target_amount := 0;
     Goal.current_amount := 250;
     Goal.target_date := mkdate 2025 1 21;
     Goal.created_at := mkdate 2024 3 27;
     Goal.is_active := true |}.

Definition ledger_goals : Store :=
  {| transactions := [];
     categories := [cat_food; cat_salary];
     goals := [goal_trip; goal_empty];
     spending_limits := [];
     recurring_transactions := [monthly_rent; monthly_salary] |}.

(** Two purchases of 100 on the first of May and 1000 spent in the last
    week of June. *)
Definition ledger_two_purchases : Store :=
  {| transactions :=
       [expense 1 100 (mkdate 2025 5 1); expense 2 100 (mkdate 2025 5 1);
        expense 3 1000 (mkdate 2025 6 28)];
     categories := [cat_food; cat_salary];
     goals := [];
     spending_limits := [];
     recurring_transactions := [] |}.

(** The scenarios of the specification: a food limit of 1000 with 1200,
    then 850, spent by 2025-01-15; a goal of 10000 with 2000 saved, due
    in 20 days and created 300 days before its target date; 1600 spent in
    the last week against a historical figure of 1000. *)
Definition ledger_limit_exceeded : Store :=
  {| transactions :=
       [expense 1 700 (mkdate 2025 1 3); expense 2 500 (mkdate 2025 1 12);
        expense 3 90 (mkdate 2024 12 31)];
     categories := [cat_food; cat_salary];
     goals := [];
     spending_limits := [food_limit];
     recurring_transactions := [] |}.

Definition ledger_limit_warning : Store :=
  {| transactions := [expense 1 850 (mkdate 2025 1 3)];
     categories := [cat_food; cat_salary];
     goals := [];
     spending_limits := [food_limit];
     recurring_transactions := [] |}.

Definition goal_car : Goal.t :=
  {| Goal.id := 3;
     Goal.name := "Carro";
     Goal.description := "";
     Goal.target_amount := 10000;
     Goal.current_amount := 2000;
     Goal.target_date := mkdate 2025 2 4;
     Goal.created_at := mkdate 2024 4 10;
     Goal.is_active := true |}.

Definition ledger_unusual_week : Store :=
  {| transactions :=
       [expense 1 (1000 / 7) (mkdate 2025 5 1); expense 2 1600 (mkdate 2025 6 28)];
     categories := [cat_food; cat_salary];
     goals := [];
     spending_limits := [];
     recurring_transactions := [] |}.

Definition ledger_empty : Store :=
  {| transactions := [];
     categories := [];
     goals := [];
     spending_limits := [];
     recurring_transactions := [] |}.

(** ** Further example data *)


(** Two categories that share the name of the food category, with 100
    spent in the one and 200 in the other in January 2025. *)
Definition cat_food_again : Category.t :=
  {| Category.id := 3; Category.name := "Alimentação";
     Category.color := "#dc3545"; Category.is_default := false |}.

Definition ledger_same_name : Store :=
  {| transactions :=
       [expense 1 100 (mkdate 2025 1 3);
        {| Transaction.id := 2;
           Transaction.description := "despesa";
           Transaction.amount := 200;
           Transaction.transaction_type := EXPENSE;
           Transaction.transaction_date := mkdate 2025 1 4;
           Transaction.category_id := 3;
           Transaction.account_id := 1 |}];
     categories := [cat_food; cat_food_again];
     goals := [];
     spending_limits := [];
     recurring_transactions := [] |}.
(** * Properties *)

(** ** Numbers *)

Module PyFacts.
Import Py.

Lemma ltb_lt x y : ltb x y = true <-> (x < y)%Q.
Proof. unfold ltb, Qlt. apply Z.ltb_lt. Qed.

Lemma ltb_ge x y : ltb x y = false <-> (y <= x)%Q.
Proof. unfold ltb, Qle. apply Z.ltb_ge. Qed.

Lemma leb_le x y : leb x y = true <-> (x <= y)%Q.
Proof. apply Qle_bool_iff. Qed.

Lemma leb_gt x y : leb x y = false <-> (y < x)%Q.
Proof.
  unfold leb. split; intros H.
  - apply Qnot_le_lt. intros Hle. apply Qle_bool_iff in Hle. congruence.
  - destruct (Qle_bool x y) eqn:E; [|reflexivity].
    apply Qle_bool_iff in E. apply Qlt_not_le in H. contradiction.
Qed.

Lemma eqb_eq x y : eqb x y = true <-> (x == y)%Q.
Proof. apply Qeq_bool_iff. Qed.

Lemma eqb_neq x y : eqb x y = false <-> ~ (x == y)%Q.
Proof.
  unfold eqb. split; intros H.
  - intros E. apply Qeq_bool_iff in E. congruence.
  - destruct (Qeq_bool x y) eqn:E; [|reflexivity].
    apply Qeq_bool_iff in E. contradiction.
Qed.

(** A division behind a [> 0] guard on its divisor does not raise. *)
Lemma truediv_pos x y : gtb y 0 = true -> truediv x y = Ok (x / y)%Q.
Proof.
  intros H. apply ltb_lt in H. unfold truediv.
  destruct (eqb y 0) eqn:E; [|reflexivity].
  apply eqb_eq in E. rewrite E in H. apply Qlt_irrefl in H. contradiction.
Qed.

Lemma max_lb_l a b : (a <= max a b)%Q.
Proof.
  unfold max, gtb. destruct (ltb a b) eqn:E.
  - apply ltb_lt in E. apply Qlt_le_weak, E.
  - apply Qle_refl.
Qed.

Lemma max_lb_r a b : (b <= max a b)%Q.
Proof.
  unfold max, gtb. destruct (ltb a b) eqn:E.
  - apply Qle_refl.
  - apply ltb_ge in E. exact E.
Qed.

Lemma max_ub a b c : (a <= c)%Q -> (b <= c)%Q -> (max a b <= c)%Q.
Proof. unfold max. destruct (gtb b a); auto. Qed.

Lemma min_ub_l a b : (min a b <= a)%Q.
Proof.
  unfold min. destruct (ltb b a) eqn:E.
  - apply ltb_lt in E. apply Qlt_le_weak, E.
  - apply Qle_refl.
Qed.

Lemma min_lb a b c : (c <= a)%Q -> (c <= b)%Q -> (c <= min a b)%Q.
Proof. unfold min. destruct (ltb b a); auto. Qed.

End PyFacts.

(** ** Dates *)

Module DateFacts.

Lemma str_inj (a b : Z) : Py.str a = Py.str b -> a = b.
Proof.
  unfold Py.str. intros H.
  apply (f_equal NilZero.int_of_string) in H.
  rewrite !NilZero.isi in H.
  - injection H as H. apply DecimalZ.to_int_inj. exact H.
  - destruct b; simpl; try discriminate.
    intros E. injection E as E. apply (DecimalPos.Unsigned.to_uint_nonnil _ E).
  - destruct b; simpl; try discriminate.
    intros E. injection E as E. apply (DecimalPos.Unsigned.to_uint_nonnil _ E).
  - destruct a; simpl; try discriminate.
    intros E. injection E as E. apply (DecimalPos.Unsigned.to_uint_nonnil _ E).
  - destruct a; simpl; try discriminate.
    intros E. injection E as E. apply (DecimalPos.Unsigned.to_uint_nonnil _ E).
Qed.

Lemma length_append (s t : string) :
  String.length (String.append s t) = (String.length s + String.length t)%nat.
Proof. induction s as [|c s IH]; simpl; [reflexivity | rewrite IH; reflexivity]. Qed.

Lemma append_inv (s1 s2 t1 t2 : string) :
  String.length t1 = String.length t2 ->
  String.append s1 t1 = String.append s2 t2 -> s1 = s2 /\ t1 = t2.
Proof.
  revert s2. induction s1 as [|c s1 IH]; intros [|c2 s2] L H; simpl in H.
  - split; [reflexivity | exact H].
  - exfalso. apply (f_equal String.length) in H. simpl in H.
    rewrite length_append in H. lia.
  - exfalso. apply (f_equal String.length) in H. simpl in H.
    rewrite length_append in H. lia.
  - injection H as -> H. destruct (IH s2 L H) as [-> ->]. split; reflexivity.
Qed.

Lemma pad2_month (m : Z) :
  1 <= m <= 12 -> String.length (Py.pad 2 m) = 2%nat.
Proof.
  intros H.
  assert (C : m = 1 \/ m = 2 \/ m = 3 \/ m = 4 \/ m = 5 \/ m = 6 \/ m = 7
              \/ m = 8 \/ m = 9 \/ m = 10 \/ m = 11 \/ m = 12) by lia.
  repeat (destruct C as [->|C]; [reflexivity|]). subst m. reflexivity.
Qed.

Lemma pad2_month_inj (m1 m2 : Z) :
  1 <= m1 <= 12 -> 1 <= m2 <= 12 -> Py.pad 2 m1 = Py.pad 2 m2 -> m1 = m2.
Proof.
  intros H1 H2.
  assert (C1 : m1 = 1 \/ m1 = 2 \/ m1 = 3 \/ m1 = 4 \/ m1 = 5 \/ m1 = 6 \/ m1 = 7
               \/ m1 = 8 \/ m1 = 9 \/ m1 = 10 \/ m1 = 11 \/ m1 = 12) by lia.
  assert (C2 : m2 = 1 \/ m2 = 2 \/ m2 = 3 \/ m2 = 4 \/ m2 = 5 \/ m2 = 6 \/ m2 = 7
               \/ m2 = 8 \/ m2 = 9 \/ m2 = 10 \/ m2 = 11 \/ m2 = 12) by lia.
  clear H1 H2.
  repeat (destruct C1 as [->|C1]);
    repeat (destruct C2 as [->|C2]); subst;
    first [reflexivity | (vm_compute; discriminate)].
Qed.

(** The key of a month names its year and its month. *)
Lemma month_key_inj (y1 m1 y2 m2 : Z) :
  1 <= m1 <= 12 -> 1 <= m2 <= 12 ->
  Date.month_key y1 m1 = Date.month_key y2 m2 -> y1 = y2 /\ m1 = m2.
Proof.
  intros H1 H2 H. unfold Date.month_key in H.
  apply append_inv in H.
  - destruct H as [Hy Hm]. injection Hm as Hm.
    split; [apply str_inj; exact Hy | apply pad2_month_inj; assumption].
  - simpl. rewrite !pad2_month by assumption. reflexivity.
Qed.

(** [relativedelta] of 1 to 11 months moves to the month that many
    months later. *)
Lemma add_months_index (d : date) (k : Z) :
  1 <= month d <= 12 -> 1 <= k <= 11 ->
  1 <= month (Date.add_months d k) <= 12
  /\ month_index (Date.add_months d k) = month_index d + k.
Proof.
  intros Hm Hk. unfold Date.add_months, month_index.
  assert (S : Z.sgn k = 1) by (apply Z.sgn_pos; lia). rewrite S.
  rewrite Z.mul_1_r, !Z.mul_1_l.
  rewrite (Z.div_small k 12), (Z.mod_small k 12) by lia.
  rewrite Z.add_0_r.
  destruct (month d + k >? 12) eqn:E1.
  - apply Z.gtb_lt in E1. simpl. lia.
  - destruct (month d + k <? 1) eqn:E2; simpl.
    + apply Z.ltb_lt in E2. lia.
    + assert (month d + k <= 12) by (destruct (Z.gtb_spec (month d + k) 12); [discriminate | lia]).
      lia.
Qed.

(** The keys of the months ahead are pairwise different. *)
Lemma target_key_inj (d : date) (j k : Z) :
  1 <= month d <= 12 -> 1 <= j <= 11 -> 1 <= k <= 11 ->
  target_key d j = target_key d k -> j = k.
Proof.
  intros Hm Hj Hk H. unfold target_key in H.
  destruct (add_months_index d j Hm Hj) as [Mj Ij].
  destruct (add_months_index d k Hm Hk) as [Mk Ik].
  apply month_key_inj in H; [|assumption|assumption].
  unfold month_index in *. lia.
Qed.

End DateFacts.


Example date_checks :
  Date.toordinal (mkdate 2025 1 15) = 739266
  /\ Date.fromordinal 739266 = mkdate 2025 1 15
  /\ Date.sub_days (mkdate 2025 3 1) 1 = mkdate 2025 2 28
  /\ Date.sub_days (mkdate 2024 3 1) 1 = mkdate 2024 2 29
  /\ Date.add_days (mkdate 2024 12 28) 7 = mkdate 2025 1 4
  /\ Date.add_months (mkdate 2025 1 31) 1 = mkdate 2025 2 28
  /\ Date.add_months (mkdate 2025 11 30) 3 = mkdate 2026 2 28
  /\ Date.sub_months (mkdate 2025 2 15) 3 = mkdate 2024 11 15
  /\ Date.month_key 2025 3 = "2025-03"%string
  /\ Date.isoformat (mkdate 2025 11 3) = "2025-11-03"%string.
Proof. repeat split; reflexivity. Qed.

(** ** Results and loops *)

Lemma returns_value_of {A : Type} (d : A) (r : result A) :
  returns r -> r = Ok (value_of d r).
Proof. intros [a ->]. reflexivity. Qed.

Lemma for_each_ok {A S : Type} (body : S -> A -> result S) (g : S -> A -> S)
    (xs : list A) :
  (forall s x, In x xs -> body s x = Ok (g s x)) ->
  forall s, for_each body xs s = Ok (fold_left g xs s).
Proof.
  induction xs as [|x xs IH]; intros Hb s; simpl; [reflexivity|].
  rewrite Hb by (left; reflexivity). simpl.
  apply IH. intros s' y Hy. apply Hb. right. exact Hy.
Qed.

Lemma for_each_invariant {A S : Type} (body : S -> A -> result S) (I : S -> Prop)
    (xs : list A) :
  (forall s x, In x xs -> I s -> exists s', body s x = Ok s' /\ I s') ->
  forall s, I s -> exists s', for_each body xs s = Ok s' /\ I s'.
Proof.
  induction xs as [|x xs IH]; intros Hb s Hs; simpl.
  - exists s. split; [reflexivity | exact Hs].
  - destruct (Hb s x (or_introl eq_refl) Hs) as (s1 & E1 & H1).
    rewrite E1. simpl. apply IH; [|exact H1].
    intros s' y Hy. apply Hb. right. exact Hy.
Qed.

Lemma for_append_ok {A B : Type} (f : A -> result B) (g : A -> B) (xs : list A) :
  (forall x, In x xs -> f x = Ok (g x)) ->
  forall out, for_append f xs out = Ok (out ++ map g xs).
Proof.
  unfold for_append.
  induction xs as [|x xs IH]; intros Hf out; simpl.
  - rewrite app_nil_r. reflexivity.
  - rewrite Hf by (left; reflexivity). simpl.
    rewrite IH by (intros y Hy; apply Hf; right; exact Hy).
    rewrite <- app_assoc. reflexivity.
Qed.

Lemma for_append_returns {A B : Type} (f : A -> result B) (xs : list A) :
  (forall x, In x xs -> returns (f x)) ->
  forall out, returns (for_append f xs out).
Proof.
  unfold for_append.
  induction xs as [|x xs IH]; intros Hf out; simpl.
  - exists out. reflexivity.
  - destruct (Hf x (or_introl eq_refl)) as (y & ->). simpl.
    apply IH. intros z Hz. apply Hf. right. exact Hz.
Qed.

Lemma for_append_forall2 {A B : Type} (f : A -> result B) (xs : list A) :
  (forall x, In x xs -> returns (f x)) ->
  forall out, exists ys,
    for_append f xs out = Ok (out ++ ys) /\ Forall2 (fun x y => f x = Ok y) xs ys.
Proof.
  unfold for_append.
  induction xs as [|x xs IH]; intros Hf out; simpl.
  - exists []. rewrite app_nil_r. split; [reflexivity | constructor].
  - destruct (Hf x (or_introl eq_refl)) as (y & Ey). rewrite Ey. simpl.
    destruct (IH (fun z Hz => Hf z (or_intror Hz)) (out ++ [y])) as (ys & E & F).
    exists (y :: ys). rewrite <- app_assoc in E. split; [exact E|].
    constructor; assumption.
Qed.

Lemma for_each_extends {A B : Type} (body : list B -> A -> result (list B))
    (P : B -> Prop) (xs : list A) :
  (forall s x, In x xs -> exists new, body s x = Ok (s ++ new) /\ Forall P new) ->
  forall s, exists new, for_each body xs s = Ok (s ++ new) /\ Forall P new.
Proof.
  induction xs as [|x xs IH]; intros Hb s; simpl.
  - exists []. rewrite app_nil_r. split; [reflexivity | constructor].
  - destruct (Hb s x (or_introl eq_refl)) as (n1 & E1 & F1). rewrite E1. simpl.
    destruct (IH (fun s y Hy => Hb s y (or_intror Hy)) (s ++ n1)) as (n2 & E2 & F2).
    exists (n1 ++ n2). rewrite app_assoc. split; [exact E2|].
    apply Forall_app. split; assumption.
Qed.

Lemma fold_left_extends {A B : Type} (body : list B -> A -> list B)
    (P : B -> Prop) (xs : list A) :
  (forall s x, In x xs -> exists new, body s x = s ++ new /\ Forall P new) ->
  forall s, exists new, fold_left body xs s = s ++ new /\ Forall P new.
Proof.
  induction xs as [|x xs IH]; intros Hb s; simpl.
  - exists []. rewrite app_nil_r. split; [reflexivity | constructor].
  - destruct (Hb s x (or_introl eq_refl)) as (n1 & E1 & F1). rewrite E1.
    destruct (IH (fun s y Hy => Hb s y (or_intror Hy)) (s ++ n1)) as (n2 & E2 & F2).
    exists (n1 ++ n2). rewrite app_assoc. split; [exact E2|].
    apply Forall_app. split; assumption.
Qed.

(** A loop whose body appends: the alerts it adds, element by element. *)
Lemma for_each_appends {A B : Type} (body : list B -> A -> result (list B))
    (R : A -> list B -> Prop) (xs : list A) :
  (forall s x, In x xs -> exists new, body s x = Ok (s ++ new) /\ R x new) ->
  forall s, exists news,
    for_each body xs s = Ok (s ++ concat news) /\ Forall2 R xs news.
Proof.
  induction xs as [|x xs IH]; intros Hb s; simpl.
  - exists []. simpl. rewrite app_nil_r. split; [reflexivity | constructor].
  - destruct (Hb s x (or_introl eq_refl)) as (n1 & E1 & R1). rewrite E1. simpl.
    destruct (IH (fun s y Hy => Hb s y (or_intror Hy)) (s ++ n1)) as (ns & E2 & F2).
    exists (n1 :: ns). simpl. rewrite app_assoc. split; [exact E2|].
    constructor; assumption.
Qed.

(** ** Guarded percentages *)

Lemma percentage_of_pos part whole :
  (0 < whole)%Q ->
  AlertSystem.percentage_of part whole = Ok (part / whole * 100)%Q.
Proof.
  intros H. unfold AlertSystem.percentage_of.
  assert (G : Py.gtb whole 0 = true) by (apply PyFacts.ltb_lt; exact H).
  rewrite G, (PyFacts.truediv_pos _ _ G). reflexivity.
Qed.

Lemma percentage_of_nonpos part whole :
  (whole <= 0)%Q -> AlertSystem.percentage_of part whole = Ok 0%Q.
Proof.
  intros H. unfold AlertSystem.percentage_of.
  assert (G : Py.gtb whole 0 = false) by (apply PyFacts.ltb_ge; exact H).
  rewrite G. reflexivity.
Qed.

Lemma percentage_of_returns part whole :
  AlertSystem.percentage_of part whole
  = Ok (value_of 0%Q (AlertSystem.percentage_of part whole)).
Proof.
  destruct (Qlt_le_dec 0 whole) as [H|H].
  - rewrite (percentage_of_pos _ _ H). reflexivity.
  - rewrite (percentage_of_nonpos _ _ H). reflexivity.
Qed.

(** ** The recurring schedule *)

Lemma recurring_total_counted db ty y m :
  FinancialAnalysis.recurring_total db ty y m
  = Py.sum (map RecurringTransaction.amount (counted_in_month db ty y m)).
Proof.
  unfold FinancialAnalysis.recurring_total, counted_in_month, Py.sum.
  generalize (List.filter (FinancialAnalysis.recurring_in_window ty (mkdate y m 1))
                (recurring_transactions db)).
  intros l. generalize 0%Q.
  induction l as [|r l IH]; intros acc; simpl; [reflexivity|].
  destruct (FinancialAnalysis._should_occur_in_month r y m); simpl; apply IH.
Qed.

Lemma should_occur_yearly (r : RecurringTransaction.t) (y m : Z) :
  RecurringTransaction.frequency r = "yearly"%string ->
  FinancialAnalysis._should_occur_in_month r y m
  = (month (RecurringTransaction.start_date r) =? m).
Proof.
  intros F. unfold FinancialAnalysis._should_occur_in_month. rewrite F.
  reflexivity.
Qed.

(** C7. A yearly recurring transaction occurs in a month exactly when the
    month is the month of its start date: with a start date in March it
    occurs in month 3 of any year and in no other month, and the
    recurring totals of a month, which add up the amounts of the
    transactions counted for it, count it exactly when it is active, of the
    type asked for, inside its window at the first day of the month, and
    started in that month of the year. *)
Theorem yearly_occurs_in_start_month (db : Store) (ty : TransactionType)
    (r : RecurringTransaction.t) (y m : Z) :
  RecurringTransaction.frequency r = "yearly"%string ->
  (FinancialAnalysis._should_occur_in_month r y m = true
   <-> month (RecurringTransaction.start_date r) = m)
  /\ (month (RecurringTransaction.start_date r) = 3 ->
      FinancialAnalysis._should_occur_in_month r y 3 = true
      /\ forall m', m' <> 3 ->
           FinancialAnalysis._should_occur_in_month r y m' = false)
  /\ (In r (counted_in_month db ty y m)
      <-> In r (recurring_transactions db)
          /\ FinancialAnalysis.recurring_in_window ty (mkdate y m 1) r = true
          /\ month (RecurringTransaction.start_date r) = m)
  /\ FinancialAnalysis._get_recurring_expenses_for_month db y m
     = Py.sum (map RecurringTransaction.amount (counted_in_month db EXPENSE y m))
  /\ FinancialAnalysis._get_recurring_income_for_month db y m
     = Py.sum (map RecurringTransaction.amount (counted_in_month db INCOME y m)).
Proof.
  intros F. split; [|split; [|split; [|split; apply recurring_total_counted]]].
  - rewrite (should_occur_yearly r y m F). apply Z.eqb_eq.
  - intros S. split.
    + rewrite (should_occur_yearly r y 3 F). apply Z.eqb_eq. exact S.
    + intros m' Hm'. rewrite (should_occur_yearly r y m' F).
      apply Z.eqb_neq. congruence.
  - unfold counted_in_month. rewrite !filter_In.
    rewrite (should_occur_yearly r y m F), Z.eqb_eq. tauto.
Qed.

Lemma yearly_occurs_in_start_month_witness :
  RecurringTransaction.frequency yearly_insurance = "yearly"%string
  /\ (FinancialAnalysis._should_occur_in_month yearly_insurance 2026 3 = true
      <-> month (RecurringTransaction.start_date yearly_insurance) = 3).
Proof.
  split; [reflexivity|].
  apply (yearly_occurs_in_start_month (mkStore [] [] [] [] [yearly_insurance])
           EXPENSE yearly_insurance 2026 3).
  reflexivity.
Defined.

(** ** Marking an alert as read *)

(** C10. [mark_alert_as_read] returns for every integer index. Outside
    [0, len(alerts)) the list is unchanged; inside, the list keeps its
    length, every other position keeps its alert, and the alert at the
    index keeps every field except [is_read], which becomes true. *)
Theorem mark_alert_as_read_frame (alerts : list Alert.t) (alert_index : Z) :
  exists alerts' : list Alert.t,
    AlertSystem.mark_alert_as_read alerts alert_index = Ok alerts'
    /\ length alerts' = length alerts
    /\ (forall j : nat, Z.of_nat j <> alert_index -> alerts' !! j = alerts !! j)
    /\ (~ (0 <= alert_index < Z.of_nat (length alerts)) -> alerts' = alerts)
    /\ (0 <= alert_index < Z.of_nat (length alerts) ->
        exists a a' : Alert.t,
          alerts !! Z.to_nat alert_index = Some a
          /\ alerts' !! Z.to_nat alert_index = Some a'
          /\ Alert.is_read a' = true
          /\ Alert.alert_type a' = Alert.alert_type a
          /\ Alert.priority a' = Alert.priority a
          /\ Alert.title a' = Alert.title a
          /\ Alert.message a' = Alert.message a
          /\ Alert.data a' = Alert.data a
          /\ Alert.action_url a' = Alert.action_url a
          /\ Alert.created_at a' = Alert.created_at a).
Proof.
  unfold AlertSystem.mark_alert_as_read.
  destruct ((0 <=? alert_index) && (alert_index <? Z.of_nat (length alerts)))
    eqn:G.
  - apply andb_true_iff in G. destruct G as [G1 G2].
    apply Z.leb_le in G1. apply Z.ltb_lt in G2.
    assert (L : (Z.to_nat alert_index < length alerts)%nat) by lia.
    destruct (lookup_lt_is_Some_2 alerts _ L) as [a Ha]. rewrite Ha.
    eexists. split; [reflexivity|].
    split; [apply length_insert|].
    split; [|split].
    + intros j Hj. apply list_lookup_insert_ne. lia.
    + intros Hn. lia.
    + intros _. exists a, (Alert.set_is_read a true).
      split; [reflexivity|].
      split; [apply list_lookup_insert_eq; exact L|].
      repeat split.
  - exists alerts. split; [reflexivity|].
    split; [reflexivity|]. split; [reflexivity|]. split; [reflexivity|].
    intros [H1 H2]. apply Z.leb_le in H1. apply Z.ltb_lt in H2.
    rewrite H1, H2 in G. discriminate.
Qed.

(** The list of records is what the list of references holds, as long
    as its slots refer to different objects, which they do after every
    pass. *)
Module ObjectFacts.

Lemma replace_alerts_represents (s : ObjectStore.t) (new : list Alert.t) :
  ObjectStore.represents (ObjectStore.replace_alerts s new) new
  /\ NoDup (ObjectStore.alerts (ObjectStore.replace_alerts s new)).
Proof.
  split; [|apply NoDup_seq].
  unfold ObjectStore.represents, ObjectStore.contents. simpl.
  apply list_eq. intros i. rewrite !list_lookup_fmap.
  destruct (decide (i < length new)%nat) as [Hi|Hi].
  - rewrite lookup_seq_lt by exact Hi. simpl.
    rewrite lookup_app_r by lia.
    replace (length (ObjectStore.objects s) + i - length (ObjectStore.objects s))%nat
      with i by lia.
    destruct (lookup_lt_is_Some_2 new i Hi) as [a Ha]. rewrite Ha. reflexivity.
  - rewrite lookup_seq_ge by lia. simpl.
    rewrite lookup_ge_None_2 by lia. reflexivity.
Qed.

Lemma mark_alert_as_read_refines (s : ObjectStore.t) (l : list Alert.t)
    (alert_index : Z) :
  ObjectStore.represents s l ->
  NoDup (ObjectStore.alerts s) ->
  exists s' l',
    ObjectStore.mark_alert_as_read s alert_index = Ok s'
    /\ AlertSystem.mark_alert_as_read l alert_index = Ok l'
    /\ ObjectStore.represents s' l'
    /\ ObjectStore.alerts s' = ObjectStore.alerts s.
Proof.
  intros R N.
  assert (L : length (ObjectStore.alerts s) = length l).
  { apply (f_equal length) in R. unfold ObjectStore.contents in R.
    rewrite !length_map in R. exact R. }
  unfold ObjectStore.mark_alert_as_read, AlertSystem.mark_alert_as_read.
  rewrite L.
  destruct ((0 <=? alert_index) && (alert_index <? Z.of_nat (length l))) eqn:G;
    [|exists s, l; repeat split; assumption].
  apply andb_true_iff in G. destruct G as [G1 G2].
  apply Z.leb_le in G1. apply Z.ltb_lt in G2.
  set (i := Z.to_nat alert_index).
  assert (Hi : (i < length l)%nat) by (unfold i; lia).
  destruct (lookup_lt_is_Some_2 l i Hi) as [a Ha].
  destruct (lookup_lt_is_Some_2 (ObjectStore.alerts s) i ltac:(lia)) as [r Hr].
  assert (Ho : ObjectStore.objects s !! r = Some a).
  { apply (f_equal (fun c => c !! i)) in R. unfold ObjectStore.contents in R.
    rewrite !list_lookup_fmap, Hr, Ha in R. simpl in R. congruence. }
  rewrite Hr, Ho, Ha.
  eexists. eexists. split; [reflexivity|]. split; [reflexivity|].
  split; [|reflexivity].
  unfold ObjectStore.represents, ObjectStore.contents in *. simpl.
  apply list_eq. intros j. rewrite !list_lookup_fmap.
  destruct (decide (j = i)) as [->|Hj].
  - rewrite Hr. rewrite list_lookup_insert_eq by exact Hi. simpl.
    rewrite list_lookup_insert_eq by (apply lookup_lt_Some in Ho; exact Ho).
    reflexivity.
  - rewrite list_lookup_insert_ne by congruence.
    apply (f_equal (fun c => c !! j)) in R. rewrite !list_lookup_fmap in R.
    rewrite <- R.
    destruct (ObjectStore.alerts s !! j) as [r'|] eqn:Hr'; [|reflexivity].
    simpl. rewrite list_lookup_insert_ne; [reflexivity|].
    intros ->. apply Hj. symmetry. apply (NoDup_lookup _ _ _ _ N Hr Hr').
Qed.

(** With one object in two slots the list of records would not do:
    marking slot 0 also marks slot 1. *)
Example shared_object_is_marked_twice (a : Alert.t) :
  exists s',
    ObjectStore.mark_alert_as_read (ObjectStore.mk [a] [0%nat; 0%nat]) 0 = Ok s'
    /\ ObjectStore.contents s'
       = [Some (Alert.set_is_read a true); Some (Alert.set_is_read a true)].
Proof. eexists. split; reflexivity. Qed.

End ObjectFacts.

(** ** Spending limits *)

Lemma check_limit_cases db cd utcnow alerts (limit : SpendingLimit.t) :
  let spent := Query.current_spent db cd (SpendingLimit.category_id limit) in
  let lim := SpendingLimit.monthly_limit limit in
  let pct := value_of 0%Q (AlertSystem.percentage_of spent lim) in
  exists new : list Alert.t,
    AlertSystem.check_limit db cd utcnow alerts limit = Ok (alerts ++ new)
    /\ (if Py.gtb spent lim
        then exists a, new = [a]
                       /\ Alert.alert_type a = SPENDING_LIMIT_EXCEEDED
                       /\ Alert.priority a = HIGH
                       /\ Dict.get (Alert.data a) "percentage" = Ok (VFloat pct)
        else if Py.geb pct 80
        then exists a, new = [a]
                       /\ Alert.alert_type a = SPENDING_LIMIT_WARNING
                       /\ Alert.priority a = MEDIUM
                       /\ Dict.get (Alert.data a) "percentage" = Ok (VFloat pct)
        else new = []).
Proof.
  intros spent lim pct. unfold AlertSystem.check_limit.
  fold spent. fold lim. rewrite (percentage_of_returns spent lim). fold pct.
  cbn [rbind]. unfold AlertSystem.append.
  destruct (Py.gtb spent lim).
  - eexists. split; [reflexivity|]. eexists. repeat split.
  - destruct (Py.geb pct 80).
    + eexists. split; [reflexivity|]. eexists. repeat split.
    + exists []. rewrite app_nil_r. split; reflexivity.
Qed.

Lemma percentage_of_value (part whole : Q) :
  value_of 0%Q (AlertSystem.percentage_of part whole)
  = (if Py.gtb whole 0 then (part / whole * 100)%Q else 0%Q).
Proof.
  unfold AlertSystem.percentage_of.
  destruct (Py.gtb whole 0) eqn:G; [|reflexivity].
  rewrite (PyFacts.truediv_pos _ _ G). reflexivity.
Qed.

(** One limit in [_check_spending_limits]. *)
Lemma check_limit_outcome db cd utcnow alerts (limit : SpendingLimit.t) :
  exists new,
    AlertSystem.check_limit db cd utcnow alerts limit = Ok (alerts ++ new)
    /\ limit_alerts_ok db cd limit new.
Proof.
  destruct (check_limit_cases db cd utcnow alerts limit) as (new & E & C).
  exists new. split; [exact E|].
  unfold limit_alerts_ok. cbv zeta.
  rewrite percentage_of_value in C.
  set (spent := Query.current_spent db cd (SpendingLimit.category_id limit)) in *.
  set (lim := SpendingLimit.monthly_limit limit) in *.
  set (pct := if Py.gtb lim 0 then (spent / lim * 100)%Q else 0%Q) in *.
  destruct (Py.gtb spent lim) eqn:G1.
  - apply PyFacts.ltb_lt in G1.
    destruct C as (a & -> & T & _ & D). simpl. rewrite T.
    repeat split; try lia; try discriminate; try tauto.
    constructor; [exact D | constructor].
  - apply PyFacts.ltb_ge in G1. apply Qle_not_lt in G1.
    destruct (Py.geb pct 80) eqn:G2.
    + apply PyFacts.leb_le in G2.
      destruct C as (a & -> & T & _ & D). simpl. rewrite T.
      repeat split; try lia; try discriminate; try tauto.
      constructor; [exact D | constructor].
    + apply PyFacts.leb_gt in G2. apply Qlt_not_le in G2.
      subst new. simpl.
      repeat split; try lia; try discriminate; try tauto.
      constructor.
Qed.

(** One limit in [get_spending_limits_status]. *)
Lemma limit_status_outcome db cd (limit : SpendingLimit.t) :
  exists st,
    FinancialAnalysis.limit_status db cd limit = Ok st
    /\ limit_status_ok db cd limit st.
Proof.
  unfold FinancialAnalysis.limit_status, limit_status_ok. cbv zeta.
  set (spent := Query.current_spent db cd (SpendingLimit.category_id limit)).
  set (lim := SpendingLimit.monthly_limit limit).
  change (if Py.gtb lim 0
          then try! q := Py.truediv spent lim in Ok (q * 100)%Q
          else Ok 0%Q) with (AlertSystem.percentage_of spent lim).
  rewrite (percentage_of_returns spent lim), percentage_of_value. cbn [rbind].
  eexists. split; [reflexivity|]. split; [reflexivity|].
  cbn [FinancialAnalysis.LimitStatus.is_over_limit]. apply PyFacts.ltb_lt.
Qed.

(** C2, as the code has it. The pass over the spending limits of the
    current month returns, and so does the status list of the analyzer.
    For every limit, with percentageUsed = spent / limit * 100 when the
    limit is positive and 0 otherwise, the pass appends at most one alert:
    the limit is Exceeded exactly when spent > limit, in Warning exactly
    when it is not exceeded and the percentage used is at least 80 (100
    included), and within the limit otherwise. The alert carries that
    percentage, and the status list reports it and flags the limit as over
    exactly when spent > limit. *)
Theorem limit_state_classification (db : Store) (current_date : date)
    (utcnow : nat -> Z) (alerts : list Alert.t) :
  let limits :=
    Query.limits_of db (Date.month_key (year current_date) (month current_date)) in
  exists (news : list (list Alert.t)) (status : list FinancialAnalysis.LimitStatus.t),
    AlertSystem._check_spending_limits db current_date utcnow alerts
    = Ok (alerts ++ concat news)
    /\ Forall2 (limit_alerts_ok db current_date) limits news
    /\ FinancialAnalysis.get_spending_limits_status db current_date = Ok status
    /\ Forall2 (limit_status_ok db current_date) limits status.
Proof.
  intros limits.
  destruct (for_each_appends (AlertSystem.check_limit db current_date utcnow)
              (limit_alerts_ok db current_date) limits) with (s := alerts)
    as (news & En & Fn).
  { intros s x _. apply check_limit_outcome. }
  destruct (for_append_forall2 (FinancialAnalysis.limit_status db current_date) limits)
    with (out := @nil FinancialAnalysis.LimitStatus.t) as (status & Es & Fs).
  { intros x _. destruct (limit_status_outcome db current_date x) as (st & E & _).
    exists st. exact E. }
  exists news, status. split; [exact En|]. split; [exact Fn|]. split; [exact Es|].
  eapply Forall2_impl; [exact Fs|]. intros limit st Hst. cbv beta in Hst.
  destruct (limit_status_outcome db current_date limit) as (st' & E & O).
  rewrite Hst in E. injection E as <-. exact O.
Qed.

(** C2 as stated fails when the limit is reached exactly: 1000 spent of
    a limit of 1000 is 100 percent used, which the pass reports as a
    warning, not as a limit that is respected. *)
Lemma limit_reached_exactly_is_a_warning :
  let spent :=
    Query.current_spent ledger_limit_reached (mkdate 2025 1 15)
      (SpendingLimit.category_id food_limit) in
  let lim := SpendingLimit.monthly_limit food_limit in
  exists (pct : Q) (a : Alert.t),
    AlertSystem.percentage_of spent lim = Ok pct
    /\ (pct == 100)%Q
    /\ AlertSystem.check_limit ledger_limit_reached (mkdate 2025 1 15) clock []
         food_limit = Ok [a]
    /\ state_of_alerts [a] = Warning
    /\ ~ (~ (lim < spent)%Q /\ (80 <= pct)%Q /\ (pct < 100)%Q)
    /\ state_of_alerts [a] <> spec_limit_state spent lim pct.
Proof.
  vm_compute. eexists. eexists.
  split; [reflexivity|]. split; [reflexivity|]. split; [reflexivity|].
  split; [reflexivity|]. split.
  - intros (_ & _ & H). discriminate H.
  - discriminate.
Qed.

(** ** Dictionaries *)

Module DictFacts.

Lemma keys_set {V : Type} (d : Dict.t V) (k : string) (v : V) (k' : string) :
  In k' (Dict.keys (Dict.set d k v)) <-> In k' (Dict.keys d) \/ k' = k.
Proof.
  induction d as [|[k0 v0] d IH]; simpl.
  - intuition congruence.
  - destruct (String.eqb k0 k) eqn:E; simpl.
    + apply String.eqb_eq in E. subst k0. intuition congruence.
    + unfold Dict.keys in IH. rewrite IH. tauto.
Qed.

Lemma values_set {V : Type} (P : V -> Prop) (d : Dict.t V) (k : string) (v : V) :
  Forall P (Dict.values d) -> P v -> Forall P (Dict.values (Dict.set d k v)).
Proof.
  intros Hd Hv. induction d as [|[k0 v0] d IH]; simpl.
  - constructor; [exact Hv | constructor].
  - simpl in Hd. apply Forall_cons_iff in Hd. destruct Hd as [H0 Hd].
    destruct (String.eqb k0 k); simpl; constructor; auto.
Qed.

Lemma set_fresh {V : Type} (d : Dict.t V) (k : string) (v : V) :
  ~ In k (Dict.keys d) -> Dict.set d k v = d ++ [(k, v)].
Proof.
  induction d as [|[k0 v0] d IH]; simpl; intros H; [reflexivity|].
  destruct (String.eqb k0 k) eqn:E.
  - apply String.eqb_eq in E. tauto.
  - rewrite IH by tauto. reflexivity.
Qed.

Lemma set_nonempty {V : Type} (d : Dict.t V) (k : string) (v : V) :
  Dict.set d k v <> [].
Proof.
  destruct d as [|[k0 v0] d]; simpl; [discriminate|].
  destruct (String.eqb k0 k); discriminate.
Qed.

Lemma get_in_keys {V : Type} (d : Dict.t V) (k : string) :
  In k (Dict.keys d) -> exists v, Dict.get d k = Ok v /\ In v (Dict.values d).
Proof.
  induction d as [|[k0 v0] d IH]; simpl; intros H; [contradiction|].
  destruct (String.eqb k0 k) eqn:E.
  - exists v0. split; [reflexivity | left; reflexivity].
  - apply String.eqb_neq in E. destruct H as [H|H]; [congruence|].
    destruct (IH H) as (v & G & I). exists v. split; [exact G | right; exact I].
Qed.

Lemma get_unique {V : Type} (d : Dict.t V) (k : string) (v : V) :
  List.NoDup (Dict.keys d) -> In (k, v) d -> Dict.get d k = Ok v.
Proof.
  induction d as [|[k0 v0] d IH]; simpl; intros N H; [contradiction|].
  apply NoDup_cons_iff in N. destruct N as [N0 N].
  destruct H as [H|H].
  - inversion H; subst. rewrite String.eqb_refl. reflexivity.
  - destruct (String.eqb k0 k) eqn:E.
    + apply String.eqb_eq in E. subst k0. exfalso. apply N0.
      apply (in_map fst) in H. exact H.
    + apply IH; assumption.
Qed.

(** A loop that assigns one key per element builds the dictionary of
    those keys; when the keys are distinct and new, one entry per
    element, in order. *)
Lemma for_each_set {A V : Type} (body : Dict.t V -> A -> result (Dict.t V))
    (key : A -> string) (R : A -> V -> Prop) (xs : list A) :
  (forall d x, In x xs -> exists v, body d x = Ok (Dict.set d (key x) v) /\ R x v) ->
  forall d0, exists d', for_each body xs d0 = Ok d' /\ built_by key R xs d0 d'.
Proof.
  unfold built_by.
  induction xs as [|x xs IH]; intros Hb d0; simpl.
  - exists d0. split; [reflexivity|]. split; [tauto|]. split; [auto|].
    intros _ _. exists []. rewrite app_nil_r. split; [reflexivity | constructor].
  - destruct (Hb d0 x (or_introl eq_refl)) as (v & E & Hv). rewrite E. simpl.
    destruct (IH (fun d y Hy => Hb d y (or_intror Hy)) (Dict.set d0 (key x) v))
      as (d' & E' & K & F & S).
    exists d'. split; [exact E'|]. split; [|split].
    + intros k. rewrite K, keys_set. intuition.
    + intros P HP H0. apply F; [intros y w Hy; apply HP; right; exact Hy|].
      apply values_set; [exact H0|]. apply (HP x v); [left; reflexivity | exact Hv].
    + intros N Hfresh. apply NoDup_cons_iff in N. destruct N as [N0 N].
      rewrite (set_fresh d0 (key x) v) in S
        by (apply Hfresh; left; reflexivity).
      destruct (S N) as (vs & -> & F2).
      { intros y Hy. unfold Dict.keys. rewrite map_app, in_app_iff. simpl.
        intros [H|[H|[]]].
        - apply (Hfresh y); [right; exact Hy | exact H].
        - apply N0. rewrite H. apply in_map. exact Hy. }
      exists (v :: vs). rewrite <- app_assoc. simpl.
      split; [reflexivity | constructor; assumption].
Qed.

(** The same for a loop that cannot raise. *)
Lemma fold_set {A V : Type} (body : Dict.t V -> A -> Dict.t V)
    (key : A -> string) (R : A -> V -> Prop) (xs : list A) :
  (forall d x, In x xs -> exists v, body d x = Dict.set d (key x) v /\ R x v) ->
  forall d0, built_by key R xs d0 (fold_left body xs d0).
Proof.
  intros Hb d0.
  destruct (for_each_set (fun d x => Ok (body d x)) key R xs) with (d0 := d0)
    as (d' & E & B).
  - intros d x Hx. destruct (Hb d x Hx) as (v & -> & Hv). exists v. auto.
  - assert (E2 : for_each (fun d x => Ok (body d x)) xs d0 = Ok (fold_left body xs d0)).
    { apply for_each_ok. reflexivity. }
    rewrite E2 in E. injection E as <-. exact B.
Qed.

End DictFacts.

(** ** The projections of [financial_analysis.py] *)

Module AnalysisFacts.

Lemma truediv_length {A : Type} (x : Q) (a : A) (l : list A) :
  Py.truediv x (inject_Z (Z.of_nat (length (a :: l))))
  = Ok (x / inject_Z (Z.of_nat (length (a :: l))))%Q.
Proof.
  apply PyFacts.truediv_pos. apply PyFacts.ltb_lt.
  change 0%Q with (inject_Z 0). rewrite <- Zlt_Qlt. simpl length. lia.
Qed.

(** The average over the years that have data never divides by zero. *)
Lemma historical_average_returns db cd ty m :
  FinancialAnalysis.historical_average db cd ty m
  = Ok (value_of 0%Q (FinancialAnalysis.historical_average db cd ty m)).
Proof.
  unfold FinancialAnalysis.historical_average.
  match goal with |- context [fold_left ?f ?l ?a] => destruct (fold_left f l a) as [|q data] end.
  - reflexivity.
  - rewrite truediv_length. reflexivity.
Qed.

Lemma project_future_expenses_built db cd months_ahead :
  exists d,
    FinancialAnalysis.project_future_expenses db cd months_ahead = Ok d
    /\ built_by (target_key cd) (expense_entry_ok cd)
         (Py.range 1 (months_ahead + 1)) [] d.
Proof.
  unfold FinancialAnalysis.project_future_expenses.
  apply (DictFacts.for_each_set _ (target_key cd) (expense_entry_ok cd)).
  intros d x _.
  unfold FinancialAnalysis._get_historical_average_expenses.
  rewrite historical_average_returns. simpl rbind.
  eexists. split; [reflexivity|]. repeat split.
Qed.

Lemma project_future_income_built db cd months_ahead :
  exists d,
    FinancialAnalysis.project_future_income db cd months_ahead = Ok d
    /\ built_by (target_key cd) (income_entry_ok cd)
         (Py.range 1 (months_ahead + 1)) [] d.
Proof.
  unfold FinancialAnalysis.project_future_income.
  apply (DictFacts.for_each_set _ (target_key cd) (income_entry_ok cd)).
  intros d x _.
  unfold FinancialAnalysis._get_historical_average_income.
  rewrite historical_average_returns. simpl rbind.
  eexists. split; [reflexivity|]. repeat split.
Qed.

(** [(part / whole * 100) if whole > 0 else 0] does not raise. *)
Lemma guarded_percentage (part whole : Q) :
  (if Py.gtb whole 0
   then try! q := Py.truediv part whole in Ok (q * 100)%Q
   else Ok 0%Q)
  = Ok (if Py.gtb whole 0 then (part / whole * 100)%Q else 0%Q).
Proof.
  destruct (Py.gtb whole 0) eqn:G; [|reflexivity].
  rewrite (PyFacts.truediv_pos _ _ G). reflexivity.
Qed.

Lemma savings_entry_fields (exp : Dict.t ExpenseProjection.t)
    (inc : Dict.t IncomeProjection.t) (k : string)
    (ie : IncomeProjection.t) (ee : ExpenseProjection.t) :
  Dict.get inc k = Ok ie ->
  Dict.get exp k = Ok ee ->
  exists e,
    FinancialAnalysis.savings_entry exp inc k = Ok e
    /\ SavingsEntry.month e = ExpenseProjection.month_name ee
    /\ SavingsEntry.year e = ExpenseProjection.year ee
    /\ SavingsEntry.projected_income e = IncomeProjection.projected_total ie
    /\ SavingsEntry.projected_expenses e = ExpenseProjection.projected_total ee
    /\ SavingsEntry.projected_savings e
       = (IncomeProjection.projected_total ie
          - ExpenseProjection.projected_total ee)%Q.
Proof.
  intros Hi He. unfold FinancialAnalysis.savings_entry.
  rewrite Hi, He. simpl rbind. rewrite guarded_percentage. simpl rbind.
  eexists. split; [reflexivity|]. repeat split.
Qed.

(** The savings capacity has one entry per key of the expense
    projections, and is computed without raising: the income
    projections have the same keys. *)
Lemma calculate_savings_capacity_built db cd months_ahead :
  exists exp inc sc,
    FinancialAnalysis.project_future_expenses db cd months_ahead = Ok exp
    /\ built_by (target_key cd) (expense_entry_ok cd)
         (Py.range 1 (months_ahead + 1)) [] exp
    /\ FinancialAnalysis.project_future_income db cd months_ahead = Ok inc
    /\ built_by (target_key cd) (income_entry_ok cd)
         (Py.range 1 (months_ahead + 1)) [] inc
    /\ FinancialAnalysis.calculate_savings_capacity db cd months_ahead = Ok sc
    /\ built_by (fun k => k)
         (fun k e => FinancialAnalysis.savings_entry exp inc k = Ok e)
         (Dict.keys exp) [] sc.
Proof.
  destruct (project_future_expenses_built db cd months_ahead) as (exp & Ee & Be).
  destruct (project_future_income_built db cd months_ahead) as (inc & Ei & Bi).
  exists exp, inc.
  unfold FinancialAnalysis.calculate_savings_capacity. rewrite Ee, Ei. simpl rbind.
  destruct (DictFacts.for_each_set
              (fun savings_capacity month_key =>
                 try! e := FinancialAnalysis.savings_entry exp inc month_key in
                 Ok (Dict.set savings_capacity month_key e))
              (fun k => k)
              (fun k e => FinancialAnalysis.savings_entry exp inc k = Ok e)
              (Dict.keys exp)) with (d0 := @nil (string * SavingsEntry.t))
    as (sc & Es & Bs).
  - intros d k Hk.
    destruct (DictFacts.get_in_keys exp k Hk) as (ee & Ge & _).
    assert (Hk' : In k (Dict.keys inc)).
    { apply (proj1 Bi). apply (proj1 Be) in Hk. exact Hk. }
    destruct (DictFacts.get_in_keys inc k Hk') as (ie & Gi & _).
    destruct (savings_entry_fields exp inc k ie ee Gi Ge) as (e & E & _).
    exists e. rewrite E. split; reflexivity.
  - exists sc. repeat split; try assumption; apply Be || apply Bi || apply Bs.
Qed.

Lemma calculate_savings_capacity_returns db cd months_ahead :
  returns (FinancialAnalysis.calculate_savings_capacity db cd months_ahead).
Proof.
  destruct (calculate_savings_capacity_built db cd months_ahead)
    as (exp & inc & sc & _ & _ & _ & _ & E & _).
  exists sc. exact E.
Qed.

Lemma range_1_4 : Py.range 1 (3 + 1) = [1; 2; 3].
Proof. reflexivity. Qed.

Lemma target_keys_distinct cd :
  1 <= month cd <= 12 -> List.NoDup (map (target_key cd) [1; 2; 3]).
Proof.
  intros Hm. simpl.
  assert (N : forall j k, 1 <= j <= 11 -> 1 <= k <= 11 -> j <> k ->
                          target_key cd j <> target_key cd k).
  { intros j k Hj Hk Hjk E. apply Hjk.
    apply (DateFacts.target_key_inj cd j k Hm Hj Hk E). }
  repeat constructor; simpl; intros H;
    repeat (destruct H as [H|H]; [revert H; apply N; lia|]); exact H.
Qed.

(** Three months ahead of a date of the calendar: three entries, in the
    order of the months, each with the year and the name of its month
    and the difference of the two projected totals of its month. *)
Lemma savings_capacity_three db cd :
  1 <= month cd <= 12 ->
  exists s1 s2 s3,
    FinancialAnalysis.calculate_savings_capacity db cd 3
    = Ok [(target_key cd 1, s1); (target_key cd 2, s2); (target_key cd 3, s3)]
    /\ Forall2 (fun off s =>
                  SavingsEntry.year s = year (Date.add_months cd off)
                  /\ SavingsEntry.month s
                     = Date.month_name (month (Date.add_months cd off)))
         [1; 2; 3] [s1; s2; s3].
Proof.
  intros Hm.
  destruct (calculate_savings_capacity_built db cd 3)
    as (exp & inc & sc & _ & Be & _ & Bi & Es & Bs).
  rewrite range_1_4 in Be, Bi.
  pose proof (target_keys_distinct cd Hm) as N.
  destruct Be as (_ & _ & Be). destruct (Be N) as (ve & -> & Fe); [intros x _ []|].
  destruct Bi as (_ & _ & Bi). destruct (Bi N) as (vi & -> & Fi); [intros x _ []|].
  clear Be Bi.
  inversion Fe as [|? e1 ? ? R1 Fe1]; subst. inversion Fe1 as [|? e2 ? ? R2 Fe2]; subst.
  inversion Fe2 as [|? e3 ? ? R3 Fe3]; subst. inversion Fe3; subst.
  inversion Fi as [|? i1 ? ? Q1 Fi1]; subst. inversion Fi1 as [|? i2 ? ? Q2 Fi2]; subst.
  inversion Fi2 as [|? i3 ? ? Q3 Fi3]; subst. inversion Fi3; subst.
  clear Fe Fe1 Fe2 Fe3 Fi Fi1 Fi2 Fi3.
  simpl app in *. simpl combine in *. simpl map in N.
  destruct Bs as (_ & _ & Bs). simpl Dict.keys in Bs. simpl map in Bs.
  destruct (Bs N) as (vs & -> & Fs); [intros x _ []|]. clear Bs.
  inversion Fs as [|? s1 ? ? S1 Fs1]; subst. inversion Fs1 as [|? s2 ? ? S2 Fs2]; subst.
  inversion Fs2 as [|? s3 ? ? S3 Fs3]; subst. inversion Fs3; subst.
  clear Fs Fs1 Fs2 Fs3.
  exists s1, s2, s3. split; [exact Es|].
  assert (G : forall k (ee : ExpenseProjection.t) (ie : IncomeProjection.t) s off,
            In (k, ee) [(target_key cd 1, e1); (target_key cd 2, e2); (target_key cd 3, e3)] ->
            In (k, ie) [(target_key cd 1, i1); (target_key cd 2, i2); (target_key cd 3, i3)] ->
            expense_entry_ok cd off ee ->
            FinancialAnalysis.savings_entry
              [(target_key cd 1, e1); (target_key cd 2, e2); (target_key cd 3, e3)]
              [(target_key cd 1, i1); (target_key cd 2, i2); (target_key cd 3, i3)] k = Ok s ->
            SavingsEntry.year s = year (Date.add_months cd off)
            /\ SavingsEntry.month s = Date.month_name (month (Date.add_months cd off))).
  { intros k ee ie s off Ie Ii (Ry & _ & Rn & _) Hs.
    apply DictFacts.get_unique in Ie; [|exact N].
    apply DictFacts.get_unique in Ii; [|exact N].
    destruct (savings_entry_fields _ _ k ie ee Ii Ie) as (s' & Hs' & Fm & Fy & _).
    rewrite Hs in Hs'. injection Hs' as <-.
    rewrite Fy, Fm, Ry, Rn. split; reflexivity. }
  constructor; [apply (G (target_key cd 1) e1 i1 s1 1); simpl; auto|].
  constructor; [apply (G (target_key cd 2) e2 i2 s2 2); simpl; auto|].
  constructor; [apply (G (target_key cd 3) e3 i3 s3 3); simpl; auto|].
  constructor.
Qed.

End AnalysisFacts.

(** ** The rules of the alert system *)

Module RuleFacts.

(** A rule that appends nothing, and one that appends one alert of its
    own type and priority. *)
Ltac nothing_appended :=
  exists []; rewrite app_nil_r; split; [reflexivity | constructor].

Ltac one_appended :=
  eexists; split; [reflexivity|];
  constructor; [|constructor]; split; simpl; auto.

Section Pass.

Variable db : Store.
Variable current_date : date.
Variable today : date.
Variable utcnow : nat -> Z.

(** What [append] adds is one alert of the type and priority given. *)
Lemma append_by_rule alerts ty title message data url :
  exists a,
    AlertSystem.append utcnow alerts ty (rule_priority ty) title message data url
    = alerts ++ [a]
    /\ Alert.alert_type a = ty
    /\ Alert.priority a = rule_priority ty
    /\ Alert.data a = data
    /\ Alert.is_read a = false.
Proof. eexists. split; [reflexivity|]. repeat split. Qed.

Lemma check_limit_extends alerts limit :
  exists new,
    AlertSystem.check_limit db current_date utcnow alerts limit = Ok (alerts ++ new)
    /\ Forall (by_rule [SPENDING_LIMIT_EXCEEDED; SPENDING_LIMIT_WARNING]) new.
Proof.
  destruct (check_limit_cases db current_date utcnow alerts limit) as (new & E & C).
  exists new. split; [exact E|].
  destruct (Py.gtb _ _).
  - destruct C as (a & -> & T & Pr & _).
    constructor; [|constructor]. split; [rewrite T | rewrite Pr, T]; simpl; auto.
  - destruct (Py.geb _ _).
    + destruct C as (a & -> & T & Pr & _).
      constructor; [|constructor]. split; [rewrite T | rewrite Pr, T]; simpl; auto.
    + subst new. constructor.
Qed.

Lemma _check_spending_limits_extends alerts :
  exists new,
    AlertSystem._check_spending_limits db current_date utcnow alerts
    = Ok (alerts ++ new)
    /\ Forall (by_rule [SPENDING_LIMIT_EXCEEDED; SPENDING_LIMIT_WARNING]) new.
Proof.
  unfold AlertSystem._check_spending_limits.
  apply for_each_extends. intros s x _. apply check_limit_extends.
Qed.

Lemma total_months_positive goal :
  Py.gtb (AlertSystem._calculate_total_months goal) 0 = true.
Proof.
  apply PyFacts.ltb_lt. unfold AlertSystem._calculate_total_months.
  apply Qlt_le_trans with 1%Q; [reflexivity | apply PyFacts.max_lb_l].
Qed.

(** [a / b if b > 0 else 0] does not raise. *)
Lemma guarded_ratio (a b : Q) :
  (if Py.gtb b 0 then Py.truediv a b else Ok 0%Q)
  = Ok (if Py.gtb b 0 then (a / b)%Q else 0%Q).
Proof.
  destruct (Py.gtb b 0) eqn:G; [|reflexivity].
  rewrite (PyFacts.truediv_pos _ _ G). reflexivity.
Qed.

Lemma check_goal_cases alerts goal :
  exists new,
    AlertSystem.check_goal current_date utcnow alerts goal = Ok (alerts ++ new)
    /\ Forall (by_rule [GOAL_DEADLINE_APPROACHING; GOAL_BEHIND_SCHEDULE]) new
    /\ Forall (carries_progress
                 (value_of 0%Q
                    (AlertSystem.percentage_of (Goal.current_amount goal)
                       (Goal.target_amount goal)))
                 (if Py.gtb (Goal.target_amount goal) 0
                  then (Goal.current_amount goal / Goal.target_amount goal)%Q
                  else 0%Q)) new.
Proof.
  unfold AlertSystem.check_goal.
  set (days := Date.days_between (Goal.target_date goal) current_date).
  set (months := Py.max 0 (inject_Z days / (3044 # 100))%Q).
  set (pct := value_of 0%Q
                (AlertSystem.percentage_of (Goal.current_amount goal)
                   (Goal.target_amount goal))).
  set (frac := if Py.gtb (Goal.target_amount goal) 0
               then (Goal.current_amount goal / Goal.target_amount goal)%Q
               else 0%Q).
  assert (First : exists n1,
             (if (0 <? days) && (days <=? 30)
              then try! progress_percentage :=
                     AlertSystem.percentage_of (Goal.current_amount goal)
                       (Goal.target_amount goal) in
                   if Py.ltb progress_percentage 90
                   then Ok (AlertSystem.append utcnow alerts GOAL_DEADLINE_APPROACHING HIGH
                              [Text "Meta próxima do prazo: "; Text (Goal.name goal)]
                              [Text "Sua meta '"; Text (Goal.name goal); Text "' vence em ";
                               Int days; Text " dias e está ";
                               Fixed1 progress_percentage; Text "% concluída."]
                              [("goal_id", VInt (Goal.id goal));
                               ("goal_name", VStr (Goal.name goal));
                               ("target_amount", VFloat (Goal.target_amount goal));
                               ("current_amount", VFloat (Goal.current_amount goal));
                               ("progress_percentage", VFloat progress_percentage);
                               ("days_remaining", VInt days)]%string
                              "/goals")
                   else Ok alerts
              else Ok alerts) = Ok (alerts ++ n1)
             /\ Forall (by_rule [GOAL_DEADLINE_APPROACHING; GOAL_BEHIND_SCHEDULE]) n1
             /\ Forall (carries_progress pct frac) n1).
  { destruct ((0 <? days) && (days <=? 30)).
    - rewrite percentage_of_returns. fold pct. cbn [rbind].
      destruct (Py.ltb pct 90).
      + eexists. split; [reflexivity|]. split.
        * constructor; [|constructor]. split; simpl; auto.
        * constructor; [|constructor]. split; [reflexivity | discriminate].
      + exists []. rewrite app_nil_r. split; [reflexivity | split; constructor].
    - exists []. rewrite app_nil_r. split; [reflexivity | split; constructor]. }
  destruct First as (n1 & -> & F1 & P1). cbn [rbind].
  destruct (Py.gtb months 0) eqn:G.
  - rewrite (PyFacts.truediv_pos _ _ (total_months_positive goal)). cbn [rbind].
    rewrite guarded_ratio. fold frac. cbn [rbind].
    destruct (Py.ltb _ _).
    + rewrite (PyFacts.truediv_pos _ _ G). cbn [rbind].
      unfold AlertSystem.append. rewrite <- app_assoc.
      eexists. split; [reflexivity|]. split.
      * apply Forall_app. split; [exact F1|].
        constructor; [|constructor]. split; simpl; auto.
      * apply Forall_app. split; [exact P1|].
        constructor; [|constructor]. split; [discriminate | reflexivity].
    + exists n1. split; [reflexivity | split; assumption].
  - exists n1. split; [reflexivity | split; assumption].
Qed.

Lemma check_goal_extends alerts goal :
  exists new,
    AlertSystem.check_goal current_date utcnow alerts goal = Ok (alerts ++ new)
    /\ Forall (by_rule [GOAL_DEADLINE_APPROACHING; GOAL_BEHIND_SCHEDULE]) new.
Proof.
  destruct (check_goal_cases alerts goal) as (new & E & F & _).
  exists new. split; assumption.
Qed.

Lemma _check_goals_progress_extends alerts :
  exists new,
    AlertSystem._check_goals_progress db current_date utcnow alerts
    = Ok (alerts ++ new)
    /\ Forall (by_rule [GOAL_DEADLINE_APPROACHING; GOAL_BEHIND_SCHEDULE]) new.
Proof.
  unfold AlertSystem._check_goals_progress.
  apply for_each_extends. intros s x _. apply check_goal_extends.
Qed.

(** The loop over the projected months stops at the first deficit. *)
Lemma balance_loop_spec items alerts :
  exists new,
    AlertSystem.balance_loop utcnow items alerts = alerts ++ new
    /\ ((new = [] /\ Forall no_deficit items)
        \/ (exists a before item after,
              new = [a]
              /\ items = before ++ item :: after
              /\ Forall no_deficit before
              /\ Py.ltb (SavingsEntry.projected_savings (snd item)) 0 = true
              /\ Alert.alert_type a = LOW_BALANCE_PROJECTION
              /\ Alert.priority a = HIGH
              /\ Dict.get (Alert.data a) "month"
                 = Ok (VStr (SavingsEntry.month (snd item)))
              /\ Dict.get (Alert.data a) "year"
                 = Ok (VInt (SavingsEntry.year (snd item))))).
Proof.
  induction items as [|[k e] items IH]; simpl.
  - exists []. rewrite app_nil_r. split; [reflexivity|]. left. split; constructor.
  - destruct (Py.ltb (SavingsEntry.projected_savings e) 0) eqn:D.
    + eexists. split; [reflexivity|]. right.
      eexists. exists [], (k, e), items.
      split; [reflexivity|]. split; [reflexivity|]. split; [constructor|].
      split; [exact D|]. repeat split.
    + destruct IH as (new & E & C). exists new. split; [exact E|].
      destruct C as [[-> F]|(a & before & item & after & -> & -> & F & D' & R)].
      * left. split; [reflexivity|]. constructor; [exact D | exact F].
      * right. exists a, ((k, e) :: before), item, after.
        split; [reflexivity|]. split; [reflexivity|].
        split; [constructor; [exact D | exact F]|]. split; assumption.
Qed.

Lemma _check_unusual_spending_extends alerts :
  exists new,
    AlertSystem._check_unusual_spending db current_date utcnow alerts
    = Ok (alerts ++ new)
    /\ Forall (by_rule [UNUSUAL_SPENDING]) new.
Proof.
  unfold AlertSystem._check_unusual_spending.
  match goal with |- context [if ?c1 && ?c2 then _ else _] =>
    destruct c1; [destruct c2 eqn:G|]; simpl andb; cbv iota end.
  - rewrite (PyFacts.truediv_pos _ _ G). simpl rbind.
    one_appended.
  - nothing_appended.
  - nothing_appended.
Qed.

Lemma _check_bill_reminders_extends alerts :
  exists new,
    AlertSystem._check_bill_reminders db current_date utcnow alerts = alerts ++ new
    /\ Forall (by_rule [BILL_REMINDER]) new.
Proof.
  unfold AlertSystem._check_bill_reminders.
  apply fold_left_extends. intros s x _.
  one_appended.
Qed.

Lemma _check_positive_trends_extends alerts :
  exists new,
    AlertSystem._check_positive_trends db current_date utcnow alerts
    = Ok (alerts ++ new)
    /\ Forall (by_rule [POSITIVE_TREND]) new.
Proof.
  unfold AlertSystem._check_positive_trends.
  destruct (month current_date =? 1); cbv zeta iota beta;
    match goal with |- context [if ?c1 && ?c2 then _ else _] =>
      destruct c1; [destruct c2 eqn:G|]; simpl andb; cbv iota end;
    try nothing_appended;
    rewrite (PyFacts.truediv_pos _ _ G); simpl rbind;
    one_appended.
Qed.

(** One pass: every rule runs, none raises, and each appends alerts
    of its own types only. *)
Lemma generate_all_alerts_parts :
  exists n1 n2 n3 n4 n5 n6 sc,
    AlertSystem.generate_all_alerts db current_date today utcnow
    = Ok (n1 ++ n2 ++ n3 ++ n4 ++ n5 ++ n6)
    /\ Forall (by_rule [SPENDING_LIMIT_EXCEEDED; SPENDING_LIMIT_WARNING]) n1
    /\ Forall (by_rule [GOAL_DEADLINE_APPROACHING; GOAL_BEHIND_SCHEDULE]) n2
    /\ FinancialAnalysis.calculate_savings_capacity db today 3 = Ok sc
    /\ AlertSystem.balance_loop utcnow (Dict.items sc) (n1 ++ n2) = (n1 ++ n2) ++ n3
    /\ Forall (by_rule [UNUSUAL_SPENDING]) n4
    /\ Forall (by_rule [BILL_REMINDER]) n5
    /\ Forall (by_rule [POSITIVE_TREND]) n6.
Proof.
  unfold AlertSystem.generate_all_alerts.
  destruct (_check_spending_limits_extends []) as (n1 & E1 & F1).
  rewrite E1. simpl rbind. simpl app.
  destruct (_check_goals_progress_extends n1) as (n2 & E2 & F2).
  rewrite E2. simpl rbind.
  unfold AlertSystem._check_balance_projections.
  destruct (AnalysisFacts.calculate_savings_capacity_returns db today 3) as (sc & Es).
  rewrite Es. simpl rbind.
  destruct (balance_loop_spec (Dict.items sc) (n1 ++ n2)) as (n3 & E3 & _).
  rewrite E3.
  destruct (_check_unusual_spending_extends ((n1 ++ n2) ++ n3)) as (n4 & E4 & F4).
  rewrite E4. simpl rbind.
  destruct (_check_bill_reminders_extends (((n1 ++ n2) ++ n3) ++ n4)) as (n5 & E5 & F5).
  rewrite E5.
  destruct (_check_positive_trends_extends ((((n1 ++ n2) ++ n3) ++ n4) ++ n5))
    as (n6 & E6 & F6).
  rewrite E6. simpl rbind.
  exists n1, n2, n3, n4, n5, n6, sc.
  split; [rewrite <- !app_assoc; reflexivity|].
  repeat split; assumption.
Qed.

End Pass.

End RuleFacts.

(** ** The alerts of a pass *)

Lemma by_rule_not_critical types a :
  by_rule types a ->
  Alert.priority a = LOW \/ Alert.priority a = MEDIUM \/ Alert.priority a = HIGH.
Proof.
  intros [_ ->]. destruct (Alert.alert_type a); simpl; auto.
Qed.

Lemma by_rule_filter_other types ty (l : list Alert.t) :
  ~ In ty types ->
  Forall (by_rule types) l ->
  List.filter (fun a => AlertType_eqb (Alert.alert_type a) ty) l = [].
Proof.
  intros Hn F. induction F as [|a l [Ha _] F IH]; simpl; [reflexivity|].
  destruct (AlertType_eqb (Alert.alert_type a) ty) eqn:E; [|exact IH].
  exfalso. apply Hn.
  destruct (Alert.alert_type a), ty; simpl in E; try discriminate; exact Ha.
Qed.

Lemma no_critical_selected (l : list Alert.t) :
  Forall (fun a => Alert.priority a = LOW
                   \/ Alert.priority a = MEDIUM
                   \/ Alert.priority a = HIGH) l ->
  AlertSystem.get_alerts_by_priority l CRITICAL = [].
Proof.
  unfold AlertSystem.get_alerts_by_priority.
  induction l as [|a l IH]; intros F; simpl; [reflexivity|].
  apply Forall_cons_iff in F. destruct F as [Ha F].
  destruct Ha as [H|[H|H]]; rewrite H; simpl; apply IH; exact F.
Qed.

(** C9. No rule gives an alert the priority CRITICAL: a pass returns, every
    alert of the list it returns has priority low, medium or high, no alert
    is selected for the priority CRITICAL and the summary counts 0 critical
    alerts. *)
Theorem no_critical_alert (db : Store) (current_date today : date) (utcnow : nat -> Z) :
  exists alerts : list Alert.t,
    AlertSystem.generate_all_alerts db current_date today utcnow = Ok alerts
    /\ Forall (fun a => Alert.priority a = LOW
                        \/ Alert.priority a = MEDIUM
                        \/ Alert.priority a = HIGH) alerts
    /\ AlertSystem.get_alerts_by_priority alerts CRITICAL = []
    /\ Dict.get (AlertsSummary.by_priority (AlertSystem.get_alerts_summary alerts))
         "critical" = Ok 0.
Proof.
  destruct (RuleFacts.generate_all_alerts_parts db current_date today utcnow)
    as (n1 & n2 & n3 & n4 & n5 & n6 & sc & E & F1 & F2 & _ & E3 & F4 & F5 & F6).
  eexists. split; [exact E|].
  assert (F : Forall (fun a => Alert.priority a = LOW
                               \/ Alert.priority a = MEDIUM
                               \/ Alert.priority a = HIGH)
                (n1 ++ n2 ++ n3 ++ n4 ++ n5 ++ n6)).
  { repeat (apply Forall_app; split);
      try (eapply List.Forall_impl; [|eassumption]; intros a; apply by_rule_not_critical).
    destruct (RuleFacts.balance_loop_spec utcnow (Dict.items sc) (n1 ++ n2))
      as (new & E' & C).
    rewrite E3 in E'. apply app_inv_head in E'. subst new.
    destruct C as [[-> _]|(a & _ & _ & _ & -> & _ & _ & _ & _ & Pr & _)].
    - constructor.
    - constructor; [|constructor]. rewrite Pr. auto. }
  split; [exact F|].
  assert (N : AlertSystem.get_alerts_by_priority (n1 ++ n2 ++ n3 ++ n4 ++ n5 ++ n6) CRITICAL = []).
  { apply no_critical_selected. exact F. }
  split; [exact N|].
  unfold AlertSystem.get_alerts_summary. simpl. rewrite N. reflexivity.
Qed.

(** C4. For a pass run on a date of the calendar, the savings capacity
    has one entry for each of the next three months, in the order of the
    months. The pass returns at most one LOW_BALANCE_PROJECTION alert: none
    exactly when no month has negative projected savings, and otherwise one
    that carries the month name and the year of the first month whose
    projected savings are negative, whatever the later months are. *)
Theorem low_balance_alert_first_deficit (db : Store) (current_date today : date)
    (utcnow : nat -> Z) :
  1 <= month today <= 12 ->
  exists (alerts : list Alert.t) (s1 s2 s3 : SavingsEntry.t),
    AlertSystem.generate_all_alerts db current_date today utcnow = Ok alerts
    /\ FinancialAnalysis.calculate_savings_capacity db today 3
       = Ok [(target_key today 1, s1); (target_key today 2, s2); (target_key today 3, s3)]
    /\ Forall2 (fun off s =>
                  SavingsEntry.year s = year (Date.add_months today off)
                  /\ SavingsEntry.month s
                     = Date.month_name (month (Date.add_months today off)))
         [1; 2; 3] [s1; s2; s3]
    /\ month_index (Date.add_months today 1) < month_index (Date.add_months today 2)
       < month_index (Date.add_months today 3)
    /\ (length (List.filter
                  (fun a => AlertType_eqb (Alert.alert_type a) LOW_BALANCE_PROJECTION)
                  alerts) <= 1)%nat
    /\ (List.filter (fun a => AlertType_eqb (Alert.alert_type a) LOW_BALANCE_PROJECTION)
          alerts = []
        <-> Forall no_deficit
              [(target_key today 1, s1); (target_key today 2, s2); (target_key today 3, s3)])
    /\ (forall a,
          In a (List.filter
                  (fun a => AlertType_eqb (Alert.alert_type a) LOW_BALANCE_PROJECTION)
                  alerts) ->
          exists before item after,
            [(target_key today 1, s1); (target_key today 2, s2); (target_key today 3, s3)]
            = before ++ item :: after
            /\ Forall no_deficit before
            /\ (SavingsEntry.projected_savings (snd item) < 0)%Q
            /\ Dict.get (Alert.data a) "month"
               = Ok (VStr (SavingsEntry.month (snd item)))
            /\ Dict.get (Alert.data a) "year"
               = Ok (VInt (SavingsEntry.year (snd item)))).
Proof.
  intros Hm.
  destruct (RuleFacts.generate_all_alerts_parts db current_date today utcnow)
    as (n1 & n2 & n3 & n4 & n5 & n6 & sc & E & F1 & F2 & Es & E3 & F4 & F5 & F6).
  destruct (AnalysisFacts.savings_capacity_three db today Hm) as (s1 & s2 & s3 & Es' & Fs).
  rewrite Es in Es'. injection Es' as ->.
  exists (n1 ++ n2 ++ n3 ++ n4 ++ n5 ++ n6), s1, s2, s3.
  split; [exact E|]. split; [exact Es|]. split; [exact Fs|].
  split.
  { destruct (DateFacts.add_months_index today 1 Hm) as [_ I1]; [lia|].
    destruct (DateFacts.add_months_index today 2 Hm) as [_ I2]; [lia|].
    destruct (DateFacts.add_months_index today 3 Hm) as [_ I3]; [lia|].
    lia. }
  assert (L : List.filter
                (fun a => AlertType_eqb (Alert.alert_type a) LOW_BALANCE_PROJECTION)
                (n1 ++ n2 ++ n3 ++ n4 ++ n5 ++ n6)
              = List.filter
                  (fun a => AlertType_eqb (Alert.alert_type a) LOW_BALANCE_PROJECTION) n3).
  { rewrite !List.filter_app.
    rewrite (fun H => by_rule_filter_other _ LOW_BALANCE_PROJECTION n1 H F1)
      by (simpl; intuition discriminate).
    rewrite (fun H => by_rule_filter_other _ LOW_BALANCE_PROJECTION n2 H F2)
      by (simpl; intuition discriminate).
    rewrite (fun H => by_rule_filter_other _ LOW_BALANCE_PROJECTION n4 H F4)
      by (simpl; intuition discriminate).
    rewrite (fun H => by_rule_filter_other _ LOW_BALANCE_PROJECTION n5 H F5)
      by (simpl; intuition discriminate).
    rewrite (fun H => by_rule_filter_other _ LOW_BALANCE_PROJECTION n6 H F6)
      by (simpl; intuition discriminate).
    simpl. rewrite app_nil_r. reflexivity. }
  rewrite L. clear L.
  destruct (RuleFacts.balance_loop_spec utcnow
              (Dict.items [(target_key today 1, s1); (target_key today 2, s2);
                           (target_key today 3, s3)]) (n1 ++ n2))
    as (new & E' & C).
  rewrite E3 in E'. apply app_inv_head in E'. subst new.
  unfold Dict.items in C.
  destruct C as [[-> F]|(a & before & item & after & -> & Hsplit & Fb & D & T & _ & Dm & Dy)].
  - simpl. split; [lia|]. split; [tauto|]. intros a [].
  - simpl. rewrite T. simpl. split; [lia|]. split.
    + split; [discriminate|]. intros F. exfalso.
      rewrite Hsplit in F. apply Forall_app in F. destruct F as [_ F].
      apply Forall_cons_iff in F. destruct F as [F _].
      unfold no_deficit in F. congruence.
    + intros a' [<-|[]]. exists before, item, after.
      split; [exact Hsplit|]. split; [exact Fb|].
      split; [apply PyFacts.ltb_lt; exact D|]. split; assumption.
Qed.

Lemma low_balance_alert_first_deficit_witness :
  1 <= month (mkdate 2025 1 15) <= 12
  /\ exists (alerts : list Alert.t) (a : Alert.t),
       AlertSystem.generate_all_alerts ledger_rent_only (mkdate 2025 1 1)
         (mkdate 2025 1 15) clock = Ok alerts
       /\ List.filter
            (fun a => AlertType_eqb (Alert.alert_type a) LOW_BALANCE_PROJECTION)
            alerts = [a]
       /\ Dict.get (Alert.data a) "month" = Ok (VStr "February")
       /\ Dict.get (Alert.data a) "year" = Ok (VInt 2025).
Proof.
  assert (Hm : 1 <= month (mkdate 2025 1 15) <= 12) by (simpl; lia).
  split; [exact Hm|].
  destruct (low_balance_alert_first_deficit ledger_rent_only (mkdate 2025 1 1)
              (mkdate 2025 1 15) clock Hm)
    as (alerts & s1 & s2 & s3 & E & _).
  exists alerts. rewrite E.
  vm_compute in E. injection E as <-.
  eexists. repeat split.
Defined.

(** ** The health score *)

Module ScoreFacts.

Lemma sum_ones_from {A : Type} (l : list A) (acc : Q) :
  (fold_left Qplus (map (fun _ => 1%Q) l) acc
   == acc + inject_Z (Z.of_nat (length l)))%Q.
Proof.
  revert acc. induction l as [|a l IH]; intros acc; simpl fold_left.
  - simpl. ring.
  - rewrite IH. simpl length. rewrite Nat2Z.inj_succ.
    unfold Z.succ. rewrite inject_Z_plus. ring.
Qed.

Lemma sum_ones {A : Type} (l : list A) :
  (Py.sum (map (fun _ => 1%Q) l) == inject_Z (Z.of_nat (length l)))%Q.
Proof. unfold Py.sum. rewrite sum_ones_from. ring. Qed.

Lemma length_nonneg {A : Type} (l : list A) :
  (0 <= inject_Z (Z.of_nat (length l)))%Q.
Proof. change 0%Q with (inject_Z 0). rewrite <- Zle_Qle. lia. Qed.

Lemma round1_bounds (x : Q) :
  (0 <= x <= 100)%Q -> (0 <= Py.round1 x <= 100)%Q.
Proof.
  intros [H0 H1]. unfold Py.round1.
  set (t := (x * 10)%Q). set (f := Qfloor t).
  assert (T0 : (0 <= t)%Q) by (unfold t; lra).
  assert (T1 : (t <= 1000)%Q) by (unfold t; lra).
  assert (F0 : (0 <= f)%Z).
  { change 0%Z with (Qfloor 0). apply Qfloor_resp_le. exact T0. }
  assert (F1 : (f <= 1000)%Z).
  { change 1000%Z with (Qfloor 1000). apply Qfloor_resp_le. exact T1. }
  assert (Up : (1 # 2 <= t - inject_Z f)%Q -> (f + 1 <= 1000)%Z).
  { intros Hr. destruct (Z_le_gt_dec f 999) as [L|G]; [lia|].
    exfalso. assert (E : f = 1000%Z) by lia. rewrite E in Hr.
    change (inject_Z 1000) with 1000%Q in Hr. lra. }
  assert (N : forall n : Z, (0 <= n <= 1000)%Z ->
                            (0 <= inject_Z n / 10 <= 100)%Q).
  { intros n [N0 N1]. rewrite Zle_Qle in N0, N1.
    change (inject_Z 0) with 0%Q in N0. change (inject_Z 1000) with 1000%Q in N1.
    split.
    - apply Qle_shift_div_l; [reflexivity | lra].
    - apply Qle_shift_div_r; [reflexivity | lra]. }
  apply N.
  destruct (Py.ltb (t - inject_Z f) (1 # 2)) eqn:E1; [lia|].
  apply PyFacts.ltb_ge in E1. specialize (Up E1).
  destruct (Py.ltb (1 # 2) (t - inject_Z f)); [lia|].
  destruct (Z.even f); lia.
Qed.

Lemma limit_status_returns db cd limit :
  returns (FinancialAnalysis.limit_status db cd limit).
Proof.
  unfold FinancialAnalysis.limit_status.
  rewrite AnalysisFacts.guarded_percentage. simpl rbind. eexists. reflexivity.
Qed.

Lemma simple_limit_status_returns db cd limit :
  returns (FinancialAnalysisSimple.limit_status db cd limit).
Proof.
  unfold FinancialAnalysisSimple.limit_status.
  rewrite AnalysisFacts.guarded_percentage. simpl rbind. eexists. reflexivity.
Qed.

(** The score of [financial_analysis.py]: four factors of weight 25. *)
Lemma get_financial_health_score_bounds db cd :
  exists h,
    FinancialAnalysis.get_financial_health_score db cd = Ok h
    /\ (0 <= HealthScore.total_score h <= 100)%Q
    /\ (0 <= ScoreFactors.positive_balance (HealthScore.score_factors h) <= 25)%Q
    /\ (0 <= ScoreFactors.spending_discipline (HealthScore.score_factors h) <= 25)%Q
    /\ (0 <= ScoreFactors.savings_capacity (HealthScore.score_factors h) <= 25)%Q
    /\ (0 <= ScoreFactors.income_diversification (HealthScore.score_factors h) <= 25)%Q.
Proof.
  unfold FinancialAnalysis.get_financial_health_score. cbv zeta.
  destruct (for_append_returns (FinancialAnalysis.limit_status db cd)
              (Query.limits_of db (Date.month_key (FinancialAnalysis.current_year cd)
                                     (FinancialAnalysis.current_month cd)))
              (fun x _ => limit_status_returns db cd x) []) as (limits & El).
  unfold FinancialAnalysis.get_spending_limits_status. rewrite El. cbn [rbind].
  destruct (AnalysisFacts.calculate_savings_capacity_returns db cd 1) as (sc & Es).
  rewrite Es. cbn [rbind].
  set (bal := Summary.partial_balance (FinancialAnalysis.get_current_month_summary db cd)).
  set (pb := if Py.gtb bal 0 then 25%Q else Py.max 0 (25 + bal / 1000 * 5)%Q).
  assert (Bpb : (0 <= pb <= 25)%Q).
  { unfold pb. destruct (Py.gtb bal 0) eqn:G; [lra|].
    apply PyFacts.ltb_ge in G. split; [apply PyFacts.max_lb_l|].
    apply PyFacts.max_ub; [lra|].
    assert (bal / 1000 <= 0)%Q by (apply Qle_shift_div_r; [reflexivity | lra]).
    lra. }
  clearbody pb. clear bal.
  set (sd := match limits with
             | _ :: _ =>
                 Py.max 0
                   (25 - Py.sum (map (fun _ => 1%Q)
                                   (List.filter FinancialAnalysis.LimitStatus.is_over_limit
                                      limits)) * 10)%Q
             | [] => 15%Q
             end).
  assert (Bsd : (0 <= sd <= 25)%Q).
  { unfold sd. destruct limits as [|l0 ls]; [lra|].
    split; [apply PyFacts.max_lb_l|]. apply PyFacts.max_ub; [lra|].
    rewrite sum_ones.
    pose proof (length_nonneg
                  (List.filter FinancialAnalysis.LimitStatus.is_over_limit (l0 :: ls))).
    lra. }
  clearbody sd.
  set (inc := Py.min 25 (inject_Z (FinancialAnalysis._count_income_sources db cd * 8))).
  assert (Binc : (0 <= inc <= 25)%Q).
  { unfold inc. split; [|apply PyFacts.min_ub_l].
    apply PyFacts.min_lb; [lra|].
    change 0%Q with (inject_Z 0). rewrite <- Zle_Qle.
    unfold FinancialAnalysis._count_income_sources. lia. }
  clearbody inc.
  assert (Hsc : exists sv,
             (if Dict.truthy sc
              then match Dict.values sc with
                   | first :: _ =>
                       if Py.gtb (SavingsEntry.projected_savings first) 0
                       then Ok (Py.min 25 (SavingsEntry.projected_savings first / 1000 * 5))%Q
                       else Ok 0%Q
                   | [] => Raise IndexError
                   end
              else Ok 0%Q) = Ok sv /\ (0 <= sv <= 25)%Q).
  { destruct sc as [|[k first] sc]; simpl.
    - exists 0%Q. split; [reflexivity | lra].
    - destruct (Py.gtb (SavingsEntry.projected_savings first) 0) eqn:G.
      + eexists. split; [reflexivity|]. apply PyFacts.ltb_lt in G.
        split; [|apply PyFacts.min_ub_l]. apply PyFacts.min_lb; [lra|].
        assert (0 <= SavingsEntry.projected_savings first / 1000)%Q
          by (apply Qle_shift_div_l; [reflexivity | lra]).
        lra.
      + exists 0%Q. split; [reflexivity | lra]. }
  destruct Hsc as (sv & -> & Bsv). cbn [rbind].
  eexists. split; [reflexivity|].
  cbn [HealthScore.total_score HealthScore.score_factors
       ScoreFactors.positive_balance ScoreFactors.spending_discipline
       ScoreFactors.savings_capacity ScoreFactors.income_diversification].
  split; [|repeat split; try apply Bpb; try apply Bsd; try apply Bsv; apply Binc].
  apply round1_bounds. unfold Py.sum. simpl fold_left. lra.
Qed.

(** The score of [financial_analysis_simple.py]: weights 25, 30, 30
    and 15. *)
Lemma calculate_health_score_bounds db cd :
  exists h,
    FinancialAnalysisSimple.calculate_health_score db cd = Ok h
    /\ (0 <= HealthScore.total_score h <= 100)%Q
    /\ (0 <= ScoreFactors.positive_balance (HealthScore.score_factors h) <= 25)%Q
    /\ (0 <= ScoreFactors.savings_capacity (HealthScore.score_factors h) <= 30)%Q
    /\ (0 <= ScoreFactors.spending_discipline (HealthScore.score_factors h) <= 30)%Q
    /\ (0 <= ScoreFactors.income_diversification (HealthScore.score_factors h) <= 15)%Q.
Proof.
  unfold FinancialAnalysisSimple.calculate_health_score. cbv zeta.
  set (summary := FinancialAnalysisSimple.get_current_month_summary db cd).
  set (bal := Summary.partial_balance summary).
  set (pb := if Py.gtb bal 0 then 25%Q else 0%Q).
  assert (Bpb : (0 <= pb <= 25)%Q) by (unfold pb; destruct (Py.gtb bal 0); lra).
  clearbody pb.
  assert (Hsv : exists sv,
             (if Py.gtb (Summary.total_income summary) 0
              then try! savings_rate := Py.truediv bal (Summary.total_income summary) in
                   if Py.geb savings_rate (2 # 10) then Ok 30%Q
                   else if Py.geb savings_rate (1 # 10) then Ok 20%Q
                   else if Py.gtb savings_rate 0 then Ok 10%Q
                   else Ok 0%Q
              else Ok 0%Q) = Ok sv /\ (0 <= sv <= 30)%Q).
  { destruct (Py.gtb (Summary.total_income summary) 0) eqn:G.
    - rewrite (PyFacts.truediv_pos _ _ G). cbn [rbind]. clear G.
      destruct (Py.geb _ (2 # 10)); [eexists; split; [reflexivity | lra]|].
      destruct (Py.geb _ (1 # 10)); [eexists; split; [reflexivity | lra]|].
      destruct (Py.gtb _ 0); eexists; (split; [reflexivity | lra]).
    - exists 0%Q. split; [reflexivity | lra]. }
  destruct Hsv as (sv & -> & Bsv). cbn [rbind].
  destruct (for_append_returns (FinancialAnalysisSimple.limit_status db cd)
              (Query.limits_of db (Date.month_key (year cd) (month cd)))
              (fun x _ => simple_limit_status_returns db cd x) []) as (limits & El).
  unfold FinancialAnalysisSimple.get_spending_limits_status. rewrite El. cbn [rbind].
  assert (Hsd : exists sd,
             match limits with
             | _ :: _ =>
                 try! q :=
                   Py.truediv
                     (Py.sum
                        (map (fun _ => 1%Q)
                           (List.filter
                              (fun limit =>
                                 Py.leb (FinancialAnalysisSimple.LimitStatus.current_spent limit)
                                   (FinancialAnalysisSimple.LimitStatus.monthly_limit limit))
                              limits)))
                     (inject_Z (Z.of_nat (length limits))) in
                 Ok (q * 30)%Q
             | [] => Ok 15%Q
             end = Ok sd /\ (0 <= sd <= 30)%Q).
  { destruct limits as [|l0 ls]; [exists 15%Q; split; [reflexivity | lra]|].
    rewrite AnalysisFacts.truediv_length. cbn [rbind].
    eexists. split; [reflexivity|].
    rewrite sum_ones.
    set (p := fun limit =>
                Py.leb (FinancialAnalysisSimple.LimitStatus.current_spent limit)
                  (FinancialAnalysisSimple.LimitStatus.monthly_limit limit)).
    assert (W0 : (0 <= inject_Z (Z.of_nat (length (List.filter p (l0 :: ls)))))%Q)
      by apply length_nonneg.
    assert (W1 : (inject_Z (Z.of_nat (length (List.filter p (l0 :: ls))))
                  <= inject_Z (Z.of_nat (length (l0 :: ls))))%Q).
    { rewrite <- Zle_Qle. apply Nat2Z.inj_le. apply List.filter_length_le. }
    assert (N : (0 < inject_Z (Z.of_nat (length (l0 :: ls))))%Q).
    { change 0%Q with (inject_Z 0). rewrite <- Zlt_Qlt. simpl length. lia. }
    set (w := inject_Z (Z.of_nat (length (List.filter p (l0 :: ls))))) in *.
    set (n := inject_Z (Z.of_nat (length (l0 :: ls)))) in *.
    assert (0 <= w / n)%Q by (apply Qle_shift_div_l; [exact N | lra]).
    assert (w / n <= 1)%Q by (apply Qle_shift_div_r; [exact N | lra]).
    lra. }
  destruct Hsd as (sd & -> & Bsd). cbn [rbind].
  match goal with
  | |- context [if ?n >=? 3 then 15%Q else ?rest] =>
      set (idv := if n >=? 3 then 15%Q else rest)
  end.
  assert (Bidv : (0 <= idv <= 15)%Q).
  { unfold idv.
    repeat match goal with |- context [if ?c then _ else _] => destruct c end; lra. }
  clearbody idv.
  eexists. split; [reflexivity|].
  cbn [HealthScore.total_score HealthScore.score_factors
       ScoreFactors.positive_balance ScoreFactors.spending_discipline
       ScoreFactors.savings_capacity ScoreFactors.income_diversification].
  split; [|repeat split; try apply Bpb; try apply Bsd; try apply Bsv; apply Bidv].
  unfold Py.sum. simpl fold_left. lra.
Qed.

End ScoreFacts.

(** C3. Whatever the ledger, both analyzers return a health score: its
    total lies in [0, 100] and each of its four factors lies between 0 and
    its weight, 25 each in [financial_analysis.py] and 25, 30, 30 and 15
    in [financial_analysis_simple.py]. *)
Theorem health_score_in_range (db : Store) (current_date : date) :
  (exists h,
     FinancialAnalysis.get_financial_health_score db current_date = Ok h
     /\ (0 <= HealthScore.total_score h <= 100)%Q
     /\ (0 <= ScoreFactors.positive_balance (HealthScore.score_factors h) <= 25)%Q
     /\ (0 <= ScoreFactors.spending_discipline (HealthScore.score_factors h) <= 25)%Q
     /\ (0 <= ScoreFactors.savings_capacity (HealthScore.score_factors h) <= 25)%Q
     /\ (0 <= ScoreFactors.income_diversification (HealthScore.score_factors h) <= 25)%Q)
  /\ (exists h,
        FinancialAnalysisSimple.calculate_health_score db current_date = Ok h
        /\ (0 <= HealthScore.total_score h <= 100)%Q
        /\ (0 <= ScoreFactors.positive_balance (HealthScore.score_factors h) <= 25)%Q
        /\ (0 <= ScoreFactors.savings_capacity (HealthScore.score_factors h) <= 30)%Q
        /\ (0 <= ScoreFactors.spending_discipline (HealthScore.score_factors h) <= 30)%Q
        /\ (0 <= ScoreFactors.income_diversification (HealthScore.score_factors h)
            <= 15)%Q).
Proof.
  split.
  - apply ScoreFacts.get_financial_health_score_bounds.
  - apply ScoreFacts.calculate_health_score_bounds.
Qed.

(** ** The blend of the projections *)

Lemma max_comm_eq (a b : Q) : (Py.max a b == Py.max b a)%Q.
Proof.
  unfold Py.max, Py.gtb.
  destruct (Py.ltb a b) eqn:E1, (Py.ltb b a) eqn:E2; try reflexivity.
  - apply PyFacts.ltb_lt in E1, E2. lra.
  - apply PyFacts.ltb_ge in E1, E2. lra.
Qed.

Lemma combine_projections_additive (r h : Q) :
  (FinancialAnalysis._combine_projections r h == blend_additive r h)%Q.
Proof.
  unfold FinancialAnalysis._combine_projections, blend_additive.
  destruct (Py.gtb r 0); [ring | reflexivity].
Qed.

(** C1, as the code has it. [financial_analysis_simple.py] blends both
    projections with the maximum of the recurring amount and the
    historical average. [financial_analysis.py] does not use one blend:
    every expense projection is the recurring amount plus 0.3 times the
    historical average when the recurring amount is positive (else the
    historical average), and every income projection is the maximum of the
    two. *)
Theorem projection_blends (db : Store) (current_date : date) (months_ahead : Z) :
  (exists exp inc,
     FinancialAnalysis.project_future_expenses db current_date months_ahead = Ok exp
     /\ FinancialAnalysis.project_future_income db current_date months_ahead = Ok inc
     /\ Forall (fun e =>
                  (ExpenseProjection.projected_total e
                   == blend_additive (ExpenseProjection.recurring_expenses e)
                        (ExpenseProjection.historical_average e))%Q)
          (Dict.values exp)
     /\ Forall (fun i =>
                  (IncomeProjection.projected_total i
                   == blend_max (IncomeProjection.recurring_income i)
                        (IncomeProjection.historical_average i))%Q)
          (Dict.values inc))
  /\ Forall (fun e =>
               (ExpenseProjection.projected_total e
                == blend_max (ExpenseProjection.recurring_expenses e)
                     (ExpenseProjection.historical_average e))%Q)
       (Dict.values
          (FinancialAnalysisSimple.calculate_expense_projections db current_date
             months_ahead))
  /\ Forall (fun i =>
               (IncomeProjection.projected_total i
                == blend_max (IncomeProjection.recurring_income i)
                     (IncomeProjection.historical_average i))%Q)
       (Dict.values
          (FinancialAnalysisSimple.calculate_income_projections db current_date
             months_ahead)).
Proof.
  split; [|split].
  - destruct (AnalysisFacts.project_future_expenses_built db current_date months_ahead)
      as (exp & Ee & _ & Fe & _).
    destruct (AnalysisFacts.project_future_income_built db current_date months_ahead)
      as (inc & Ei & _ & Fi & _).
    exists exp, inc. split; [exact Ee|]. split; [exact Ei|]. split.
    + apply Fe; [|constructor]. intros x e _ (_ & _ & _ & T).
      rewrite T. apply combine_projections_additive.
    + apply Fi; [|constructor]. intros x i _ (_ & _ & _ & T).
      rewrite T. reflexivity.
  - unfold FinancialAnalysisSimple.calculate_expense_projections.
    apply (DictFacts.fold_set _
             (fun i => target_key current_date (i + 1))
             (fun _ e =>
                (ExpenseProjection.projected_total e
                 == blend_max (ExpenseProjection.recurring_expenses e)
                      (ExpenseProjection.historical_average e))%Q));
      [|intros x v _ H; exact H | constructor].
    intros d x _. eexists. split; [reflexivity|].
    cbn [ExpenseProjection.projected_total ExpenseProjection.recurring_expenses
         ExpenseProjection.historical_average].
    unfold FinancialAnalysisSimple._calculate_projected_expenses, blend_max.
    apply max_comm_eq.
  - unfold FinancialAnalysisSimple.calculate_income_projections.
    apply (DictFacts.fold_set _
             (fun i => target_key current_date (i + 1))
             (fun _ e =>
                (IncomeProjection.projected_total e
                 == blend_max (IncomeProjection.recurring_income e)
                      (IncomeProjection.historical_average e))%Q));
      [|intros x v _ H; exact H | constructor].
    intros d x _. eexists. split; [reflexivity|].
    cbn [IncomeProjection.projected_total IncomeProjection.recurring_income
         IncomeProjection.historical_average].
    unfold FinancialAnalysisSimple._calculate_projected_income, blend_max.
    apply max_comm_eq.
Qed.

(** C1 as stated fails in [financial_analysis.py]: with a rent of 1500
    and a salary of 5000 a month, and 1000 spent and 4000 earned in
    February of last year, the expenses projected for February are
    1500 + 0.3 * 1000 = 1800 and the income projected is
    max(5000, 4000) = 5000: neither both additive nor both the maximum. *)
Lemma projection_blends_differ :
  exists exp inc e i,
    FinancialAnalysis.project_future_expenses ledger_salary_and_rent
      (mkdate 2025 1 15) 3 = Ok exp
    /\ FinancialAnalysis.project_future_income ledger_salary_and_rent
         (mkdate 2025 1 15) 3 = Ok inc
    /\ Dict.get exp "2025-02" = Ok e
    /\ Dict.get inc "2025-02" = Ok i
    /\ (ExpenseProjection.projected_total e == 1800)%Q
    /\ (IncomeProjection.projected_total i == 5000)%Q
    /\ ~ (((ExpenseProjection.projected_total e
            == blend_additive (ExpenseProjection.recurring_expenses e)
                 (ExpenseProjection.historical_average e))%Q
           /\ (IncomeProjection.projected_total i
               == blend_additive (IncomeProjection.recurring_income i)
                    (IncomeProjection.historical_average i))%Q)
          \/ ((ExpenseProjection.projected_total e
               == blend_max (ExpenseProjection.recurring_expenses e)
                    (ExpenseProjection.historical_average e))%Q
              /\ (IncomeProjection.projected_total i
                  == blend_max (IncomeProjection.recurring_income i)
                       (IncomeProjection.historical_average i))%Q)).
Proof.
  eexists. eexists. eexists. eexists.
  split; [vm_compute; reflexivity|].
  split; [vm_compute; reflexivity|].
  split; [vm_compute; reflexivity|].
  split; [vm_compute; reflexivity|].
  split; [vm_compute; reflexivity|].
  split; [vm_compute; reflexivity|].
  vm_compute. intros [[_ H]|[H _]]; discriminate H.
Qed.

(** ** Goals *)

Module GoalFacts.

Lemma max_one_positive (x : Q) : Py.gtb (Py.max 1 x) 0 = true.
Proof.
  apply PyFacts.ltb_lt.
  apply Qlt_le_trans with 1%Q; [reflexivity | apply PyFacts.max_lb_l].
Qed.

Lemma savings_capacity_nonempty db cd :
  exists item rest,
    FinancialAnalysis.calculate_savings_capacity db cd 3 = Ok (item :: rest).
Proof.
  destruct (AnalysisFacts.calculate_savings_capacity_built db cd 3)
    as (exp & inc & sc & _ & (Ke & _) & _ & _ & Es & (Ks & _)).
  destruct sc as [|item rest]; [|exists item, rest; exact Es].
  exfalso.
  assert (H : In (target_key cd 1) (Dict.keys (@nil (string * SavingsEntry.t)))).
  { apply Ks. right. rewrite map_id. apply Ke. right.
    rewrite AnalysisFacts.range_1_4. left. reflexivity. }
  exact H.
Qed.

(** One goal in [analyze_goals_progress]. *)
Lemma analyze_goal_fields db cd (goal : Goal.t) :
  let days := Date.days_between (Goal.target_date goal) cd in
  let months := Py.max 1 (inject_Z days / (3044 # 100))%Q in
  exists ga,
    FinancialAnalysis.analyze_goal db cd goal = Ok ga
    /\ FinancialAnalysis.GoalAnalysis.days_remaining ga = days
    /\ FinancialAnalysis.GoalAnalysis.months_remaining ga = Py.round1 months
    /\ FinancialAnalysis.GoalAnalysis.amount_needed ga
       = (Goal.target_amount goal - Goal.current_amount goal)%Q
    /\ FinancialAnalysis.GoalAnalysis.monthly_savings_needed ga
       = ((Goal.target_amount goal - Goal.current_amount goal) / months)%Q
    /\ FinancialAnalysis.GoalAnalysis.progress_percentage ga
       = (if Py.gtb (Goal.target_amount goal) 0
          then (Goal.current_amount goal / Goal.target_amount goal * 100)%Q
          else 0%Q).
Proof.
  intros days months. unfold FinancialAnalysis.analyze_goal. cbv zeta.
  fold days. fold months.
  assert (G : Py.gtb months 0 = true) by apply max_one_positive.
  rewrite G, (PyFacts.truediv_pos _ _ G).
  cbn [rbind].
  destruct (savings_capacity_nonempty db cd) as (item & rest & ->). cbn [rbind].
  rewrite AnalysisFacts.truediv_length. cbn [rbind].
  rewrite AnalysisFacts.guarded_percentage. cbn [rbind].
  eexists. split; [reflexivity|]. repeat split.
Qed.

(** One goal in [get_goals_progress]. *)
Lemma goal_progress_fields cd (goal : Goal.t) :
  let days := Date.days_between (Goal.target_date goal) cd in
  let months := Py.max 0 (inject_Z days / (3044 # 100))%Q in
  let remaining := (Goal.target_amount goal - Goal.current_amount goal)%Q in
  exists gp,
    FinancialAnalysisSimple.goal_progress cd goal = Ok gp
    /\ FinancialAnalysisSimple.GoalProgress.days_remaining gp = days
    /\ FinancialAnalysisSimple.GoalProgress.months_remaining gp = months
    /\ FinancialAnalysisSimple.GoalProgress.remaining_amount gp = remaining
    /\ FinancialAnalysisSimple.GoalProgress.monthly_needed gp
       = (if Py.gtb months 0 then (remaining / months)%Q else remaining)
    /\ FinancialAnalysisSimple.GoalProgress.progress_percentage gp
       = (if Py.gtb (Goal.target_amount goal) 0
          then (Goal.current_amount goal / Goal.target_amount goal * 100)%Q
          else 0%Q).
Proof.
  intros days months remaining. unfold FinancialAnalysisSimple.goal_progress.
  cbv zeta. fold days. fold months. fold remaining.
  rewrite AnalysisFacts.guarded_percentage. cbn [rbind].
  destruct (Py.gtb months 0) eqn:G.
  - rewrite (PyFacts.truediv_pos _ _ G). cbn [rbind].
    eexists. split; [reflexivity|]. repeat split.
  - cbn [rbind]. eexists. split; [reflexivity|]. repeat split.
Qed.

End GoalFacts.

(** C6, as the code has it. [get_goals_progress] returns one entry per
    active goal with monthsRemaining = max(0, daysRemaining / 30.44) and
    monthlyNeeded = (targetAmount - currentAmount) / monthsRemaining when
    monthsRemaining > 0, else the full remaining amount.
    [analyze_goals_progress] returns one entry per active goal and never
    counts less than one month: it divides the amount needed by
    max(1, daysRemaining / 30.44) and reports that number of months rounded
    to one decimal. *)
Theorem goal_months_and_monthly_need (db : Store) (current_date : date) :
  (exists progress,
     FinancialAnalysisSimple.get_goals_progress db current_date = Ok progress
     /\ Forall2
          (fun goal gp =>
             let days := Date.days_between (Goal.target_date goal) current_date in
             let months := Py.max 0 (inject_Z days / (3044 # 100))%Q in
             let remaining := (Goal.target_amount goal - Goal.current_amount goal)%Q in
             FinancialAnalysisSimple.GoalProgress.days_remaining gp = days
             /\ FinancialAnalysisSimple.GoalProgress.months_remaining gp = months
             /\ ((0 < months)%Q ->
                 FinancialAnalysisSimple.GoalProgress.monthly_needed gp
                 = (remaining / months)%Q)
             /\ (~ (0 < months)%Q ->
                 FinancialAnalysisSimple.GoalProgress.monthly_needed gp = remaining))
          (Query.active_goals db) progress)
  /\ (exists analysis,
        FinancialAnalysis.analyze_goals_progress db current_date = Ok analysis
        /\ Forall2
             (fun goal ga =>
                let days := Date.days_between (Goal.target_date goal) current_date in
                let months := Py.max 1 (inject_Z days / (3044 # 100))%Q in
                FinancialAnalysis.GoalAnalysis.days_remaining ga = days
                /\ FinancialAnalysis.GoalAnalysis.months_remaining ga = Py.round1 months
                /\ (1 <= months)%Q
                /\ FinancialAnalysis.GoalAnalysis.monthly_savings_needed ga
                   = ((Goal.target_amount goal - Goal.current_amount goal) / months)%Q)
             (Query.active_goals db) analysis).
Proof.
  split.
  - unfold FinancialAnalysisSimple.get_goals_progress. cbv zeta.
    destruct (for_append_forall2
                (FinancialAnalysisSimple.goal_progress current_date)
                (Query.active_goals db)) with (out := @nil FinancialAnalysisSimple.GoalProgress.t)
      as (ys & E & F).
    { intros g _. destruct (GoalFacts.goal_progress_fields current_date g) as (gp & Eg & _).
      exists gp. exact Eg. }
    exists ys. split; [exact E|].
    eapply Forall2_impl; [exact F|]. intros g gp Hg. cbv beta in Hg.
    destruct (GoalFacts.goal_progress_fields current_date g)
      as (gp' & Eg & Fd & Fm & _ & Fn & _).
    rewrite Hg in Eg. injection Eg as <-.
    cbv zeta. split; [exact Fd|]. split; [exact Fm|]. split.
    + intros Hp. rewrite Fn. apply PyFacts.ltb_lt in Hp.
      unfold Py.gtb. rewrite Hp. reflexivity.
    + intros Hp. rewrite Fn. unfold Py.gtb.
      destruct (Py.ltb 0 _) eqn:G; [|reflexivity].
      apply PyFacts.ltb_lt in G. contradiction.
  - unfold FinancialAnalysis.analyze_goals_progress. cbv zeta.
    destruct (for_append_forall2
                (FinancialAnalysis.analyze_goal db current_date)
                (Query.active_goals db)) with (out := @nil FinancialAnalysis.GoalAnalysis.t)
      as (ys & E & F).
    { intros g _. destruct (GoalFacts.analyze_goal_fields db current_date g) as (ga & Eg & _).
      exists ga. exact Eg. }
    exists ys. split; [exact E|].
    eapply Forall2_impl; [exact F|]. intros g ga Hg. cbv beta in Hg.
    destruct (GoalFacts.analyze_goal_fields db current_date g)
      as (ga' & Eg & Fd & Fm & _ & Fn & _).
    rewrite Hg in Eg. injection Eg as <-.
    cbv zeta. split; [exact Fd|]. split; [exact Fm|].
    split; [apply PyFacts.max_lb_l | exact Fn].
Qed.

(** C6 as stated fails in [analyze_goals_progress]: 15 days before the
    target date of a goal that still needs 1000, the claim counts
    15 / 30.44 months and 1000 / (15 / 30.44), about 2029.33, a month; the
    code counts one month and needs 1000 a month. *)
Lemma analyze_goal_counts_a_full_month :
  exists ga,
    FinancialAnalysis.analyze_goal ledger_goals (mkdate 2025 1 1) goal_trip = Ok ga
    /\ FinancialAnalysis.GoalAnalysis.days_remaining ga = 15
    /\ (FinancialAnalysis.GoalAnalysis.months_remaining ga == 1)%Q
    /\ (FinancialAnalysis.GoalAnalysis.monthly_savings_needed ga == 1000)%Q
    /\ ~ (FinancialAnalysis.GoalAnalysis.months_remaining ga
          == Py.max 0 (inject_Z 15 / (3044 # 100)))%Q
    /\ ~ (FinancialAnalysis.GoalAnalysis.monthly_savings_needed ga
          == (Goal.target_amount goal_trip - Goal.current_amount goal_trip)
             / Py.max 0 (inject_Z 15 / (3044 # 100)))%Q.
Proof.
  eexists. split; [vm_compute; reflexivity|].
  split; [reflexivity|]. split; [reflexivity|]. split; [reflexivity|].
  split; vm_compute; discriminate.
Qed.

(** C8. For a goal whose target amount is zero or negative, every
    computation of its progress returns 0 instead of dividing: the
    percentage and the fraction of the alert rules and the alerts that
    carry them, the progress percentage of [get_goals_progress] and the one
    of [analyze_goals_progress]. *)
Theorem progress_without_target (db : Store) (current_date : date)
    (utcnow : nat -> Z) (alerts : list Alert.t) (goal : Goal.t) :
  (Goal.target_amount goal <= 0)%Q ->
  AlertSystem.percentage_of (Goal.current_amount goal) (Goal.target_amount goal) = Ok 0%Q
  /\ (if Py.gtb (Goal.target_amount goal) 0
      then Py.truediv (Goal.current_amount goal) (Goal.target_amount goal)
      else Ok 0%Q) = Ok 0%Q
  /\ (exists new,
        AlertSystem.check_goal current_date utcnow alerts goal = Ok (alerts ++ new)
        /\ Forall (carries_progress 0 0) new)
  /\ (exists gp,
        FinancialAnalysisSimple.goal_progress current_date goal = Ok gp
        /\ FinancialAnalysisSimple.GoalProgress.progress_percentage gp = 0%Q)
  /\ (exists ga,
        FinancialAnalysis.analyze_goal db current_date goal = Ok ga
        /\ FinancialAnalysis.GoalAnalysis.progress_percentage ga = 0%Q).
Proof.
  intros H.
  assert (G : Py.gtb (Goal.target_amount goal) 0 = false)
    by (apply PyFacts.ltb_ge; exact H).
  split; [apply percentage_of_nonpos; exact H|].
  split; [rewrite G; reflexivity|].
  split; [|split].
  - destruct (RuleFacts.check_goal_cases current_date utcnow alerts goal)
      as (new & E & _ & P).
    rewrite (percentage_of_nonpos _ _ H), G in P.
    exists new. split; assumption.
  - destruct (GoalFacts.goal_progress_fields current_date goal)
      as (gp & E & _ & _ & _ & _ & P).
    rewrite G in P. exists gp. split; assumption.
  - destruct (GoalFacts.analyze_goal_fields db current_date goal)
      as (ga & E & _ & _ & _ & _ & P).
    rewrite G in P. exists ga. split; assumption.
Qed.

Lemma progress_without_target_witness :
  (Goal.target_amount goal_empty <= 0)%Q
  /\ (exists a b,
        AlertSystem.check_goal (mkdate 2025 1 1) clock [] goal_empty = Ok [a; b]
        /\ Dict.get (Alert.data a) "progress_percentage" = Ok (VFloat 0)
        /\ Dict.get (Alert.data b) "actual_progress" = Ok (VFloat (0 * 100)))
  /\ (exists gp,
        FinancialAnalysisSimple.goal_progress (mkdate 2025 1 1) goal_empty = Ok gp
        /\ FinancialAnalysisSimple.GoalProgress.progress_percentage gp = 0%Q)
  /\ (exists ga,
        FinancialAnalysis.analyze_goal ledger_goals (mkdate 2025 1 1) goal_empty = Ok ga
        /\ FinancialAnalysis.GoalAnalysis.progress_percentage ga = 0%Q).
Proof.
  assert (H : (Goal.target_amount goal_empty <= 0)%Q) by (simpl; apply Qle_refl).
  split; [exact H|].
  destruct (progress_without_target ledger_goals (mkdate 2025 1 1) clock [] goal_empty H)
    as (_ & _ & (new & E & P) & Hgp & Hga).
  split; [|split; assumption].
  simpl app in E. rewrite E. vm_compute in E. injection E as <-.
  apply Forall_cons_iff in P. destruct P as [[Pa _] P].
  apply Forall_cons_iff in P. destruct P as [[_ Pb] _].
  eexists. eexists. split; [reflexivity|].
  split; [apply Pa; reflexivity | apply Pb; reflexivity].
Defined.

(** ** Unusual spending *)

(** The rule as the code has it: it fires exactly when the expenses of
    the last seven days exceed 1.5 times the average the query computes,
    and that average is positive; the alert carries the excess and the
    percentage increase over that average. *)
Lemma unusual_spending_rule (db : Store) (current_date : date) (utcnow : nat -> Z)
    (alerts : list Alert.t) :
  let r := recent_expenses db current_date in
  let h := historical_weekly_avg db current_date in
  exists new,
    AlertSystem._check_unusual_spending db current_date utcnow alerts = Ok (alerts ++ new)
    /\ (new <> [] <-> (h * (3 # 2) < r)%Q /\ (0 < h)%Q)
    /\ (length new <= 1)%nat
    /\ Forall (fun a =>
                 Alert.alert_type a = UNUSUAL_SPENDING
                 /\ Dict.get (Alert.data a) "historical_average" = Ok (VFloat h)
                 /\ Dict.get (Alert.data a) "excess" = Ok (VFloat (r - h))
                 /\ Dict.get (Alert.data a) "percentage_increase"
                    = Ok (VFloat ((r / h - 1) * 100))) new.
Proof.
  intros r h. unfold AlertSystem._check_unusual_spending. cbv zeta.
  change (Py.or_zero
            (Query.sum_where db
               (Query.in_period (Date.sub_days current_date 7) current_date EXPENSE)))
    with r.
  change (Py.or_zero
            (Query.avg_where db
               (fun x =>
                  Date.geb (Transaction.transaction_date x) (Date.sub_months current_date 3)
                  && Date.ltb (Transaction.transaction_date x) (Date.sub_days current_date 7)
                  && TransactionType_eqb (Transaction.transaction_type x) EXPENSE)) * 7)%Q
    with h.
  destruct (Py.gtb r (h * (3 # 2))) eqn:G1; [destruct (Py.gtb h 0) eqn:G2|];
    simpl andb; cbv iota.
  - rewrite (PyFacts.truediv_pos _ _ G2). cbn [rbind].
    apply PyFacts.ltb_lt in G1, G2.
    eexists. split; [reflexivity|]. split; [split; [auto | discriminate]|].
    split; [simpl; lia|]. constructor; [|constructor]. repeat split.
  - apply PyFacts.ltb_ge in G2. exists []. rewrite app_nil_r.
    split; [reflexivity|]. split; [|split; [simpl; lia | constructor]].
    split; [congruence|]. intros [_ H]. apply Qlt_not_le in H. contradiction.
  - apply PyFacts.ltb_ge in G1. exists []. rewrite app_nil_r.
    split; [reflexivity|]. split; [|split; [simpl; lia | constructor]].
    split; [congruence|]. intros [H _]. apply Qlt_not_le in H. contradiction.
Qed.

(** C5 at a ledger with two purchases on one day. The code averages the
    amounts of the transactions: (100 + 100) / 2 = 100, times 7 is 700, and
    1000 spent in the last week is below 1.5 * 700, so no alert. The daily
    mean of the same window of 85 days is 200 / 85, times 7 is about 16.47,
    which 1000 exceeds more than 1.5 times. *)
Theorem unusual_spending_averages_transactions :
  Date.days_between (Date.sub_days (mkdate 2025 6 30) 7)
    (Date.sub_months (mkdate 2025 6 30) 3) = 85
  /\ (recent_expenses ledger_two_purchases (mkdate 2025 6 30) == 1000)%Q
  /\ (historical_weekly_avg ledger_two_purchases (mkdate 2025 6 30) == 700)%Q
  /\ (daily_mean_weekly_avg ledger_two_purchases (mkdate 2025 6 30) == 1400 # 85)%Q
  /\ AlertSystem._check_unusual_spending ledger_two_purchases (mkdate 2025 6 30) clock []
     = Ok []
  /\ (daily_mean_weekly_avg ledger_two_purchases (mkdate 2025 6 30) * (3 # 2)
      < recent_expenses ledger_two_purchases (mkdate 2025 6 30))%Q
  /\ (0 < daily_mean_weekly_avg ledger_two_purchases (mkdate 2025 6 30))%Q.
Proof. repeat split; vm_compute; reflexivity. Qed.

(** ** The scenarios of the specification, run on the model *)

Example scenario_limit_exceeded :
  exists a,
    AlertSystem.generate_all_alerts ledger_limit_exceeded (mkdate 2025 1 15)
      (mkdate 2025 1 15) clock = Ok [a]
    /\ Alert.alert_type a = SPENDING_LIMIT_EXCEEDED
    /\ Alert.priority a = HIGH
    /\ Dict.get (Alert.data a) "excess" = Ok (VFloat 200)
    /\ (exists p, Dict.get (Alert.data a) "percentage" = Ok (VFloat p) /\ (p == 120)%Q)
    /\ Alert.action_url a = "/transactions?category=1"%string.
Proof.
  eexists. split; [vm_compute; reflexivity|]. repeat split.
  eexists. split; reflexivity.
Qed.

Example scenario_limit_warning :
  exists a,
    AlertSystem.generate_all_alerts ledger_limit_warning (mkdate 2025 1 15)
      (mkdate 2025 1 15) clock = Ok [a]
    /\ Alert.alert_type a = SPENDING_LIMIT_WARNING
    /\ Alert.priority a = MEDIUM
    /\ Dict.get (Alert.data a) "remaining" = Ok (VFloat 150)
    /\ (exists p, Dict.get (Alert.data a) "percentage" = Ok (VFloat p) /\ (p == 85)%Q).
Proof.
  eexists. split; [vm_compute; reflexivity|]. repeat split.
  eexists. split; reflexivity.
Qed.

Example scenario_goal_behind_and_due :
  Date.days_between (Goal.target_date goal_car) (mkdate 2025 1 15) = 20
  /\ Date.days_between (Goal.target_date goal_car) (Goal.created_at goal_car) = 300
  /\ exists a b ideal,
       AlertSystem.check_goal (mkdate 2025 1 15) clock [] goal_car = Ok [a; b]
       /\ Alert.alert_type a = GOAL_DEADLINE_APPROACHING
       /\ Alert.alert_type b = GOAL_BEHIND_SCHEDULE
       /\ Dict.get (Alert.data b) "ideal_progress" = Ok (VFloat ideal)
       /\ (933 # 10 < ideal < 934 # 10)%Q
       /\ (exists p, Dict.get (Alert.data b) "actual_progress" = Ok (VFloat p)
                     /\ (p == 20)%Q).
Proof.
  split; [reflexivity|]. split; [reflexivity|].
  eexists. eexists. eexists. split; [vm_compute; reflexivity|].
  split; [reflexivity|]. split; [reflexivity|]. split; [reflexivity|].
  split; [split; reflexivity|]. eexists. split; reflexivity.
Qed.

Example scenario_unusual_spending :
  exists a p,
    AlertSystem.generate_all_alerts ledger_unusual_week (mkdate 2025 6 30)
      (mkdate 2025 6 30) clock = Ok [a]
    /\ Alert.alert_type a = UNUSUAL_SPENDING
    /\ (historical_weekly_avg ledger_unusual_week (mkdate 2025 6 30) == 1000)%Q
    /\ Dict.get (Alert.data a) "excess" = Ok (VFloat p) /\ (p == 600)%Q.
Proof.
  eexists. eexists. split; [vm_compute; reflexivity|].
  split; [reflexivity|]. split; [reflexivity|]. split; reflexivity.
Qed.

Example scenario_empty_ledger :
  AlertSystem.generate_all_alerts ledger_empty (mkdate 2025 1 15) (mkdate 2025 1 15) clock
  = Ok []
  /\ (exists h,
        FinancialAnalysis.get_financial_health_score ledger_empty (mkdate 2025 1 15) = Ok h
        /\ (HealthScore.total_score h == 40)%Q
        /\ HealthScore.health_level h = "Regular"%string)
  /\ (exists h,
        FinancialAnalysisSimple.calculate_health_score ledger_empty (mkdate 2025 1 15) = Ok h
        /\ (HealthScore.total_score h == 15)%Q
        /\ HealthScore.health_level h = "Ruim"%string).
Proof.
  split; [vm_compute; reflexivity|].
  split; eexists; (split; [vm_compute; reflexivity|]); split; reflexivity.
Qed.

(** The summary counts the alerts of the pass it follows. *)
Lemma summary_total (alerts : list Alert.t) :
  AlertsSummary.total (AlertSystem.get_alerts_summary alerts) = Z.of_nat (length alerts)
  /\ length (AlertsSummary.alerts (AlertSystem.get_alerts_summary alerts)) = length alerts.
Proof. split; [reflexivity|]. simpl. apply length_map. Qed.

(** * Further properties of the code *)

(** ** The alert list: summary and marks *)

Module ListFacts.

(** [mark_alert_as_read] alters the alert at a non-negative index, and
    changes nothing at a negative one or beyond the end. *)
Lemma mark_alert_as_read_alter (l : list Alert.t) (i : Z) :
  AlertSystem.mark_alert_as_read l i
  = Ok (if 0 <=? i then alter mark_read (Z.to_nat i) l else l).
Proof.
  unfold AlertSystem.mark_alert_as_read.
  destruct (0 <=? i) eqn:G1; [|reflexivity]. apply Z.leb_le in G1.
  destruct (i <? Z.of_nat (length l)) eqn:G2; simpl andb; cbv iota.
  - apply Z.ltb_lt in G2.
    destruct (lookup_lt_is_Some_2 l (Z.to_nat i) ltac:(lia)) as [a Ha]. rewrite Ha.
    f_equal. apply list_eq. intros j.
    destruct (decide (j = Z.to_nat i)) as [->|Hj].
    + rewrite list_lookup_insert_eq by lia. rewrite list_lookup_alter_eq, Ha.
      reflexivity.
    + rewrite list_lookup_insert_ne, list_lookup_alter_ne by congruence. reflexivity.
  - apply Z.ltb_ge in G2. f_equal. apply list_eq. intros j.
    destruct (decide (j = Z.to_nat i)) as [->|Hj].
    + rewrite list_lookup_alter_eq. rewrite lookup_ge_None_2 by lia. reflexivity.
    + rewrite list_lookup_alter_ne by congruence. reflexivity.
Qed.

Lemma mark_mark (a : Alert.t) : mark_read (mark_read a) = mark_read a.
Proof. reflexivity. Qed.

Lemma unread_after_alter (l : list Alert.t) (i : nat) :
  length (List.filter (fun a => negb (Alert.is_read a)) (alter mark_read i l))
  = (length (List.filter (fun a => negb (Alert.is_read a)) l)
     - match l !! i with
       | Some a => if Alert.is_read a then 0 else 1
       | None => 0
       end)%nat.
Proof.
  revert i. induction l as [|a l IH]; intros i; [destruct i; reflexivity|].
  destruct i as [|i]; simpl.
  - destruct (Alert.is_read a); simpl; lia.
  - change (list_alter mark_read i l) with (alter mark_read i l).
    destruct (Alert.is_read a) eqn:R; simpl; rewrite IH; [reflexivity|].
    destruct (l !! i) as [b|] eqn:Hb; [|lia].
    destruct (Alert.is_read b) eqn:Rb; [lia|].
    assert (In b (List.filter (fun a => negb (Alert.is_read a)) l)).
    { apply filter_In. split; [|rewrite Rb; reflexivity].
      apply list_elem_of_In. eapply list_elem_of_lookup_2. exact Hb. }
    destruct (List.filter (fun a => negb (Alert.is_read a)) l); [contradiction|].
    simpl. lia.
Qed.

Lemma priority_after_alter (l : list Alert.t) (i : nat) (p : AlertPriority) :
  length (AlertSystem.get_alerts_by_priority (alter mark_read i l) p)
  = length (AlertSystem.get_alerts_by_priority l p).
Proof.
  unfold AlertSystem.get_alerts_by_priority.
  revert i. induction l as [|a l IH]; intros i; [destruct i; reflexivity|].
  destruct i as [|i]; simpl.
  - destruct (AlertPriority_eqb (Alert.priority a) p); reflexivity.
  - change (list_alter mark_read i l) with (alter mark_read i l).
    destruct (AlertPriority_eqb (Alert.priority a) p); simpl; rewrite IH; reflexivity.
Qed.

End ListFacts.

(** X1. For every list of alerts the summary is consistent: the total is
    the length of the list, the four counts by priority add up to the
    total, the unread count lies between 0 and the total, and the summary
    lists one dictionary per alert. *)
Theorem summary_counts_add_up (alerts : list Alert.t) :
  let s := AlertSystem.get_alerts_summary alerts in
  AlertsSummary.total s = Z.of_nat (length alerts)
  /\ (exists c h m l,
        AlertsSummary.by_priority s
        = [("critical", c); ("high", h); ("medium", m); ("low", l)]%string
        /\ 0 <= c /\ 0 <= h /\ 0 <= m /\ 0 <= l
        /\ c + h + m + l = AlertsSummary.total s)
  /\ 0 <= AlertsSummary.unread s <= AlertsSummary.total s
  /\ length (AlertsSummary.alerts s) = length alerts.
Proof.
  cbv zeta. unfold AlertSystem.get_alerts_summary. simpl.
  split; [reflexivity|]. split; [|split].
  - eexists. eexists. eexists. eexists. split; [reflexivity|].
    repeat (split; [lia|]).
    unfold AlertSystem.get_alerts_by_priority.
    induction alerts as [|a alerts IH]; [reflexivity|].
    simpl. destruct (Alert.priority a); simpl; lia.
  - unfold AlertSystem.get_unread_alerts_count.
    pose proof (List.filter_length_le (fun a => negb (Alert.is_read a)) alerts). lia.
  - apply length_map.
Qed.

(** X2. Marking an alert as read lowers the unread count by exactly one
    when the index is in range and the alert there was unread, and leaves
    it alone otherwise; the total and every count by priority stay as they
    were. *)
Theorem mark_lowers_unread_count (alerts : list Alert.t) (alert_index : Z) :
  exists alerts',
    AlertSystem.mark_alert_as_read alerts alert_index = Ok alerts'
    /\ AlertSystem.get_unread_alerts_count alerts'
       = AlertSystem.get_unread_alerts_count alerts
         - (if 0 <=? alert_index
            then match alerts !! Z.to_nat alert_index with
                 | Some a => if Alert.is_read a then 0 else 1
                 | None => 0
                 end
            else 0)
    /\ length alerts' = length alerts
    /\ forall p,
         length (AlertSystem.get_alerts_by_priority alerts' p)
         = length (AlertSystem.get_alerts_by_priority alerts p).
Proof.
  rewrite ListFacts.mark_alert_as_read_alter. eexists. split; [reflexivity|].
  destruct (0 <=? alert_index); [|repeat split; lia].
  split; [|split].
  - unfold AlertSystem.get_unread_alerts_count.
    rewrite ListFacts.unread_after_alter.
    destruct (alerts !! Z.to_nat alert_index) as [a|] eqn:Ha; [|lia].
    destruct (Alert.is_read a) eqn:Ra; [lia|].
    assert (In a (List.filter (fun a => negb (Alert.is_read a)) alerts)).
    { apply filter_In. split; [|rewrite Ra; reflexivity].
      apply list_elem_of_In. eapply list_elem_of_lookup_2. exact Ha. }
    destruct (List.filter (fun a => negb (Alert.is_read a)) alerts); [contradiction|].
    simpl length. lia.
  - apply length_alter.
  - intros p. apply ListFacts.priority_after_alter.
Qed.

(** X3. Marks compose: marking the same index twice is marking it once,
    and two marks give the same list in either order. *)
Theorem marks_are_idempotent_and_commute (alerts : list Alert.t) (i j : Z) :
  (try! l := AlertSystem.mark_alert_as_read alerts i in
   AlertSystem.mark_alert_as_read l i)
  = AlertSystem.mark_alert_as_read alerts i
  /\ (try! l := AlertSystem.mark_alert_as_read alerts i in
      AlertSystem.mark_alert_as_read l j)
     = (try! l := AlertSystem.mark_alert_as_read alerts j in
        AlertSystem.mark_alert_as_read l i).
Proof.
  rewrite !ListFacts.mark_alert_as_read_alter. cbn [rbind].
  rewrite !ListFacts.mark_alert_as_read_alter.
  split; f_equal.
  - destruct (0 <=? i); [|reflexivity].
    rewrite list_alter_alter_eq. apply list_alter_ext; [|reflexivity].
    intros a _. reflexivity.
  - destruct (0 <=? i), (0 <=? j); try reflexivity.
    destruct (decide (Z.to_nat i = Z.to_nat j)) as [E|N].
    + rewrite E. reflexivity.
    + apply list_alter_alter_ne. congruence.
Qed.

(** ** What holds of every alert a pass constructs *)

Module FreshFacts.

Section Fresh.

Variable db : Store.
Variable current_date : date.
Variable today : date.
Variable utcnow : nat -> Z.

(** A property of every alert that [Alert.__init__] returns. *)
Variable P : Alert.t -> Prop.
Hypothesis P_new :
  forall now ty pr title message data url,
    P (Alert.new now ty pr title message data url).

Lemma append_keeps alerts ty pr title message data url :
  Forall P alerts ->
  Forall P (AlertSystem.append utcnow alerts ty pr title message data url).
Proof.
  intros F. unfold AlertSystem.append. apply Forall_app. split; [exact F|].
  constructor; [apply P_new | constructor].
Qed.

Ltac kept := eexists; split; [reflexivity|]; try apply append_keeps; assumption.

Lemma check_limit_keeps alerts limit :
  Forall P alerts ->
  exists alerts',
    AlertSystem.check_limit db current_date utcnow alerts limit = Ok alerts'
    /\ Forall P alerts'.
Proof.
  intros F. unfold AlertSystem.check_limit.
  rewrite percentage_of_returns. cbn [rbind].
  destruct (Py.gtb _ _); [kept|]. destruct (Py.geb _ 80); kept.
Qed.

Lemma check_goal_keeps alerts goal :
  Forall P alerts ->
  exists alerts',
    AlertSystem.check_goal current_date utcnow alerts goal = Ok alerts'
    /\ Forall P alerts'.
Proof.
  intros F. unfold AlertSystem.check_goal. cbv zeta.
  set (days := Date.days_between (Goal.target_date goal) current_date).
  set (months := Py.max 0 (inject_Z days / (3044 # 100))%Q).
  assert (First : exists a1,
             (if (0 <? days) && (days <=? 30)
              then try! progress_percentage :=
                     AlertSystem.percentage_of (Goal.current_amount goal)
                       (Goal.target_amount goal) in
                   if Py.ltb progress_percentage 90
                   then Ok (AlertSystem.append utcnow alerts GOAL_DEADLINE_APPROACHING HIGH
                              [Text "Meta próxima do prazo: "; Text (Goal.name goal)]
                              [Text "Sua meta '"; Text (Goal.name goal); Text "' vence em ";
                               Int days; Text " dias e está ";
                               Fixed1 progress_percentage; Text "% concluída."]
                              [("goal_id", VInt (Goal.id goal));
                               ("goal_name", VStr (Goal.name goal));
                               ("target_amount", VFloat (Goal.target_amount goal));
                               ("current_amount", VFloat (Goal.current_amount goal));
                               ("progress_percentage", VFloat progress_percentage);
                               ("days_remaining", VInt days)]%string
                              "/goals")
                   else Ok alerts
              else Ok alerts) = Ok a1 /\ Forall P a1).
  { destruct ((0 <? days) && (days <=? 30)); [|kept].
    rewrite percentage_of_returns. cbn [rbind].
    destruct (Py.ltb _ 90); kept. }
  destruct First as (a1 & -> & F1). cbn [rbind].
  destruct (Py.gtb months 0) eqn:G; [|kept].
  rewrite (PyFacts.truediv_pos _ _ (RuleFacts.total_months_positive goal)).
  cbn [rbind]. rewrite RuleFacts.guarded_ratio. cbn [rbind].
  destruct (Py.ltb _ _); [|kept].
  rewrite (PyFacts.truediv_pos _ _ G). cbn [rbind]. kept.
Qed.

Lemma balance_loop_keeps items alerts :
  Forall P alerts -> Forall P (AlertSystem.balance_loop utcnow items alerts).
Proof.
  intros F. induction items as [|[k e] items IH]; simpl; [exact F|].
  destruct (Py.ltb _ 0); [apply append_keeps; exact F | exact IH].
Qed.

Lemma unusual_spending_keeps alerts :
  Forall P alerts ->
  exists alerts',
    AlertSystem._check_unusual_spending db current_date utcnow alerts = Ok alerts'
    /\ Forall P alerts'.
Proof.
  intros F. unfold AlertSystem._check_unusual_spending. cbv zeta.
  match goal with |- context [if ?c1 && ?c2 then _ else _] =>
    destruct c1; [destruct c2 eqn:G|]; simpl andb; cbv iota end; try kept.
  rewrite (PyFacts.truediv_pos _ _ G). cbn [rbind]. kept.
Qed.

Lemma bill_reminders_keep alerts :
  Forall P alerts ->
  Forall P (AlertSystem._check_bill_reminders db current_date utcnow alerts).
Proof.
  unfold AlertSystem._check_bill_reminders. cbv zeta.
  match goal with |- context [fold_left ?f ?l _] => generalize l end.
  intros l. revert alerts. induction l as [|r l IH]; intros alerts F; simpl;
    [exact F|].
  apply IH. apply append_keeps. exact F.
Qed.

Lemma positive_trends_keep alerts :
  Forall P alerts ->
  exists alerts',
    AlertSystem._check_positive_trends db current_date utcnow alerts = Ok alerts'
    /\ Forall P alerts'.
Proof.
  intros F. unfold AlertSystem._check_positive_trends.
  destruct (month current_date =? 1); cbv zeta iota beta;
    match goal with |- context [if ?c1 && ?c2 then _ else _] =>
      destruct c1; [destruct c2 eqn:G|]; simpl andb; cbv iota end;
    try kept;
    rewrite (PyFacts.truediv_pos _ _ G); cbn [rbind]; kept.
Qed.

(** Every alert of the list a pass returns was constructed in the
    pass. *)
Lemma generate_all_alerts_keeps :
  exists alerts,
    AlertSystem.generate_all_alerts db current_date today utcnow = Ok alerts
    /\ Forall P alerts.
Proof.
  unfold AlertSystem.generate_all_alerts. cbv zeta.
  destruct (for_each_invariant (AlertSystem.check_limit db current_date utcnow)
              (Forall P)
              (Query.limits_of db
                 (Date.month_key (year current_date) (month current_date))))
    with (s := @nil Alert.t) as (a1 & E1 & F1).
  { intros s x _ Hs. apply check_limit_keeps. exact Hs. }
  { constructor. }
  unfold AlertSystem._check_spending_limits. cbv zeta. rewrite E1. cbn [rbind].
  destruct (for_each_invariant (AlertSystem.check_goal current_date utcnow)
              (Forall P) (Query.active_goals db)) with (s := a1)
    as (a2 & E2 & F2).
  { intros s x _ Hs. apply check_goal_keeps. exact Hs. }
  { exact F1. }
  unfold AlertSystem._check_goals_progress. cbv zeta. rewrite E2. cbn [rbind].
  unfold AlertSystem._check_balance_projections.
  destruct (AnalysisFacts.calculate_savings_capacity_returns db today 3) as (sc & Es).
  rewrite Es. cbn [rbind].
  pose proof (balance_loop_keeps (Dict.items sc) a2 F2) as F3.
  destruct (unusual_spending_keeps _ F3) as (a4 & E4 & F4). rewrite E4. cbn [rbind].
  pose proof (bill_reminders_keep a4 F4) as F5.
  destruct (positive_trends_keep _ F5) as (a6 & E6 & F6). rewrite E6. cbn [rbind].
  exists a6. split; [reflexivity | exact F6].
Qed.

End Fresh.

End FreshFacts.

(** X4. A pass returns a list in which every alert is unread: the unread
    count of a fresh list is its length, whatever was marked before the
    pass. *)
Theorem pass_leaves_every_alert_unread (db : Store) (current_date today : date)
    (utcnow : nat -> Z) :
  exists alerts,
    AlertSystem.generate_all_alerts db current_date today utcnow = Ok alerts
    /\ Forall (fun a => Alert.is_read a = false) alerts
    /\ AlertSystem.get_unread_alerts_count alerts = Z.of_nat (length alerts)
    /\ AlertsSummary.unread (AlertSystem.get_alerts_summary alerts)
       = AlertsSummary.total (AlertSystem.get_alerts_summary alerts).
Proof.
  destruct (FreshFacts.generate_all_alerts_keeps db current_date today utcnow
              (fun a => Alert.is_read a = false)) as (alerts & E & F).
  { reflexivity. }
  exists alerts. split; [exact E|]. split; [exact F|].
  assert (U : AlertSystem.get_unread_alerts_count alerts = Z.of_nat (length alerts)).
  { unfold AlertSystem.get_unread_alerts_count. f_equal. f_equal.
    clear E. induction F as [|a l Ha F IH]; [reflexivity|].
    simpl. rewrite Ha. simpl. rewrite IH. reflexivity. }
  split; [exact U|]. simpl. exact U.
Qed.

Module OrderFacts.

Lemma extend_sorted (k k' : nat) (l n : list Alert.t) :
  StronglySorted rule_before l ->
  Forall (fun a => (rule_rank (Alert.alert_type a) <= k)%nat) l ->
  Forall (fun a => rule_rank (Alert.alert_type a) = k') n ->
  (k <= k')%nat ->
  StronglySorted rule_before (l ++ n)
  /\ Forall (fun a => (rule_rank (Alert.alert_type a) <= k')%nat) (l ++ n).
Proof.
  intros S B N L. split.
  - induction S as [|a l S IH H]; simpl.
    + induction N as [|b n Hb N IHn]; constructor; [exact IHn|].
      eapply List.Forall_impl; [|exact N]. intros c Hc. unfold rule_before. cbv beta in *. lia.
    + apply Forall_cons_iff in B. destruct B as [Ba B].
      constructor; [apply IH; exact B|].
      apply Forall_app. split; [exact H|].
      eapply List.Forall_impl; [|exact N]. intros c Hc. unfold rule_before. cbv beta in *. lia.
  - apply Forall_app. split.
    + eapply List.Forall_impl; [|exact B]. intros c Hc. cbv beta in *. lia.
    + eapply List.Forall_impl; [|exact N]. intros c Hc. cbv beta in *. lia.
Qed.

Lemma by_rule_rank (types : list AlertType) (k : nat) (l : list Alert.t) :
  Forall (fun t => rule_rank t = k) types ->
  Forall (by_rule types) l ->
  Forall (fun a => rule_rank (Alert.alert_type a) = k) l.
Proof.
  intros T F. eapply List.Forall_impl; [|exact F].
  intros a [Ha _]. rewrite List.Forall_forall in T. apply T. exact Ha.
Qed.

End OrderFacts.

(** X5. The alerts of a pass come in the order of the rules: first those
    of the spending limits, then those of the goals, the projected deficit,
    the unusual spending, the bill reminders and the positive trend. *)
Theorem pass_orders_alerts_by_rule (db : Store) (current_date today : date)
    (utcnow : nat -> Z) :
  exists alerts,
    AlertSystem.generate_all_alerts db current_date today utcnow = Ok alerts
    /\ StronglySorted rule_before alerts.
Proof.
  destruct (RuleFacts.generate_all_alerts_parts db current_date today utcnow)
    as (n1 & n2 & n3 & n4 & n5 & n6 & sc & E & F1 & F2 & _ & E3 & F4 & F5 & F6).
  exists (n1 ++ n2 ++ n3 ++ n4 ++ n5 ++ n6). split; [exact E|].
  assert (F3 : Forall (fun a => rule_rank (Alert.alert_type a) = 2%nat) n3).
  { destruct (RuleFacts.balance_loop_spec utcnow (Dict.items sc) (n1 ++ n2))
      as (new & E' & C).
    rewrite E3 in E'. apply app_inv_head in E'. subst new.
    destruct C as [[-> _]|(a & _ & _ & _ & -> & _ & _ & _ & T & _)].
    - constructor.
    - constructor; [rewrite T; reflexivity | constructor]. }
  apply (OrderFacts.by_rule_rank _ 0%nat) in F1; [|repeat constructor].
  apply (OrderFacts.by_rule_rank _ 1%nat) in F2; [|repeat constructor].
  apply (OrderFacts.by_rule_rank _ 3%nat) in F4; [|repeat constructor].
  apply (OrderFacts.by_rule_rank _ 4%nat) in F5; [|repeat constructor].
  apply (OrderFacts.by_rule_rank _ 5%nat) in F6; [|repeat constructor].
  destruct (OrderFacts.extend_sorted 0 0 [] n1) as [S1 B1];
    [constructor | constructor | exact F1 | lia |].
  destruct (OrderFacts.extend_sorted 0 1 _ n2 S1 B1 F2) as [S2 B2]; [lia|].
  destruct (OrderFacts.extend_sorted 1 2 _ n3 S2 B2 F3) as [S3 B3]; [lia|].
  destruct (OrderFacts.extend_sorted 2 3 _ n4 S3 B3 F4) as [S4 B4]; [lia|].
  destruct (OrderFacts.extend_sorted 3 4 _ n5 S4 B4 F5) as [S5 B5]; [lia|].
  destruct (OrderFacts.extend_sorted 4 5 _ n6 S5 B5 F6) as [S6 _]; [lia|].
  simpl in S6. rewrite <- !app_assoc in S6. exact S6.
Qed.

(** ** The routes of [alerts.py] *)

Module RouteFacts.

(** [AlertPriority(p.value)] is [p], and the value of the member found
    for a string is that string. *)
Lemma AlertPriority_of_value_value (p : AlertPriority) :
  AlertsRoutes.AlertPriority_of_value (AlertPriority_value p) = Some p.
Proof. destruct p; reflexivity. Qed.

Lemma AlertPriority_value_of_value (v : string) (p : AlertPriority) :
  AlertsRoutes.AlertPriority_of_value v = Some p -> AlertPriority_value p = v.
Proof.
  unfold AlertsRoutes.AlertPriority_of_value. intros H.
  apply find_some in H. destruct H as [_ H]. apply String.eqb_eq in H. exact H.
Qed.

Lemma AlertType_of_value_value (t : AlertType) :
  AlertsRoutes.AlertType_of_value (AlertType_value t) = Some t.
Proof. destruct t; reflexivity. Qed.

Lemma AlertPriority_eqb_eq (p q : AlertPriority) :
  AlertPriority_eqb p q = true <-> p = q.
Proof. destruct p, q; simpl; split; congruence. Qed.

Lemma filter_unread_id (l : list Alert.t) :
  Forall (fun a => Alert.is_read a = false) l ->
  List.filter (fun a => negb (Alert.is_read a)) l = l.
Proof.
  induction 1 as [|a l Ha F IH]; [reflexivity|].
  simpl. rewrite Ha. simpl. rewrite IH. reflexivity.
Qed.

Lemma filter_keeps_unread (f : Alert.t -> bool) (l : list Alert.t) :
  Forall (fun a => Alert.is_read a = false) l ->
  Forall (fun a => Alert.is_read a = false) (List.filter f l).
Proof.
  intros F. apply List.Forall_forall. intros a Ha. apply filter_In in Ha.
  rewrite List.Forall_forall in F. apply F. apply Ha.
Qed.

End RouteFacts.


(** X7. The [unread_only] parameter of [GET /alerts] changes nothing:
    the alerts are generated anew by the request, so none is read, and
    the response and the list left are those of the request without the
    parameter, whatever the list held before. *)
Theorem get_alerts_unread_only_changes_nothing (db : Store)
    (current_date today : date) (utcnow : nat -> Z)
    (priority type : option string) (unread_only : option string)
    (state state' : list Alert.t) :
  AlertsRoutes.get_alerts db current_date today utcnow
    (AlertsRoutes.mkArgs priority type unread_only) state
  = AlertsRoutes.get_alerts db current_date today utcnow
      (AlertsRoutes.mkArgs priority type None) state'.
Proof.
  unfold AlertsRoutes.get_alerts, AlertsRoutes.regenerate.
  destruct (FreshFacts.generate_all_alerts_keeps db current_date today utcnow
              (fun a => Alert.is_read a = false)) as (alerts & E & F);
    [reflexivity|].
  rewrite E. cbv zeta.
  cbn [AlertsRoutes.priority AlertsRoutes.type AlertsRoutes.unread_only].
  replace (String.eqb (AlertsRoutes.lower "false") "true") with false
    by reflexivity.
  generalize (String.eqb
                (AlertsRoutes.lower
                   match unread_only with
                   | Some v => v
                   | None => "false"%string
                   end) "true"). intros u.
  assert (Hu : forall l : list Alert.t,
             Forall (fun a => Alert.is_read a = false) l ->
             (if u then List.filter (fun alert => negb (Alert.is_read alert)) l
              else l) = l).
  { intros l Fl. destruct u; [apply RouteFacts.filter_unread_id; exact Fl|reflexivity]. }
  destruct (AlertsRoutes.given priority) as [pv|];
    [destruct (AlertsRoutes.AlertPriority_of_value pv) as [p|]|];
    (destruct (AlertsRoutes.given type) as [tv|];
       [destruct (AlertsRoutes.AlertType_of_value tv) as [t|]|]);
    try reflexivity;
    rewrite Hu by (repeat apply RouteFacts.filter_keeps_unread; exact F);
    reflexivity.
Qed.

(** The priorities of a pass, with the list it returns. *)
Lemma pass_priorities (db : Store) (current_date today : date) (utcnow : nat -> Z) :
  exists alerts : list Alert.t,
    AlertSystem.generate_all_alerts db current_date today utcnow = Ok alerts
    /\ Forall (fun a => Alert.priority a = LOW
                        \/ Alert.priority a = MEDIUM
                        \/ Alert.priority a = HIGH) alerts.
Proof.
  destruct (RuleFacts.generate_all_alerts_parts db current_date today utcnow)
    as (n1 & n2 & n3 & n4 & n5 & n6 & sc & E & F1 & F2 & _ & E3 & F4 & F5 & F6).
  eexists. split; [exact E|].
  repeat (apply Forall_app; split);
    try (eapply List.Forall_impl; [|eassumption]; intros a; apply by_rule_not_critical).
  destruct (RuleFacts.balance_loop_spec utcnow (Dict.items sc) (n1 ++ n2))
    as (new & E' & C).
  rewrite E3 in E'. apply app_inv_head in E'. subst new.
  destruct C as [[-> _]|(a & _ & _ & _ & -> & _ & _ & _ & _ & Pr & _)].
  - constructor.
  - constructor; [|constructor]. rewrite Pr. auto.
Qed.

(** X8. [GET /alerts/priority/<priority>] answers 400 exactly when the
    path segment is none of [low], [medium], [high] and [critical], and
    then leaves the list as it was; otherwise it answers 200, lists
    alerts of the fresh pass that all carry the requested priority, as
    many as the summary of that pass counts for it, and none at all for
    [critical]. *)
Theorem get_alerts_by_priority_response (db : Store) (current_date today : date)
    (utcnow : nat -> Z) (priority : string) (state : list Alert.t) :
  let out := AlertsRoutes.get_alerts_by_priority db current_date today utcnow
               priority state in
  (~ In priority ["low"; "medium"; "high"; "critical"]%string ->
     out = (AlertsRoutes.bad_request "Prioridade inválida", state))
  /\ (In priority ["low"; "medium"; "high"; "critical"]%string ->
      exists alerts listed,
        AlertSystem.generate_all_alerts db current_date today utcnow = Ok alerts
        /\ out = (AlertsRoutes.ok
                    (AlertsRoutes.PriorityData listed (Z.of_nat (length listed))
                       priority),
                  alerts)
        /\ Forall (fun d => AlertDict.priority d = priority) listed
        /\ Dict.get (AlertsSummary.by_priority (AlertSystem.get_alerts_summary alerts))
             priority
           = Ok (Z.of_nat (length listed))
        /\ (priority = "critical"%string -> listed = [])).
Proof.
  cbv zeta. split.
  - intros N. unfold AlertsRoutes.get_alerts_by_priority.
    destruct (AlertsRoutes.AlertPriority_of_value priority) as [p|] eqn:V;
      [|reflexivity].
    exfalso. apply N. apply RouteFacts.AlertPriority_value_of_value in V.
    subst priority. destruct p; simpl; auto.
  - intros I.
    destruct (pass_priorities db current_date today utcnow) as (alerts & E & F).
    assert (V : exists p, AlertsRoutes.AlertPriority_of_value priority = Some p
                          /\ AlertPriority_value p = priority).
    { simpl in I. destruct I as [<-|[<-|[<-|[<-|[]]]]];
        [exists LOW|exists MEDIUM|exists HIGH|exists CRITICAL]; split; reflexivity. }
    destruct V as (p & V & Vp).
    unfold AlertsRoutes.get_alerts_by_priority, AlertsRoutes.regenerate.
    rewrite V, E.
    exists alerts, (map AlertSystem.to_dict (AlertSystem.get_alerts_by_priority alerts p)).
    split; [reflexivity|]. split; [reflexivity|]. split; [|split].
    + apply Forall_map. apply List.Forall_forall. intros a Ha.
      unfold AlertSystem.get_alerts_by_priority in Ha. apply filter_In in Ha.
      destruct Ha as [_ Ha]. apply RouteFacts.AlertPriority_eqb_eq in Ha.
      unfold AlertSystem.to_dict. cbn [AlertDict.priority]. rewrite Ha. exact Vp.
    + rewrite length_map. subst priority.
      unfold AlertSystem.get_alerts_summary. cbn [AlertsSummary.by_priority].
      destruct p; reflexivity.
    + intros ->. assert (p = CRITICAL) by (destruct p; simpl in Vp; congruence).
      subst p. rewrite (no_critical_selected alerts F). reflexivity.
Qed.

(** X9. [POST /alerts/<index>/mark-read] answers 200 with the same
    message for every index, also for one beyond the end of the list,
    where it changes nothing. Whatever was marked, and whatever
    [POST /alerts/test] stored, the next [GET /alerts/summary] answers 200
    with the summary of a fresh pass, in which every alert is unread. *)
Theorem posts_are_forgotten_by_the_summary (db : Store) (current_date today : date)
    (utcnow : nat -> Z) (alert_index : Z) (state : list Alert.t) :
  let marked := AlertsRoutes.mark_alert_read alert_index state in
  let tested := AlertsRoutes.generate_test_alerts utcnow state in
  fst marked = AlertsRoutes.ok (AlertsRoutes.Message "Alerta marcado como lido")
  /\ length (snd marked) = length state
  /\ (Z.of_nat (length state) <= alert_index -> snd marked = state)
  /\ length (snd tested) = 3%nat
  /\ exists alerts,
       AlertSystem.generate_all_alerts db current_date today utcnow = Ok alerts
       /\ AlertsRoutes.get_alerts_summary db current_date today utcnow (snd marked)
          = (AlertsRoutes.ok (AlertsRoutes.SummaryData
                                (AlertSystem.get_alerts_summary alerts)), alerts)
       /\ AlertsRoutes.get_alerts_summary db current_date today utcnow (snd tested)
          = (AlertsRoutes.ok (AlertsRoutes.SummaryData
                                (AlertSystem.get_alerts_summary alerts)), alerts)
       /\ AlertsSummary.unread (AlertSystem.get_alerts_summary alerts)
          = AlertsSummary.total (AlertSystem.get_alerts_summary alerts).
Proof.
  cbv zeta. unfold AlertsRoutes.mark_alert_read.
  rewrite ListFacts.mark_alert_as_read_alter. cbn [fst snd].
  split; [reflexivity|]. split.
  { destruct (0 <=? alert_index); [apply length_alter|reflexivity]. }
  split.
  { intros G. destruct (0 <=? alert_index); [|reflexivity].
    apply list_eq. intros j.
    destruct (decide (j = Z.to_nat alert_index)) as [->|Hj].
    - rewrite list_lookup_alter_eq. rewrite lookup_ge_None_2 by lia. reflexivity.
    - rewrite list_lookup_alter_ne by congruence. reflexivity. }
  split; [reflexivity|].
  destruct (FreshFacts.generate_all_alerts_keeps db current_date today utcnow
              (fun a => Alert.is_read a = false)) as (alerts & E & F);
    [reflexivity|].
  exists alerts. split; [exact E|].
  unfold AlertsRoutes.get_alerts_summary, AlertsRoutes.regenerate. rewrite E.
  split; [reflexivity|]. split; [reflexivity|].
  unfold AlertSystem.get_alerts_summary.
  cbn [AlertsSummary.unread AlertsSummary.total].
  unfold AlertSystem.get_unread_alerts_count.
  rewrite RouteFacts.filter_unread_id by exact F. reflexivity.
Qed.

(** ** The rules of the alert system, one by one *)

Module TrendFacts.


End TrendFacts.


Module GoalRuleFacts.

(** With days left, the months left are the days over 30.44. *)
Lemma months_remaining_pos (days : Z) :
  0 < days ->
  Py.max 0 (inject_Z days / (3044 # 100))%Q = (inject_Z days / (3044 # 100))%Q
  /\ (0 < inject_Z days / (3044 # 100))%Q.
Proof.
  intros H.
  assert (P : (0 < inject_Z days / (3044 # 100))%Q).
  { apply Qlt_shift_div_l; [reflexivity|]. rewrite Qmult_0_l.
    change 0%Q with (inject_Z 0). rewrite <- Zlt_Qlt. exact H. }
  split; [|exact P]. unfold Py.max.
  replace (Py.gtb (inject_Z days / (3044 # 100)) 0) with true; [reflexivity|].
  symmetry. apply PyFacts.ltb_lt. exact P.
Qed.

Lemma months_remaining_nonpos (days : Z) :
  days <= 0 -> Py.gtb (Py.max 0 (inject_Z days / (3044 # 100))%Q) 0 = false.
Proof.
  intros H. apply PyFacts.ltb_ge.
  apply PyFacts.max_ub; [apply Qle_refl|].
  apply Qle_shift_div_r; [reflexivity|]. rewrite Qmult_0_l.
  change 0%Q with (inject_Z 0). rewrite <- Zle_Qle. exact H.
Qed.

End GoalRuleFacts.

(** X11. One goal in [_check_goals_progress]: the rule never raises and
    appends at most one alert of each of its two types, the deadline
    alert first. The deadline alert is appended exactly when between 1
    and 30 days are left and less than 90 percent of the target is
    reached; the behind-schedule alert exactly when days are left and the
    fraction reached is more than a tenth below the ideal fraction, which
    itself lies below 1. So a goal whose target date is the current date
    or earlier gets no alert, whatever its amounts, and neither does a
    goal that has reached nine tenths of a positive target. *)
Theorem goal_alerts_need_time_and_a_gap (current_date : date) (utcnow : nat -> Z)
    (alerts : list Alert.t) (goal : Goal.t) :
  let days := Date.days_between (Goal.target_date goal) current_date in
  let progress :=
    if Py.gtb (Goal.target_amount goal) 0
    then (Goal.current_amount goal / Goal.target_amount goal)%Q else 0%Q in
  let ideal :=
    (1 - (inject_Z days / (3044 # 100)) / AlertSystem._calculate_total_months goal)%Q in
  exists new,
    AlertSystem.check_goal current_date utcnow alerts goal = Ok (alerts ++ new)
    /\ (exists deadline behind,
          new = deadline ++ behind
          /\ (deadline = [] \/ types_of deadline = [GOAL_DEADLINE_APPROACHING])
          /\ (behind = [] \/ types_of behind = [GOAL_BEHIND_SCHEDULE])
          /\ (deadline <> [] <-> 0 < days <= 30 /\ (progress * 100 < 90)%Q)
          /\ (behind <> [] <-> 0 < days /\ (progress < ideal - (1 # 10))%Q))
    /\ (0 < days -> (ideal < 1)%Q)
    /\ (days <= 0 \/ (9 # 10 <= progress)%Q -> new = []).
Proof.
  cbv zeta.
  set (days := Date.days_between (Goal.target_date goal) current_date).
  set (progress := if Py.gtb (Goal.target_amount goal) 0
                   then (Goal.current_amount goal / Goal.target_amount goal)%Q
                   else 0%Q).
  set (total := AlertSystem._calculate_total_months goal).
  set (ideal := (1 - (inject_Z days / (3044 # 100)) / total)%Q).
  assert (Htotal : (0 < total)%Q).
  { apply PyFacts.ltb_lt. apply RuleFacts.total_months_positive. }
  assert (Hideal : 0 < days -> (ideal < 1)%Q).
  { intros Hd. destruct (GoalRuleFacts.months_remaining_pos days Hd) as [_ Hm].
    assert (0 < (inject_Z days / (3044 # 100)) / total)%Q.
    { apply Qlt_shift_div_l; [exact Htotal|]. rewrite Qmult_0_l. exact Hm. }
    unfold ideal. lra. }
  assert (Hpct : AlertSystem.percentage_of (Goal.current_amount goal)
                   (Goal.target_amount goal) = Ok (progress * 100)%Q).
  { unfold AlertSystem.percentage_of, progress.
    destruct (Py.gtb (Goal.target_amount goal) 0) eqn:G.
    - rewrite (PyFacts.truediv_pos _ _ G). reflexivity.
    - reflexivity. }
  unfold AlertSystem.check_goal. fold days.
  assert (First : exists deadline,
             (if (0 <? days) && (days <=? 30)
              then try! progress_percentage :=
                     AlertSystem.percentage_of (Goal.current_amount goal)
                       (Goal.target_amount goal) in
                   if Py.ltb progress_percentage 90
                   then Ok (AlertSystem.append utcnow alerts GOAL_DEADLINE_APPROACHING HIGH
                              [Text "Meta próxima do prazo: "; Text (Goal.name goal)]
                              [Text "Sua meta '"; Text (Goal.name goal); Text "' vence em ";
                               Int days; Text " dias e está ";
                               Fixed1 progress_percentage; Text "% concluída."]
                              [("goal_id", VInt (Goal.id goal));
                               ("goal_name", VStr (Goal.name goal));
                               ("target_amount", VFloat (Goal.target_amount goal));
                               ("current_amount", VFloat (Goal.current_amount goal));
                               ("progress_percentage", VFloat progress_percentage);
                               ("days_remaining", VInt days)]%string
                              "/goals")
                   else Ok alerts
              else Ok alerts) = Ok (alerts ++ deadline)
             /\ (deadline = [] \/ types_of deadline = [GOAL_DEADLINE_APPROACHING])
             /\ (deadline <> [] <-> 0 < days <= 30 /\ (progress * 100 < 90)%Q)).
  { destruct ((0 <? days) && (days <=? 30)) eqn:W.
    - apply andb_true_iff in W. destruct W as [W1 W2].
      apply Z.ltb_lt in W1. apply Z.leb_le in W2.
      rewrite Hpct. cbn [rbind].
      destruct (Py.ltb (progress * 100) 90) eqn:L.
      + apply PyFacts.ltb_lt in L.
        eexists. split; [reflexivity|]. split; [right; reflexivity|].
        split; [intros _; split; [lia | exact L] | discriminate].
      + apply PyFacts.ltb_ge in L.
        exists []. rewrite app_nil_r. split; [reflexivity|]. split; [left; reflexivity|].
        split; [congruence|]. intros [_ H]. lra.
    - exists []. rewrite app_nil_r. split; [reflexivity|]. split; [left; reflexivity|].
      split; [congruence|]. intros [H _]. exfalso.
      apply andb_false_iff in W. destruct W as [W|W];
        [apply Z.ltb_ge in W | apply Z.leb_gt in W]; lia. }
  destruct First as (deadline & -> & Td & Cd). cbn [rbind].
  destruct (Z.lt_ge_cases 0 days) as [Hd|Hd].
  - destruct (GoalRuleFacts.months_remaining_pos days Hd) as [Em Hm].
    rewrite Em.
    assert (G : Py.gtb (inject_Z days / (3044 # 100)) 0 = true)
      by (apply PyFacts.ltb_lt; exact Hm).
    rewrite G.
    rewrite (PyFacts.truediv_pos _ _ (RuleFacts.total_months_positive goal)).
    cbn [rbind]. rewrite RuleFacts.guarded_ratio. cbn [rbind].
    fold progress. fold total. fold ideal.
    destruct (Py.ltb progress (ideal - (1 # 10))) eqn:L.
    + apply PyFacts.ltb_lt in L.
      rewrite (PyFacts.truediv_pos _ _ G). cbn [rbind].
      unfold AlertSystem.append. rewrite <- app_assoc.
      eexists. split; [reflexivity|]. split.
      * exists deadline. eexists. split; [reflexivity|]. split; [exact Td|].
        split; [right; reflexivity|]. split; [exact Cd|].
        split; [intros _; split; assumption | discriminate].
      * split; [exact Hideal|]. intros [H|H]; [lia|].
        specialize (Hideal Hd). lra.
    + apply PyFacts.ltb_ge in L.
      exists deadline. split; [reflexivity|]. split.
      * exists deadline, []. rewrite app_nil_r. split; [reflexivity|].
        split; [exact Td|]. split; [left; reflexivity|]. split; [exact Cd|].
        split; [congruence|]. intros [_ H]. lra.
      * split; [exact Hideal|]. intros [H|H]; [lia|].
        destruct deadline as [|a l]; [reflexivity|]. exfalso.
        assert (N : a :: l <> []) by discriminate.
        apply Cd in N. destruct N as [_ N]. lra.
  - rewrite (GoalRuleFacts.months_remaining_nonpos days Hd).
    exists deadline. split; [reflexivity|]. split.
    + exists deadline, []. rewrite app_nil_r. split; [reflexivity|].
      split; [exact Td|]. split; [left; reflexivity|]. split; [exact Cd|].
      split; [congruence|]. intros [H _]. lia.
    + split; [exact Hideal|]. intros _.
      destruct deadline as [|a l]; [reflexivity|]. exfalso.
      assert (N : a :: l <> []) by discriminate.
      apply Cd in N. lia.
Qed.


(** ** The calendar

    [toordinal] and [fromordinal] are inverse to each other on the dates
    of the calendar, and the ordinal orders the dates as the comparison
    of year, month and day does. *)

Module CalendarFacts.


(** A year has 365 days, or 366 when it is a leap year. *)
Lemma days_before_year_succ (y : Z) :
  Date.days_before_year (y + 1)
  = Date.days_before_year y + 365 + (if Date.is_leap y then 1 else 0).
Proof.
  unfold Date.days_before_year, Date.is_leap. cbv zeta.
  replace (y + 1 - 1) with y by lia.
  pose proof (Z.div_mod y 4 ltac:(lia)) as D4.
  pose proof (Z.mod_pos_bound y 4 ltac:(lia)) as B4.
  pose proof (Z.div_mod y 100 ltac:(lia)) as D100.
  pose proof (Z.mod_pos_bound y 100 ltac:(lia)) as B100.
  pose proof (Z.div_mod y 400 ltac:(lia)) as D400.
  pose proof (Z.mod_pos_bound y 400 ltac:(lia)) as B400.
  pose proof (Z.div_mod (y - 1) 4 ltac:(lia)) as E4.
  pose proof (Z.mod_pos_bound (y - 1) 4 ltac:(lia)) as F4.
  pose proof (Z.div_mod (y - 1) 100 ltac:(lia)) as E100.
  pose proof (Z.mod_pos_bound (y - 1) 100 ltac:(lia)) as F100.
  pose proof (Z.div_mod (y - 1) 400 ltac:(lia)) as E400.
  pose proof (Z.mod_pos_bound (y - 1) 400 ltac:(lia)) as F400.
  destruct (y mod 4 =? 0) eqn:M4; [apply Z.eqb_eq in M4 | apply Z.eqb_neq in M4];
    (destruct (y mod 100 =? 0) eqn:M100;
       [apply Z.eqb_eq in M100 | apply Z.eqb_neq in M100]);
    (destruct (y mod 400 =? 0) eqn:M400;
       [apply Z.eqb_eq in M400 | apply Z.eqb_neq in M400]);
    simpl; lia.
Qed.

(** The days before a year grow with the year. *)
Lemma days_before_year_step (y : Z) :
  Date.days_before_year y + 365 <= Date.days_before_year (y + 1)
  <= Date.days_before_year y + 366.
Proof. rewrite days_before_year_succ. destruct (Date.is_leap y); lia. Qed.

Lemma days_before_year_mono (y y' : Z) :
  y <= y' ->
  Date.days_before_year y + 365 * (y' - y) <= Date.days_before_year y'.
Proof.
  intros H. replace y' with (y + Z.of_nat (Z.to_nat (y' - y))) by lia.
  induction (Z.to_nat (y' - y)) as [|n IH]; [rewrite Z.add_0_r; lia|].
  rewrite Nat2Z.inj_succ.
  replace (y + Z.succ (Z.of_nat n)) with (y + Z.of_nat n + 1) by lia.
  pose proof (days_before_year_step (y + Z.of_nat n)). lia.
Qed.

Lemma month_cases (m : Z) :
  1 <= m <= 12 ->
  m = 1 \/ m = 2 \/ m = 3 \/ m = 4 \/ m = 5 \/ m = 6 \/ m = 7 \/ m = 8
  \/ m = 9 \/ m = 10 \/ m = 11 \/ m = 12.
Proof. lia. Qed.

(** The days before a month and the days of the month are the days
    before the next. *)
Lemma days_before_month_succ (y m : Z) :
  1 <= m <= 11 ->
  Date.days_before_month y (m + 1)
  = Date.days_before_month y m + Date.days_in_month y m.
Proof.
  intros H. unfold Date.days_before_month, Date.days_in_month.
  assert (C : m = 1 \/ m = 2 \/ m = 3 \/ m = 4 \/ m = 5 \/ m = 6 \/ m = 7 \/ m = 8
              \/ m = 9 \/ m = 10 \/ m = 11) by lia.
  destruct (Date.is_leap y);
    repeat (destruct C as [C|C]; [subst m; reflexivity|]); subst m; reflexivity.
Qed.

Lemma days_in_month_bounds (y m : Z) :
  1 <= m <= 12 -> 28 <= Date.days_in_month y m <= 31.
Proof.
  intros H. unfold Date.days_in_month.
  pose proof (month_cases m H) as C.
  destruct (Date.is_leap y);
    repeat (destruct C as [C|C]; [subst m; simpl; lia|]); subst m; simpl; lia.
Qed.

(** December ends the year. *)
Lemma year_length (y : Z) :
  Date.days_before_month y 12 + Date.days_in_month y 12
  = 365 + (if Date.is_leap y then 1 else 0).
Proof.
  unfold Date.days_before_month, Date.days_in_month.
  destruct (Date.is_leap y); reflexivity.
Qed.

Lemma days_before_month_mono (y m m' : Z) :
  1 <= m -> m < m' -> m' <= 12 ->
  Date.days_before_month y m + Date.days_in_month y m
  <= Date.days_before_month y m'.
Proof.
  intros H1 H2 H3.
  replace m' with (m + 1 + Z.of_nat (Z.to_nat (m' - m - 1))) by lia.
  assert (B : (Z.to_nat (m' - m - 1) <= 11 - Z.to_nat m)%nat) by lia.
  induction (Z.to_nat (m' - m - 1)) as [|n IH].
  - rewrite Z.add_0_r. rewrite days_before_month_succ by lia. lia.
  - rewrite Nat2Z.inj_succ.
    replace (m + 1 + Z.succ (Z.of_nat n)) with (m + 1 + Z.of_nat n + 1) by lia.
    rewrite (days_before_month_succ y (m + 1 + Z.of_nat n)) by lia.
    pose proof (days_in_month_bounds y (m + 1 + Z.of_nat n) ltac:(lia)).
    specialize (IH ltac:(lia)). lia.
Qed.

(** The ordinal orders the dates of the calendar as the comparison of
    year, month and day does. *)
Lemma toordinal_lt (a b : date) :
  Date.valid a -> Date.valid b ->
  Date.ltb a b = true -> Date.toordinal a < Date.toordinal b.
Proof.
  intros (_ & Ma & Da) (_ & Mb & Db) L.
  unfold Date.ltb in L. unfold Date.toordinal.
  apply orb_true_iff in L. destruct L as [L|L].
  - apply Z.ltb_lt in L.
    pose proof (days_before_year_mono (year a + 1) (year b) ltac:(lia)).
    pose proof (days_before_year_succ (year a)).
    pose proof (year_length (year a)).
    pose proof (days_before_month_mono (year a) (month a) 12).
    assert (Date.days_before_month (year a) (month a) + Date.days_in_month (year a) (month a)
            <= Date.days_before_month (year a) 12 + Date.days_in_month (year a) 12).
    { destruct (Z.eq_dec (month a) 12) as [->|N]; [lia|].
      pose proof (days_in_month_bounds (year a) 12 ltac:(lia)). lia. }
    assert (0 <= Date.days_before_month (year b) (month b)).
    { unfold Date.days_before_month.
      pose proof (month_cases _ Mb) as C.
      destruct (Date.is_leap (year b));
        repeat (destruct C as [C|C]; [rewrite C; simpl; lia|]); rewrite C; simpl; lia. }
    lia.
  - apply andb_true_iff in L. destruct L as [Y L]. apply Z.eqb_eq in Y.
    rewrite Y in *. apply orb_true_iff in L. destruct L as [L|L].
    + apply Z.ltb_lt in L.
      pose proof (days_before_month_mono (year b) (month a) (month b)). lia.
    + apply andb_true_iff in L. destruct L as [M L]. apply Z.eqb_eq in M.
      apply Z.ltb_lt in L. rewrite M. lia.
Qed.

Lemma date_ltb_total (a b : date) :
  Date.ltb a b = true \/ a = b \/ Date.ltb b a = true.
Proof.
  destruct a as [ya ma da], b as [yb mb db]. unfold Date.ltb. simpl.
  destruct (Z.lt_trichotomy ya yb) as [H|[H|H]].
  - left. apply orb_true_iff. left. apply Z.ltb_lt. exact H.
  - subst yb. rewrite Z.ltb_irrefl, Z.eqb_refl. simpl.
    destruct (Z.lt_trichotomy ma mb) as [H|[H|H]].
    + left. apply orb_true_iff. left. apply Z.ltb_lt. exact H.
    + subst mb. rewrite Z.ltb_irrefl, Z.eqb_refl. simpl.
      destruct (Z.lt_trichotomy da db) as [H|[H|H]].
      * left. apply Z.ltb_lt. exact H.
      * subst db. right. left. reflexivity.
      * right. right. apply Z.ltb_lt. exact H.
    + right. right. apply orb_true_iff. left. apply Z.ltb_lt. exact H.
  - right. right. apply orb_true_iff. left. apply Z.ltb_lt. exact H.
Qed.

Lemma date_eqb_eq (a b : date) : Date.eqb a b = true <-> a = b.
Proof.
  destruct a as [ya ma da], b as [yb mb db]. unfold Date.eqb. simpl. split.
  - intros H. apply andb_true_iff in H. destruct H as [H H3].
    apply andb_true_iff in H. destruct H as [H1 H2].
    apply Z.eqb_eq in H1, H2, H3. congruence.
  - intros H. injection H as -> -> ->. rewrite !Z.eqb_refl. reflexivity.
Qed.

Lemma date_ltb_spec (a b : date) :
  Date.valid a -> Date.valid b ->
  Date.ltb a b = (Date.toordinal a <? Date.toordinal b).
Proof.
  intros Va Vb.
  destruct (date_ltb_total a b) as [H|[H|H]].
  - rewrite H. symmetry. apply Z.ltb_lt. apply toordinal_lt; assumption.
  - subst b. rewrite Z.ltb_irrefl.
    unfold Date.ltb. rewrite !Z.ltb_irrefl, !Z.eqb_refl. reflexivity.
  - pose proof (toordinal_lt b a Vb Va H) as T.
    replace (Date.toordinal a <? Date.toordinal b) with false
      by (symmetry; apply Z.ltb_ge; lia).
    destruct (Date.ltb a b) eqn:E; [|reflexivity].
    pose proof (toordinal_lt a b Va Vb E). lia.
Qed.

Lemma toordinal_inj (a b : date) :
  Date.valid a -> Date.valid b -> Date.toordinal a = Date.toordinal b -> a = b.
Proof.
  intros Va Vb E.
  destruct (date_ltb_total a b) as [H|[H|H]]; [|exact H|].
  - pose proof (toordinal_lt a b Va Vb H). lia.
  - pose proof (toordinal_lt b a Vb Va H). lia.
Qed.

Lemma date_leb_spec (a b : date) :
  Date.valid a -> Date.valid b ->
  Date.leb a b = (Date.toordinal a <=? Date.toordinal b).
Proof.
  intros Va Vb. unfold Date.leb. rewrite (date_ltb_spec a b Va Vb).
  destruct (Date.eqb a b) eqn:E.
  - apply date_eqb_eq in E. subst b. rewrite Z.ltb_irrefl, Z.leb_refl. reflexivity.
  - rewrite orb_false_r.
    destruct (Z.ltb_spec (Date.toordinal a) (Date.toordinal b)) as [L|L].
    + symmetry. apply Z.leb_le. lia.
    + symmetry. apply Z.leb_gt.
      assert (Date.toordinal a <> Date.toordinal b).
      { intros T. apply toordinal_inj in T; [|assumption|assumption].
        subst b. rewrite (proj2 (date_eqb_eq a a) eq_refl) in E. discriminate. }
      lia.
Qed.

Lemma is_leap_year_of (q400 q100 q4 q1 : Z) :
  0 <= q100 <= 3 -> 0 <= q4 <= 24 -> 0 <= q1 <= 3 ->
  Date.is_leap (year_of q400 q100 q4 q1)
  = (q1 =? 3) && (negb (q4 =? 24) || (q100 =? 3)).
Proof.
  intros H100 H4 H1. unfold Date.is_leap, year_of.
  set (y := q400 * 400 + 1 + q100 * 100 + q4 * 4 + q1).
  pose proof (Z.div_mod y 4 ltac:(lia)) as D4.
  pose proof (Z.mod_pos_bound y 4 ltac:(lia)) as B4.
  pose proof (Z.div_mod y 100 ltac:(lia)) as D100.
  pose proof (Z.mod_pos_bound y 100 ltac:(lia)) as B100.
  pose proof (Z.div_mod y 400 ltac:(lia)) as D400.
  pose proof (Z.mod_pos_bound y 400 ltac:(lia)) as B400.
  assert (Ey : y = q400 * 400 + 1 + q100 * 100 + q4 * 4 + q1) by reflexivity.
  clearbody y.
  destruct (y mod 4 =? 0) eqn:M4; [apply Z.eqb_eq in M4 | apply Z.eqb_neq in M4];
    (destruct (y mod 100 =? 0) eqn:M100;
       [apply Z.eqb_eq in M100 | apply Z.eqb_neq in M100]);
    (destruct (y mod 400 =? 0) eqn:M400;
       [apply Z.eqb_eq in M400 | apply Z.eqb_neq in M400]);
    (destruct (q1 =? 3) eqn:E1; [apply Z.eqb_eq in E1 | apply Z.eqb_neq in E1]);
    (destruct (q4 =? 24) eqn:E4; [apply Z.eqb_eq in E4 | apply Z.eqb_neq in E4]);
    (destruct (q100 =? 3) eqn:E100;
       [apply Z.eqb_eq in E100 | apply Z.eqb_neq in E100]);
    simpl; try reflexivity; exfalso; lia.
Qed.

Lemma days_before_year_of (q400 q100 q4 q1 : Z) :
  0 <= q100 <= 3 -> 0 <= q4 <= 24 -> 0 <= q1 <= 3 ->
  Date.days_before_year (year_of q400 q100 q4 q1)
  = 146097 * q400 + 36524 * q100 + 1461 * q4 + 365 * q1.
Proof.
  intros H100 H4 H1. unfold Date.days_before_year, year_of. cbv zeta.
  set (y := q400 * 400 + 1 + q100 * 100 + q4 * 4 + q1 - 1).
  pose proof (Z.div_mod y 4 ltac:(lia)) as D4.
  pose proof (Z.mod_pos_bound y 4 ltac:(lia)) as B4.
  pose proof (Z.div_mod y 100 ltac:(lia)) as D100.
  pose proof (Z.mod_pos_bound y 100 ltac:(lia)) as B100.
  pose proof (Z.div_mod y 400 ltac:(lia)) as D400.
  pose proof (Z.mod_pos_bound y 400 ltac:(lia)) as B400.
  assert (Ey : y = q400 * 400 + q100 * 100 + q4 * 4 + q1) by (unfold y; lia).
  clearbody y. lia.
Qed.

Lemma fromordinal_spec (n : Z) :
  1 <= n ->
  Date.valid (Date.fromordinal n) /\ Date.toordinal (Date.fromordinal n) = n.
Proof.
  intros Hn. unfold Date.fromordinal. cbv zeta.
  unfold Date.DI400Y, Date.DI100Y, Date.DI4Y.
  set (n0 := n - 1).
  set (q400 := n0 / 146097). set (r400 := n0 mod 146097).
  set (q100 := r400 / 36524). set (r100 := r400 mod 36524).
  set (q4 := r100 / 1461). set (r4 := r100 mod 1461).
  set (q1 := r4 / 365). set (r1 := r4 mod 365).
  pose proof (Z.div_mod n0 146097 ltac:(lia)) as D400.
  pose proof (Z.mod_pos_bound n0 146097 ltac:(lia)) as B400.
  pose proof (Z.div_mod r400 36524 ltac:(lia)) as D100.
  pose proof (Z.mod_pos_bound r400 36524 ltac:(lia)) as B100.
  pose proof (Z.div_mod r100 1461 ltac:(lia)) as D4.
  pose proof (Z.mod_pos_bound r100 1461 ltac:(lia)) as B4.
  pose proof (Z.div_mod r4 365 ltac:(lia)) as D1.
  pose proof (Z.mod_pos_bound r4 365 ltac:(lia)) as B1.
  fold q400 r400 in D400, B400. fold q100 r100 in D100, B100.
  fold q4 r4 in D4, B4. fold q1 r1 in D1, B1.
  assert (Q400 : 0 <= q400) by (apply Z.div_pos; lia).
  assert (Q100 : 0 <= q100 <= 4) by lia.
  assert (Q4 : 0 <= q4 <= 24) by lia.
  assert (Q1 : 0 <= q1 <= 4) by lia.
  assert (N0 : n = n0 + 1) by (unfold n0; lia).
  clearbody q400 r400 q100 r100 q4 r4 q1 r1 n0.
  change (q400 * 400 + 1 + q100 * 100 + q4 * 4 + q1)
    with (year_of q400 q100 q4 q1).
  destruct ((q1 =? 4) || (q100 =? 4)) eqn:Last.
  - (* the last day of a leap year *)
    apply orb_true_iff in Last.
    assert (Y : year_of q400 q100 q4 q1 - 1
                = if q100 =? 4 then year_of (q400 + 1) 0 0 0 - 1
                  else year_of q400 q100 q4 3).
    { unfold year_of. destruct (q100 =? 4) eqn:E;
        [apply Z.eqb_eq in E | apply Z.eqb_neq in E]; [lia|].
      destruct Last as [L|L]; [apply Z.eqb_eq in L; lia | discriminate]. }
    rewrite Y. clear Y.
    destruct (q100 =? 4) eqn:E; [apply Z.eqb_eq in E | apply Z.eqb_neq in E].
    + assert (Hy : year_of (q400 + 1) 0 0 0 - 1 = year_of q400 3 24 3)
        by (unfold year_of; lia).
      rewrite Hy.
      unfold Date.valid, Date.toordinal, Date.days_in_month, Date.days_before_month.
      cbn [year month day].
      rewrite days_before_year_of, is_leap_year_of by lia.
      simpl. unfold year_of. lia.
    + destruct Last as [L|L]; [apply Z.eqb_eq in L | discriminate].
      assert (q4 <= 23) by lia.
      unfold Date.valid, Date.toordinal, Date.days_in_month, Date.days_before_month.
      cbn [year month day].
      rewrite days_before_year_of, is_leap_year_of by lia.
      replace (q4 =? 24) with false by (symmetry; apply Z.eqb_neq; lia).
      simpl. unfold year_of. lia.
  - apply orb_false_iff in Last. destruct Last as [L1 L100].
    apply Z.eqb_neq in L1, L100.
    assert (Q1' : 0 <= q1 <= 3) by lia. assert (Q100' : 0 <= q100 <= 3) by lia.
    pose proof (is_leap_year_of q400 q100 q4 q1 Q100' Q4 Q1') as Leap.
    pose proof (days_before_year_of q400 q100 q4 q1 Q100' Q4 Q1') as Dby.
    set (leap := (q1 =? 3) && (negb (q4 =? 24) || (q100 =? 3))) in *.
    assert (Y1 : 1 <= year_of q400 q100 q4 q1) by (unfold year_of; lia).
    set (y := year_of q400 q100 q4 q1) in *.
    rewrite Z.shiftr_div_pow2 by lia. change (2 ^ 5) with 32.
    pose proof (Z.div_mod (r1 + 50) 32 ltac:(lia)) as Dm.
    pose proof (Z.mod_pos_bound (r1 + 50) 32 ltac:(lia)) as Bm.
    set (m := (r1 + 50) / 32) in *.
    assert (Hm : 1 <= m <= 12) by lia.
    clearbody leap y m.
    unfold Date.valid, Date.toordinal, Date.days_in_month, Date.days_before_month.
    assert (Month : forall b : bool, Date.is_leap y = b ->
               let '(m', preceding) :=
                 if Date.DAYS_BEFORE_MONTH m + (if (m >? 2) && b then 1 else 0) >? r1
                 then (m - 1,
                       Date.DAYS_BEFORE_MONTH m + (if (m >? 2) && b then 1 else 0)
                       - (Date.DAYS_IN_MONTH (m - 1)
                          + (if (m - 1 =? 2) && b then 1 else 0)))
                 else (m, Date.DAYS_BEFORE_MONTH m + (if (m >? 2) && b then 1 else 0)) in
               1 <= m' <= 12
               /\ 1 <= r1 - preceding + 1
                     <= (if (m' =? 2) && b then 29 else Date.DAYS_IN_MONTH m')
               /\ Date.DAYS_BEFORE_MONTH m' + (if (m' >? 2) && b then 1 else 0)
                  = preceding).
    { intros b _. pose proof (month_cases m Hm) as C.
      destruct b;
        repeat (destruct C as [C|C];
                [subst m; simpl;
                 match goal with
                 | |- context [if ?c >? ?r then _ else _] =>
                     destruct (Z.gtb_spec c r); simpl; lia
                 end|]);
        subst m; simpl;
        match goal with
        | |- context [if ?c >? ?r then _ else _] =>
            destruct (Z.gtb_spec c r); simpl; lia
        end. }
    specialize (Month leap Leap).
    destruct (if Date.DAYS_BEFORE_MONTH m + (if (m >? 2) && leap then 1 else 0) >? r1
              then _ else _) as [m' preceding].
    destruct Month as (M1 & M2 & M3).
    cbn [year month day]. rewrite Leap. rewrite M3.
    split; [split; [exact Y1 | split; [exact M1 | exact M2]]|].
    lia.
Qed.

Lemma days_before_month_nonneg (y m : Z) :
  1 <= m <= 12 -> 0 <= Date.days_before_month y m.
Proof.
  intros H. unfold Date.days_before_month.
  pose proof (month_cases m H) as C.
  destruct (Date.is_leap y);
    repeat (destruct C as [C|C]; [subst m; simpl; lia|]); subst m; simpl; lia.
Qed.

Lemma toordinal_pos (d : date) : Date.valid d -> 1 <= Date.toordinal d.
Proof.
  intros (Y & M & D). unfold Date.toordinal.
  pose proof (days_before_year_mono 1 (year d) Y) as H.
  change (Date.days_before_year 1) with 0 in H.
  pose proof (days_before_month_nonneg (year d) (month d) M). lia.
Qed.


(** [d + timedelta(days=n)] is the date [n] days after [d]. *)
Lemma add_days_spec (d : date) (n : Z) :
  Date.valid d -> 1 <= Date.toordinal d + n ->
  Date.valid (Date.add_days d n)
  /\ Date.toordinal (Date.add_days d n) = Date.toordinal d + n.
Proof. intros V P. apply fromordinal_spec. exact P. Qed.

Lemma sub_days_spec (d : date) (n : Z) :
  Date.valid d -> 1 <= Date.toordinal d - n ->
  Date.valid (Date.sub_days d n)
  /\ Date.toordinal (Date.sub_days d n) = Date.toordinal d - n.
Proof. intros V P. apply fromordinal_spec. exact P. Qed.





(** [d + relativedelta(months=k)] is a date of the calendar when its
    year is. *)
Lemma add_months_valid (d : date) (k : Z) :
  Date.valid d -> 1 <= year (Date.add_months d k) ->
  Date.valid (Date.add_months d k).
Proof.
  intros (Y & M & D). unfold Date.add_months. cbv zeta.
  set (s := Z.sgn k).
  assert (Hm : -11 <= s * ((k * s) mod 12) <= 11).
  { unfold s. destruct (Z.lt_trichotomy k 0) as [H|[H|H]].
    - rewrite (Z.sgn_neg k H).
      pose proof (Z.mod_pos_bound (k * -1) 12 ltac:(lia)). lia.
    - subst k. simpl. lia.
    - rewrite (Z.sgn_pos k H).
      pose proof (Z.mod_pos_bound (k * 1) 12 ltac:(lia)). lia. }
  set (years := s * (k * s / 12)). set (months := s * ((k * s) mod 12)) in *.
  clearbody years months.
  destruct (month d + months >? 12) eqn:E1.
  - apply Z.gtb_lt in E1. cbn [year month day]. intros Y'.
    pose proof (days_in_month_bounds (year d + years + 1)
                  (month d + months - 12) ltac:(lia)).
    unfold Date.valid. cbn [year month day]. lia.
  - assert (month d + months <= 12)
      by (destruct (Z.gtb_spec (month d + months) 12); [discriminate | lia]).
    destruct (month d + months <? 1) eqn:E2.
    + apply Z.ltb_lt in E2. cbn [year month day]. intros Y'.
      pose proof (days_in_month_bounds (year d + years - 1)
                    (month d + months + 12) ltac:(lia)).
      unfold Date.valid. cbn [year month day]. lia.
    + apply Z.ltb_ge in E2. cbn [year month day]. intros Y'.
      pose proof (days_in_month_bounds (year d + years)
                    (month d + months) ltac:(lia)).
      unfold Date.valid. cbn [year month day]. lia.
Qed.

(** Three months back stays in the same year or the one before. *)
Lemma sub_months_3_year (d : date) :
  1 <= month d <= 12 ->
  year d - 1 <= year (Date.sub_months d 3) <= year d.
Proof.
  intros M. unfold Date.sub_months, Date.add_months. cbv zeta.
  change (Z.sgn (- (3))) with (-1). change (- (3) * -1) with 3.
  change (3 / 12) with 0. change (3 mod 12) with 3.
  change (-1 * 0) with 0. change (-1 * 3) with (-3).
  destruct (month d + -3 >? 12) eqn:E1; [apply Z.gtb_lt in E1; lia|].
  destruct (month d + -3 <? 1); cbn [year]; lia.
Qed.

(** Three months back is 89 to 92 days back. *)
Lemma sub_months_3_days (d : date) :
  Date.valid d ->
  89 <= Date.days_between d (Date.sub_months d 3) <= 92.
Proof.
  intros (Y & M & D). unfold Date.days_between, Date.sub_months, Date.add_months.
  cbv zeta.
  change (Z.sgn (- (3))) with (-1). change (- (3) * -1) with 3.
  change (3 / 12) with 0. change (3 mod 12) with 3.
  change (-1 * 0) with 0. change (-1 * 3) with (-3).
  rewrite Z.add_0_r.
  pose proof (days_before_year_succ (year d - 1)) as S.
  replace (year d - 1 + 1) with (year d) in S by lia.
  unfold Date.toordinal.
  pose proof (month_cases (month d) M) as C.
  revert D. unfold Date.days_in_month, Date.days_before_month.
  destruct d as [y m dd]. cbn [year month day] in *.
  destruct (Date.is_leap y) eqn:Ly; destruct (Date.is_leap (y - 1)) eqn:Ly1;
    repeat (destruct C as [C|C];
            [subst m; simpl; rewrite ?Ly, ?Ly1; simpl; lia|]);
    subst m; simpl; rewrite ?Ly, ?Ly1; simpl; lia.
Qed.

End CalendarFacts.

(** ** The calendar in the analyzers and in the rules *)



Module LoopFacts.

(** A loop whose body appends one element per item. *)
Lemma fold_left_appends {A B : Type} (body : list B -> A -> list B)
    (R : A -> B -> Prop) (xs : list A) :
  (forall s x, In x xs -> exists b, body s x = s ++ [b] /\ R x b) ->
  forall s, exists new, fold_left body xs s = s ++ new /\ Forall2 R xs new.
Proof.
  induction xs as [|x xs IH]; intros Hb s; simpl.
  - exists []. rewrite app_nil_r. split; [reflexivity | constructor].
  - destruct (Hb s x (or_introl eq_refl)) as (b & E & Rb). rewrite E.
    destruct (IH (fun s y Hy => Hb s y (or_intror Hy)) (s ++ [b])) as (new & E2 & F2).
    exists (b :: new). rewrite <- app_assoc in E2. split; [exact E2|].
    constructor; assumption.
Qed.

Lemma filter_ext_Forall {A : Type} (P : A -> Prop) (f g : A -> bool) (l : list A) :
  Forall P l -> (forall x, P x -> f x = g x) -> List.filter f l = List.filter g l.
Proof.
  intros F H. induction F as [|x l Hx F IH]; [reflexivity|].
  simpl. rewrite (H x Hx), IH. reflexivity.
Qed.

End LoopFacts.

(** X14. For a current date of the calendar and recurring transactions
    whose next occurrence is a date of the calendar, [_check_bill_reminders]
    appends exactly one reminder for every active recurring expense that
    falls due 0 to 7 days after the current date, in the order of the
    table, and nothing else: inactive transactions, income, and
    transactions due earlier or later get none. Each reminder is a
    BILL_REMINDER of priority LOW that carries the id and the amount of
    its transaction and the days until it is due. *)
Theorem bill_reminders_cover_the_next_week (db : Store) (current_date : date)
    (utcnow : nat -> Z) (alerts : list Alert.t) :
  Date.valid current_date ->
  Forall (fun r => Date.valid (RecurringTransaction.next_occurrence r))
    (recurring_transactions db) ->
  exists new,
    AlertSystem._check_bill_reminders db current_date utcnow alerts = alerts ++ new
    /\ Forall2 (reminds current_date)
         (List.filter (due_within_week current_date) (recurring_transactions db)) new
    /\ Forall (fun a => data_int a "days_until" (fun n => 0 <= n <= 7)) new.
Proof.
  intros V F. unfold AlertSystem._check_bill_reminders. cbv zeta.
  pose proof (CalendarFacts.toordinal_pos current_date V) as P.
  destruct (CalendarFacts.add_days_spec current_date 7 V ltac:(lia)) as [V7 T7].
  rewrite (LoopFacts.filter_ext_Forall _ _ (due_within_week current_date) _ F).
  2:{ intros r Vr. unfold due_within_week, Date.geb, Date.days_between.
      rewrite (CalendarFacts.date_leb_spec _ _ Vr V7), T7.
      rewrite (CalendarFacts.date_leb_spec _ _ V Vr).
      rewrite <- !andb_assoc. f_equal. f_equal.
      rewrite andb_comm. f_equal.
      - apply eq_true_iff_eq. rewrite !Z.leb_le. lia.
      - apply eq_true_iff_eq. rewrite !Z.leb_le. lia. }
  set (due := List.filter (due_within_week current_date) (recurring_transactions db)).
  destruct (LoopFacts.fold_left_appends
              (fun alerts transaction =>
                 let days_until :=
                   Date.days_between (RecurringTransaction.next_occurrence transaction)
                     current_date in
                 AlertSystem.append utcnow alerts BILL_REMINDER LOW
                   [Text "Lembrete: "; Text (RecurringTransaction.description transaction)]
                   [Text "A conta '"; Text (RecurringTransaction.description transaction);
                    Text "' de "; Currency (RecurringTransaction.amount transaction);
                    Text " vence em "; Int days_until; Text " dia(s)."]
                   [("transaction_id", VInt (RecurringTransaction.id transaction));
                    ("description", VStr (RecurringTransaction.description transaction));
                    ("amount", VFloat (RecurringTransaction.amount transaction));
                    ("due_date",
                     VStr (Date.isoformat (RecurringTransaction.next_occurrence transaction)));
                    ("days_until", VInt days_until);
                    ("category",
                     VStr (Category.name (RecurringTransaction.category transaction)))]%string
                   "/transactions")
              (fun r a => reminds current_date r a
                          /\ data_int a "days_until" (fun n => 0 <= n <= 7))
              due) with (s := alerts) as (new & E & R).
  { intros s r Hr. eexists. split; [reflexivity|].
    apply filter_In in Hr. destruct Hr as [_ Hr]. unfold due_within_week in Hr.
    apply andb_true_iff in Hr. destruct Hr as [Hr H7].
    apply andb_true_iff in Hr. destruct Hr as [_ H0].
    apply Z.leb_le in H0, H7.
    split; [repeat split|]. eexists. split; [reflexivity|]. lia. }
  exists new. split; [exact E|]. split.
  - eapply Forall2_impl; [exact R|]. intros r a [H _]. exact H.
  - clear E. induction R as [|r a l l' [_ H] R IH]; constructor; assumption.
Qed.

Lemma bill_reminders_cover_the_next_week_witness :
  exists a,
    AlertSystem._check_bill_reminders ledger_salary_and_rent (mkdate 2025 1 30) clock []
    = [a]
    /\ reminds (mkdate 2025 1 30) monthly_rent a.
Proof.
  assert (V : Date.valid (mkdate 2025 1 30)) by (vm_compute; repeat split; discriminate).
  assert (F : Forall (fun r => Date.valid (RecurringTransaction.next_occurrence r))
                (recurring_transactions ledger_salary_and_rent)).
  { repeat constructor; vm_compute; discriminate. }
  destruct (bill_reminders_cover_the_next_week ledger_salary_and_rent
              (mkdate 2025 1 30) clock [] V F) as (new & E & R & _).
  assert (D : List.filter (due_within_week (mkdate 2025 1 30))
                (recurring_transactions ledger_salary_and_rent) = [monthly_rent])
    by reflexivity.
  rewrite D in R. inversion R as [|r a l1 l2 Ha Rl]; subst.
  inversion Rl; subst. exists a. split; [exact E | exact Ha].
Defined.

Module WindowFacts.

Lemma toordinal_from_year_2 (d : date) :
  Date.valid d -> 2 <= year d -> 366 <= Date.toordinal d.
Proof.
  intros (_ & M & D) Y. unfold Date.toordinal.
  pose proof (CalendarFacts.days_before_year_mono 2 (year d) Y) as H.
  change (Date.days_before_year 2) with 365 in H.
  pose proof (CalendarFacts.days_before_month_nonneg (year d) (month d) M). lia.
Qed.

Lemma week_ago (d : date) :
  Date.valid d -> 2 <= year d ->
  Date.valid (Date.sub_days d 7)
  /\ Date.toordinal (Date.sub_days d 7) = Date.toordinal d - 7.
Proof.
  intros V Y. apply CalendarFacts.sub_days_spec; [exact V|].
  pose proof (toordinal_from_year_2 d V Y). lia.
Qed.

Lemma three_months_ago (d : date) :
  Date.valid d -> 2 <= year d -> Date.valid (Date.sub_months d 3).
Proof.
  intros V Y. apply CalendarFacts.add_months_valid; [exact V|].
  destruct V as (_ & M & _).
  pose proof (CalendarFacts.sub_months_3_year d M) as H.
  unfold Date.sub_months in H. lia.
Qed.

Lemma in_last_week (d : date) (x : Transaction.t) :
  Date.valid d -> 2 <= year d -> Date.valid (Transaction.transaction_date x) ->
  Query.in_period (Date.sub_days d 7) d EXPENSE x = spent_in_last_week d x.
Proof.
  intros V Y Vx. destruct (week_ago d V Y) as [V7 T7].
  unfold Query.in_period, spent_in_last_week, age, Date.geb, Date.days_between.
  rewrite (CalendarFacts.date_leb_spec _ _ V7 Vx), T7.
  rewrite (CalendarFacts.date_leb_spec _ _ Vx V).
  f_equal. rewrite andb_comm. f_equal; apply eq_true_iff_eq; rewrite !Z.leb_le; lia.
Qed.

Lemma before_last_week (d : date) (x : Transaction.t) :
  Date.valid d -> 2 <= year d -> Date.valid (Transaction.transaction_date x) ->
  unusual_window d x = spent_before_last_week d x.
Proof.
  intros V Y Vx. destruct (week_ago d V Y) as [V7 T7].
  pose proof (three_months_ago d V Y) as V3.
  unfold unusual_window, spent_before_last_week, age, Date.geb, Date.days_between.
  rewrite (CalendarFacts.date_leb_spec _ _ V3 Vx).
  rewrite (CalendarFacts.date_ltb_spec _ _ Vx V7), T7.
  f_equal. f_equal.
  - apply eq_true_iff_eq. rewrite !Z.leb_le. lia.
  - apply eq_true_iff_eq. rewrite !Z.ltb_lt. lia.
Qed.

End WindowFacts.

(** X15. For dates of the calendar from year 2 on, [_check_unusual_spending]
    compares two disjoint sets of expenses: those dated on the current
    date or on one of the seven days before it, eight dates in all, whose
    amounts it adds up, and those dated more than seven days before and
    not before the same day three months earlier, which is 89 to 92 days
    before, over whose amounts it takes the average, times 7. It alerts
    exactly when the first figure exceeds 1.5 times the second and the
    second is positive. *)
Theorem unusual_spending_compares_eight_days (db : Store) (current_date : date)
    (utcnow : nat -> Z) (alerts : list Alert.t) :
  Date.valid current_date -> 2 <= year current_date ->
  Forall (fun x => Date.valid (Transaction.transaction_date x)) (transactions db) ->
  let r :=
    Py.or_zero
      (Sql.sum (Query.amounts
                  (List.filter (spent_in_last_week current_date) (transactions db)))) in
  let h :=
    (Py.or_zero
       (Sql.avg (Query.amounts
                   (List.filter (spent_before_last_week current_date) (transactions db))))
     * 7)%Q in
  (exists new,
     AlertSystem._check_unusual_spending db current_date utcnow alerts
     = Ok (alerts ++ new)
     /\ (new <> [] <-> (h * (3 # 2) < r)%Q /\ (0 < h)%Q))
  /\ (forall x, spent_in_last_week current_date x = true ->
                spent_before_last_week current_date x = false)
  /\ 89 <= Date.days_between current_date (Date.sub_months current_date 3) <= 92.
Proof.
  intros V Y F. cbv zeta.
  assert (Er : recent_expenses db current_date
               = Py.or_zero
                   (Sql.sum (Query.amounts
                               (List.filter (spent_in_last_week current_date)
                                  (transactions db))))).
  { unfold recent_expenses, Query.sum_where. do 3 f_equal.
    apply (LoopFacts.filter_ext_Forall _ _ _ _ F).
    intros x Vx. apply WindowFacts.in_last_week; assumption. }
  assert (Eh : historical_weekly_avg db current_date
               = (Py.or_zero
                    (Sql.avg (Query.amounts
                                (List.filter (spent_before_last_week current_date)
                                   (transactions db)))) * 7)%Q).
  { unfold historical_weekly_avg, Query.avg_where. do 4 f_equal.
    apply (LoopFacts.filter_ext_Forall _ _ _ _ F).
    intros x Vx. apply WindowFacts.before_last_week; assumption. }
  split; [|split].
  - destruct (unusual_spending_rule db current_date utcnow alerts)
      as (new & E & C & _).
    exists new. split; [exact E|]. rewrite <- Er, <- Eh. exact C.
  - intros x H. unfold spent_in_last_week in H. unfold spent_before_last_week.
    apply andb_true_iff in H. destruct H as [H _].
    apply andb_true_iff in H. destruct H as [_ H]. apply Z.leb_le in H.
    replace (7 <? age current_date x) with false
      by (symmetry; apply Z.ltb_ge; exact H).
    rewrite andb_false_r. reflexivity.
  - apply CalendarFacts.sub_months_3_days. exact V.
Qed.

Lemma unusual_spending_compares_eight_days_witness :
  exists a,
    AlertSystem._check_unusual_spending ledger_unusual_week (mkdate 2025 6 30) clock []
    = Ok [a]
    /\ List.filter (spent_in_last_week (mkdate 2025 6 30))
         (transactions ledger_unusual_week)
       = [expense 2 1600 (mkdate 2025 6 28)].
Proof.
  assert (V : Date.valid (mkdate 2025 6 30)) by (vm_compute; repeat split; discriminate).
  assert (Y : 2 <= year (mkdate 2025 6 30)) by (simpl; lia).
  assert (F : Forall (fun x => Date.valid (Transaction.transaction_date x))
                (transactions ledger_unusual_week)).
  { repeat constructor; vm_compute; discriminate. }
  destruct (unusual_spending_compares_eight_days ledger_unusual_week
              (mkdate 2025 6 30) clock [] V Y F) as ((new & E & C) & _ & _).
  assert (N : new <> []).
  { apply C. split; reflexivity. }
  simpl app in E. rewrite E. vm_compute in E. injection E as <-.
  eexists. split; reflexivity.
Defined.

(** ** The health scores *)

Module SimpleScoreFacts.

(** The score of [financial_analysis_simple.py], factor by factor. *)
Lemma calculate_health_score_shape db cd :
  let summary := FinancialAnalysisSimple.get_current_month_summary db cd in
  exists pb sv sd idv level recs,
    FinancialAnalysisSimple.calculate_health_score db cd
    = Ok {| HealthScore.total_score := Py.sum [pb; sv; sd; idv];
            HealthScore.score_factors :=
              {| ScoreFactors.positive_balance := pb;
                 ScoreFactors.spending_discipline := sd;
                 ScoreFactors.savings_capacity := sv;
                 ScoreFactors.income_diversification := idv |};
            HealthScore.health_level := level;
            HealthScore.recommendations := recs |}
    /\ pb = (if Py.gtb (Summary.partial_balance summary) 0 then 25%Q else 0%Q)
    /\ (sv = 0%Q \/ sv = 10%Q \/ sv = 20%Q \/ sv = 30%Q)
    /\ ((Summary.partial_balance summary <= 0)%Q -> sv = 0%Q)
    /\ (0 <= sd <= 30)%Q
    /\ (limits_of_month db cd = [] -> sd = 15%Q)
    /\ (idv = 0%Q \/ idv = 5%Q \/ idv = 10%Q \/ idv = 15%Q)
    /\ level = (if Py.geb (Py.sum [pb; sv; sd; idv]) 80 then "Excelente"%string
                else if Py.geb (Py.sum [pb; sv; sd; idv]) 60 then "Boa"%string
                else if Py.geb (Py.sum [pb; sv; sd; idv]) 40 then "Regular"%string
                else "Ruim"%string)
    /\ recs
       = (let r0 := [] in
          let r1 :=
            if Py.eqb pb 0
            then r0 ++ ["Procure reduzir despesas ou aumentar receitas para manter saldo positivo"%string]
            else r0 in
          let r2 :=
            if Py.ltb sv 20
            then r1 ++ ["Procure aumentar sua renda ou reduzir despesas para melhorar a capacidade de poupança"%string]
            else r1 in
          let r3 :=
            if Py.ltb sd 20
            then r2 ++ ["Revise e ajuste seus limites de gastos por categoria"%string]
            else r2 in
          let r4 :=
            if Py.ltb idv 10
            then r3 ++ ["Considere diversificar suas fontes de renda"%string]
            else r3 in
          match r4 with
          | [] => ["Continue mantendo seus bons hábitos financeiros!"%string]
          | _ => r4
          end).
Proof.
  cbv zeta. unfold FinancialAnalysisSimple.calculate_health_score. cbv zeta.
  set (summary := FinancialAnalysisSimple.get_current_month_summary db cd).
  set (bal := Summary.partial_balance summary).
  set (pb := if Py.gtb bal 0 then 25%Q else 0%Q).
  assert (Hsv : exists sv,
             (if Py.gtb (Summary.total_income summary) 0
              then try! savings_rate := Py.truediv bal (Summary.total_income summary) in
                   if Py.geb savings_rate (2 # 10) then Ok 30%Q
                   else if Py.geb savings_rate (1 # 10) then Ok 20%Q
                   else if Py.gtb savings_rate 0 then Ok 10%Q
                   else Ok 0%Q
              else Ok 0%Q) = Ok sv
             /\ (sv = 0%Q \/ sv = 10%Q \/ sv = 20%Q \/ sv = 30%Q)
             /\ ((bal <= 0)%Q -> sv = 0%Q)).
  { destruct (Py.gtb (Summary.total_income summary) 0) eqn:G.
    - rewrite (PyFacts.truediv_pos _ _ G). cbn [rbind].
      apply PyFacts.ltb_lt in G.
      assert (R : (bal <= 0)%Q -> (bal / Summary.total_income summary <= 0)%Q).
      { intros B. apply Qle_shift_div_r; [exact G | lra]. }
      destruct (Py.geb _ (2 # 10)) eqn:G1.
      { eexists. split; [reflexivity|]. split; [auto|].
        intros B. apply PyFacts.leb_le in G1. specialize (R B). lra. }
      destruct (Py.geb _ (1 # 10)) eqn:G2.
      { eexists. split; [reflexivity|]. split; [auto|].
        intros B. apply PyFacts.leb_le in G2. specialize (R B). lra. }
      destruct (Py.gtb (bal / _) 0) eqn:G3.
      { eexists. split; [reflexivity|]. split; [auto|].
        intros B. apply PyFacts.ltb_lt in G3. specialize (R B). lra. }
      eexists. split; [reflexivity|]. split; auto.
    - exists 0%Q. split; [reflexivity|]. split; auto. }
  destruct Hsv as (sv & -> & Vsv & Zsv). cbn [rbind].
  destruct (for_append_forall2 (FinancialAnalysisSimple.limit_status db cd)
              (Query.limits_of db (Date.month_key (year cd) (month cd)))
              (fun x _ => ScoreFacts.simple_limit_status_returns db cd x) [])
    as (limits & El & Fl).
  unfold FinancialAnalysisSimple.get_spending_limits_status. rewrite El.
  simpl app. cbn [rbind].
  assert (Hsd : exists sd,
             match limits with
             | _ :: _ =>
                 try! q :=
                   Py.truediv
                     (Py.sum
                        (map (fun _ => 1%Q)
                           (List.filter
                              (fun limit =>
                                 Py.leb (FinancialAnalysisSimple.LimitStatus.current_spent limit)
                                   (FinancialAnalysisSimple.LimitStatus.monthly_limit limit))
                              limits)))
                     (inject_Z (Z.of_nat (length limits))) in
                 Ok (q * 30)%Q
             | [] => Ok 15%Q
             end = Ok sd
             /\ (0 <= sd <= 30)%Q
             /\ (limits = [] -> sd = 15%Q)).
  { destruct limits as [|l0 ls];
      [exists 15%Q; split; [reflexivity | split; [lra | reflexivity]]|].
    rewrite AnalysisFacts.truediv_length. cbn [rbind].
    eexists. split; [reflexivity|]. split; [|discriminate].
    rewrite ScoreFacts.sum_ones.
    set (p := fun limit =>
                Py.leb (FinancialAnalysisSimple.LimitStatus.current_spent limit)
                  (FinancialAnalysisSimple.LimitStatus.monthly_limit limit)).
    assert (W0 : (0 <= inject_Z (Z.of_nat (length (List.filter p (l0 :: ls)))))%Q)
      by apply ScoreFacts.length_nonneg.
    assert (W1 : (inject_Z (Z.of_nat (length (List.filter p (l0 :: ls))))
                  <= inject_Z (Z.of_nat (length (l0 :: ls))))%Q).
    { rewrite <- Zle_Qle. apply Nat2Z.inj_le. apply List.filter_length_le. }
    assert (N : (0 < inject_Z (Z.of_nat (length (l0 :: ls))))%Q).
    { change 0%Q with (inject_Z 0). rewrite <- Zlt_Qlt. simpl length. lia. }
    set (w := inject_Z (Z.of_nat (length (List.filter p (l0 :: ls))))) in *.
    set (n := inject_Z (Z.of_nat (length (l0 :: ls)))) in *.
    assert (0 <= w / n)%Q by (apply Qle_shift_div_l; [exact N | lra]).
    assert (w / n <= 1)%Q by (apply Qle_shift_div_r; [exact N | lra]).
    lra. }
  destruct Hsd as (sd & -> & Bsd & Zsd). cbn [rbind].
  match goal with
  | |- context [if ?n >=? 3 then 15%Q else ?rest] =>
      set (idv := if n >=? 3 then 15%Q else rest)
  end.
  assert (Vidv : idv = 0%Q \/ idv = 5%Q \/ idv = 10%Q \/ idv = 15%Q).
  { unfold idv.
    repeat match goal with |- context [if ?c then _ else _] => destruct c end; auto. }
  clearbody idv.
  exists pb, sv, sd, idv. eexists. eexists.
  split; [reflexivity|].
  split; [reflexivity|]. split; [exact Vsv|]. split; [exact Zsv|].
  split; [exact Bsd|]. split.
  { intros L. apply Zsd. unfold limits_of_month in L. rewrite L in Fl.
    inversion Fl. reflexivity. }
  split; [exact Vidv|]. split; reflexivity.
Qed.

End SimpleScoreFacts.

(** X16. The health score of [financial_analysis_simple.py]: it returns
    for every ledger, its total is the sum of its four factors, its level
    is never the fifth level of the other analyzer, and its list of
    recommendations is never empty. With a partial balance that is not
    positive the total is at most 45, the level is Regular or Ruim, and
    both the advice on the balance and the advice on savings are given.
    Without spending limits for the month the discipline factor is 15,
    the total is at most 85, and the advice to revise the limits is
    given, so the congratulation never is. *)
Theorem simple_score_without_balance_or_limits (db : Store) (current_date : date) :
  exists h,
    FinancialAnalysisSimple.calculate_health_score db current_date = Ok h
    /\ (HealthScore.total_score h == factor_sum (HealthScore.score_factors h))%Q
    /\ HealthScore.recommendations h <> []
    /\ HealthScore.health_level h <> "Crítica"%string
    /\ ((Summary.partial_balance
           (FinancialAnalysisSimple.get_current_month_summary db current_date) <= 0)%Q ->
        (HealthScore.total_score h <= 45)%Q
        /\ (HealthScore.health_level h = "Regular"%string
            \/ HealthScore.health_level h = "Ruim"%string)
        /\ In "Procure reduzir despesas ou aumentar receitas para manter saldo positivo"%string
             (HealthScore.recommendations h)
        /\ In "Procure aumentar sua renda ou reduzir despesas para melhorar a capacidade de poupança"%string
             (HealthScore.recommendations h))
    /\ (limits_of_month db current_date = [] ->
        ScoreFactors.spending_discipline (HealthScore.score_factors h) = 15%Q
        /\ (HealthScore.total_score h <= 85)%Q
        /\ In "Revise e ajuste seus limites de gastos por categoria"%string
             (HealthScore.recommendations h)
        /\ ~ In "Continue mantendo seus bons hábitos financeiros!"%string
               (HealthScore.recommendations h)).
Proof.
  destruct (SimpleScoreFacts.calculate_health_score_shape db current_date)
    as (pb & sv & sd & idv & level & recs & E & Epb & Vsv & Zsv & Bsd & Zsd & Vidv
        & Elevel & Erecs).
  eexists. split; [exact E|].
  cbn [HealthScore.total_score HealthScore.score_factors HealthScore.health_level
       HealthScore.recommendations ScoreFactors.spending_discipline].
  assert (Esum : (Py.sum [pb; sv; sd; idv] == pb + sv + sd + idv)%Q)
    by (unfold Py.sum; simpl; ring).
  assert (Bpb : pb = 0%Q \/ pb = 25%Q).
  { rewrite Epb. destruct (Py.gtb _ 0); auto. }
  split; [unfold factor_sum; simpl; rewrite Esum; ring|].
  split.
  { rewrite Erecs. cbv zeta.
    destruct (Py.eqb pb 0), (Py.ltb sv 20), (Py.ltb sd 20), (Py.ltb idv 10);
      discriminate. }
  split.
  { rewrite Elevel.
    destruct (Py.geb _ 80); [discriminate|].
    destruct (Py.geb _ 60); [discriminate|].
    destruct (Py.geb _ 40); discriminate. }
  split.
  - intros B. specialize (Zsv B). subst sv.
    assert (H0 : pb = 0%Q).
    { rewrite Epb. replace (Py.gtb _ 0) with false; [reflexivity|].
      symmetry. apply PyFacts.ltb_ge. exact B. }
    clear Epb Bpb. subst pb.
    assert (S45 : (Py.sum [0; 0; sd; idv] <= 45)%Q).
    { rewrite Esum. destruct Vidv as [-> | [-> | [-> | ->]]]; lra. }
    split; [exact S45|]. split.
    + rewrite Elevel.
      replace (Py.geb (Py.sum [0%Q; 0%Q; sd; idv]) 80) with false
        by (symmetry; unfold Py.geb; apply PyFacts.leb_gt; lra).
      replace (Py.geb (Py.sum [0%Q; 0%Q; sd; idv]) 60) with false
        by (symmetry; unfold Py.geb; apply PyFacts.leb_gt; lra).
      destruct (Py.geb _ 40); auto.
    + rewrite Erecs. cbv zeta.
      change (Py.eqb 0 0) with true. change (Py.ltb 0 20) with true.
      destruct (Py.ltb sd 20), (Py.ltb idv 10); simpl; auto.
  - intros L. specialize (Zsd L). subst sd.
    split; [reflexivity|]. split.
    + rewrite Esum.
      destruct Bpb as [->| ->]; destruct Vsv as [-> | [-> | [-> | ->]]];
        destruct Vidv as [-> | [-> | [-> | ->]]]; lra.
    + rewrite Erecs. cbv zeta. change (Py.ltb 15 20) with true.
      destruct (Py.eqb pb 0), (Py.ltb sv 20), (Py.ltb idv 10); simpl;
        (split; [auto 6 | intuition discriminate]).
Qed.

Module FullScoreFacts.

(** [round(x, 1)] moves [x] by at most a twentieth. *)
Lemma round1_close (x : Q) :
  (x - (1 # 20) <= Py.round1 x <= x + (1 # 20))%Q.
Proof.
  unfold Py.round1. set (t := (x * 10)%Q). set (f := Qfloor t).
  pose proof (Qfloor_le t) as F0. pose proof (Qlt_floor t) as F1.
  fold f in F0, F1. rewrite inject_Z_plus in F1.
  change (inject_Z 1) with 1%Q in F1.
  assert (N : forall n : Z,
             (t - (1 # 2) <= inject_Z n <= t + (1 # 2))%Q ->
             (x - (1 # 20) <= inject_Z n / 10 <= x + (1 # 20))%Q).
  { intros n [N0 N1]. unfold t in N0, N1. split.
    - apply Qle_shift_div_l; [reflexivity | lra].
    - apply Qle_shift_div_r; [reflexivity | lra]. }
  apply N.
  destruct (Py.ltb (t - inject_Z f) (1 # 2)) eqn:E1.
  { apply PyFacts.ltb_lt in E1. lra. }
  apply PyFacts.ltb_ge in E1.
  destruct (Py.ltb (1 # 2) (t - inject_Z f)) eqn:E2.
  { rewrite inject_Z_plus. change (inject_Z 1) with 1%Q. lra. }
  apply PyFacts.ltb_ge in E2.
  destruct (Z.even f); [lra|].
  rewrite inject_Z_plus. change (inject_Z 1) with 1%Q. lra.
Qed.

(** The level of a score. *)
Lemma _get_health_level_cases (s : Q) :
  (FinancialAnalysis._get_health_level s = "Excelente"%string <-> (80 <= s)%Q)
  /\ (FinancialAnalysis._get_health_level s = "Boa"%string <-> (60 <= s < 80)%Q)
  /\ (FinancialAnalysis._get_health_level s = "Regular"%string <-> (40 <= s < 60)%Q)
  /\ (FinancialAnalysis._get_health_level s = "Ruim"%string <-> (20 <= s < 40)%Q)
  /\ (FinancialAnalysis._get_health_level s = "Crítica"%string <-> (s < 20)%Q).
Proof.
  unfold FinancialAnalysis._get_health_level, Py.geb.
  destruct (Py.leb 80 s) eqn:E80;
    [apply PyFacts.leb_le in E80 | apply PyFacts.leb_gt in E80].
  { repeat split; intros; try discriminate; try lra. }
  destruct (Py.leb 60 s) eqn:E60;
    [apply PyFacts.leb_le in E60 | apply PyFacts.leb_gt in E60].
  { repeat split; intros; try discriminate; try lra. }
  destruct (Py.leb 40 s) eqn:E40;
    [apply PyFacts.leb_le in E40 | apply PyFacts.leb_gt in E40].
  { repeat split; intros; try discriminate; try lra. }
  destruct (Py.leb 20 s) eqn:E20;
    [apply PyFacts.leb_le in E20 | apply PyFacts.leb_gt in E20].
  { repeat split; intros; try discriminate; try lra. }
  repeat split; intros; try discriminate; try lra.
Qed.

(** The score of [financial_analysis.py], factor by factor. *)
Lemma get_financial_health_score_shape db cd :
  exists pb sd sv idv status,
    FinancialAnalysis.get_financial_health_score db cd
    = Ok {| HealthScore.total_score := Py.round1 (Py.sum [pb; sd; sv; idv]);
            HealthScore.score_factors :=
              {| ScoreFactors.positive_balance := pb;
                 ScoreFactors.spending_discipline := sd;
                 ScoreFactors.savings_capacity := sv;
                 ScoreFactors.income_diversification := idv |};
            HealthScore.health_level :=
              FinancialAnalysis._get_health_level (Py.sum [pb; sd; sv; idv]);
            HealthScore.recommendations :=
              FinancialAnalysis._get_health_recommendations
                {| ScoreFactors.positive_balance := pb;
                   ScoreFactors.spending_discipline := sd;
                   ScoreFactors.savings_capacity := sv;
                   ScoreFactors.income_diversification := idv |} |}
    /\ FinancialAnalysis.get_spending_limits_status db cd = Ok status
    /\ sd = match status with
            | _ :: _ =>
                Py.max 0
                  (25 - Py.sum (map (fun _ => 1%Q)
                                  (List.filter FinancialAnalysis.LimitStatus.is_over_limit
                                     status)) * 10)%Q
            | [] => 15%Q
            end.
Proof.
  unfold FinancialAnalysis.get_financial_health_score. cbv zeta.
  destruct (for_append_returns (FinancialAnalysis.limit_status db cd)
              (Query.limits_of db (Date.month_key (FinancialAnalysis.current_year cd)
                                     (FinancialAnalysis.current_month cd)))
              (fun x _ => ScoreFacts.limit_status_returns db cd x) []) as (limits & El).
  unfold FinancialAnalysis.get_spending_limits_status. rewrite El. cbn [rbind].
  destruct (AnalysisFacts.calculate_savings_capacity_returns db cd 1) as (sc & Es).
  rewrite Es. cbn [rbind].
  assert (Hsc : exists sv,
             (if Dict.truthy sc
              then match Dict.values sc with
                   | first :: _ =>
                       if Py.gtb (SavingsEntry.projected_savings first) 0
                       then Ok (Py.min 25 (SavingsEntry.projected_savings first / 1000 * 5))%Q
                       else Ok 0%Q
                   | [] => Raise IndexError
                   end
              else Ok 0%Q) = Ok sv).
  { destruct sc as [|[k first] sc]; simpl.
    - exists 0%Q. reflexivity.
    - destruct (Py.gtb (SavingsEntry.projected_savings first) 0);
        eexists; reflexivity. }
  destruct Hsc as (sv & ->). cbn [rbind].
  do 5 eexists. split; [reflexivity|]. split; reflexivity.
Qed.

End FullScoreFacts.

(** X17. The health score of [financial_analysis.py]: the level is taken
    from the sum of the four factors before that sum is rounded, so
    Excelente means a sum of at least 80, Boa one from 60, Regular one
    from 40, Ruim one from 20 and Crítica one below 20, while the total
    reported is the sum rounded to one decimal, at most a twentieth away
    from it. The list of recommendations is never empty. Without spending
    limits for the month the discipline factor is 15 and the advice to
    revise the limits is not given. *)
Theorem full_score_level_before_rounding (db : Store) (current_date : date) :
  exists h,
    FinancialAnalysis.get_financial_health_score db current_date = Ok h
    /\ (let s := factor_sum (HealthScore.score_factors h) in
        (s - (1 # 20) <= HealthScore.total_score h <= s + (1 # 20))%Q
        /\ (HealthScore.health_level h = "Excelente"%string <-> (80 <= s)%Q)
        /\ (HealthScore.health_level h = "Boa"%string <-> (60 <= s < 80)%Q)
        /\ (HealthScore.health_level h = "Regular"%string <-> (40 <= s < 60)%Q)
        /\ (HealthScore.health_level h = "Ruim"%string <-> (20 <= s < 40)%Q)
        /\ (HealthScore.health_level h = "Crítica"%string <-> (s < 20)%Q))
    /\ HealthScore.recommendations h <> []
    /\ (limits_of_month db current_date = [] ->
        ScoreFactors.spending_discipline (HealthScore.score_factors h) = 15%Q
        /\ ~ In "Revise e ajuste seus limites de gastos por categoria"%string
               (HealthScore.recommendations h)).
Proof.
  destruct (FullScoreFacts.get_financial_health_score_shape db current_date)
    as (pb & sd & sv & idv & status & E & Es & Esd).
  eexists. split; [exact E|].
  cbn [HealthScore.total_score HealthScore.score_factors HealthScore.health_level
       HealthScore.recommendations ScoreFactors.spending_discipline].
  assert (Esum : (Py.sum [pb; sd; sv; idv] == pb + sd + sv + idv)%Q)
    by (unfold Py.sum; simpl; ring).
  split; [|split].
  - cbv zeta. unfold factor_sum.
    cbn [ScoreFactors.positive_balance ScoreFactors.spending_discipline
         ScoreFactors.savings_capacity ScoreFactors.income_diversification].
    rewrite <- Esum.
    split; [apply FullScoreFacts.round1_close|].
    apply FullScoreFacts._get_health_level_cases.
  - unfold FinancialAnalysis._get_health_recommendations. cbv zeta.
    cbn [ScoreFactors.positive_balance ScoreFactors.spending_discipline
         ScoreFactors.savings_capacity ScoreFactors.income_diversification].
    destruct (Py.ltb pb 15), (Py.ltb sd 15), (Py.ltb sv 10), (Py.ltb idv 15);
      discriminate.
  - intros L.
    assert (status = []).
    { unfold FinancialAnalysis.get_spending_limits_status in Es.
      unfold limits_of_month in L.
      unfold FinancialAnalysis.current_year, FinancialAnalysis.current_month in Es.
      rewrite L in Es. simpl in Es. injection Es as <-. reflexivity. }
    subst status. subst sd. split; [reflexivity|].
    unfold FinancialAnalysis._get_health_recommendations. cbv zeta.
    cbn [ScoreFactors.positive_balance ScoreFactors.spending_discipline
         ScoreFactors.savings_capacity ScoreFactors.income_diversification].
    change (Py.ltb 15 15) with false.
    destruct (Py.ltb pb 15), (Py.ltb sv 10), (Py.ltb idv 15); simpl;
      intuition discriminate.
Qed.

Module LimitCountFacts.

Lemma max_compat (a b b' : Q) : (b == b')%Q -> (Py.max a b == Py.max a b')%Q.
Proof.
  intros E. unfold Py.max, Py.gtb.
  destruct (Py.ltb a b) eqn:E1, (Py.ltb a b') eqn:E2;
    try (apply PyFacts.ltb_lt in E1); try (apply PyFacts.ltb_lt in E2);
    try (apply PyFacts.ltb_ge in E1); try (apply PyFacts.ltb_ge in E2);
    lra.
Qed.

Lemma flags_counted db cd limits status :
  Forall2 (limit_status_ok db cd) limits status ->
  length (List.filter FinancialAnalysis.LimitStatus.is_over_limit status)
  = length (List.filter (over_limit db cd) limits).
Proof.
  induction 1 as [|limit st limits status [_ O] F IH]; [reflexivity|].
  simpl. unfold over_limit at 1.
  destruct (Py.gtb _ _) eqn:G.
  - apply PyFacts.ltb_lt in G. apply O in G. rewrite G. simpl. rewrite IH.
    reflexivity.
  - destruct (Bool.bool_dec (FinancialAnalysis.LimitStatus.is_over_limit st) true)
      as [S|S].
    + apply O in S. apply PyFacts.ltb_lt in S. unfold Py.gtb in G. congruence.
    + apply not_true_is_false in S. rewrite S. exact IH.
Qed.

Lemma alerts_counted db cd limits news :
  Forall2 (limit_alerts_ok db cd) limits news ->
  length (exceeded_alerts (concat news))
  = length (List.filter (over_limit db cd) limits)
  /\ (length (concat news) <= length limits)%nat.
Proof.
  induction 1 as [|limit new limits news (L & Ex & _) F [IH1 IH2]];
    [split; reflexivity|].
  simpl concat. unfold exceeded_alerts in *. rewrite List.filter_app, !length_app.
  simpl List.filter. unfold over_limit at 1.
  destruct new as [|a [|b new]]; [| |simpl in L; lia].
  - simpl. destruct (Py.gtb _ _) eqn:G.
    + apply PyFacts.ltb_lt in G. apply Ex in G. discriminate.
    + split; [exact IH1 | lia].
  - simpl. simpl in Ex.
    destruct (Py.gtb _ _) eqn:G.
    + apply PyFacts.ltb_lt in G. apply Ex in G.
      destruct (Alert.alert_type a); try discriminate. simpl.
      split; [rewrite IH1; reflexivity | lia].
    + assert (N : Alert.alert_type a <> SPENDING_LIMIT_EXCEEDED).
      { intros T. rewrite T in Ex.
        assert (H : Py.gtb (Query.current_spent db cd (SpendingLimit.category_id limit))
                      (SpendingLimit.monthly_limit limit) = true)
          by (apply PyFacts.ltb_lt; apply Ex; reflexivity).
        congruence. }
      destruct (Alert.alert_type a); try contradiction; simpl;
        (split; [exact IH1 | lia]).
Qed.

End LimitCountFacts.

(** X18. The analyzer and the alert system agree on the spending limits
    of a month. Run for the same date, the status list has one entry for
    every limit of the month, the pass appends at most one alert for each,
    and the limits the analyzer flags as over are as many as the
    SPENDING_LIMIT_EXCEEDED alerts of the pass. When there are limits, the
    discipline factor of the health score is 25 minus 10 for every such
    alert, and not less than 0. *)
Theorem over_limit_flags_match_exceeded_alerts (db : Store) (current_date : date)
    (utcnow : nat -> Z) :
  exists new status h,
    AlertSystem._check_spending_limits db current_date utcnow [] = Ok new
    /\ FinancialAnalysis.get_spending_limits_status db current_date = Ok status
    /\ FinancialAnalysis.get_financial_health_score db current_date = Ok h
    /\ length status = length (limits_of_month db current_date)
    /\ (length new <= length status)%nat
    /\ length (List.filter FinancialAnalysis.LimitStatus.is_over_limit status)
       = length (exceeded_alerts new)
    /\ (status <> [] ->
        (ScoreFactors.spending_discipline (HealthScore.score_factors h)
         == Py.max 0 (25 - inject_Z (Z.of_nat (length (exceeded_alerts new))) * 10))%Q).
Proof.
  set (limits := limits_of_month db current_date).
  destruct (for_each_appends (AlertSystem.check_limit db current_date utcnow)
              (limit_alerts_ok db current_date) limits) with (s := @nil Alert.t)
    as (news & En & Fn).
  { intros s x _. apply check_limit_outcome. }
  destruct (for_append_forall2 (FinancialAnalysis.limit_status db current_date) limits)
    with (out := @nil FinancialAnalysis.LimitStatus.t) as (status & Es & Fs).
  { intros x _. destruct (limit_status_outcome db current_date x) as (st & E & _).
    exists st. exact E. }
  assert (Fs' : Forall2 (limit_status_ok db current_date) limits status).
  { eapply Forall2_impl; [exact Fs|]. intros limit st Hst. cbv beta in Hst.
    destruct (limit_status_outcome db current_date limit) as (st' & E & O).
    rewrite Hst in E. injection E as <-. exact O. }
  destruct (FullScoreFacts.get_financial_health_score_shape db current_date)
    as (pb & sd & sv & idv & status' & Eh & Es' & Esd).
  assert (Estatus : FinancialAnalysis.get_spending_limits_status db current_date
                    = Ok status) by exact Es.
  rewrite Estatus in Es'. injection Es' as <-.
  destruct (LimitCountFacts.alerts_counted db current_date limits news Fn)
    as [C1 C2].
  pose proof (LimitCountFacts.flags_counted db current_date limits status Fs') as C3.
  exists (concat news), status. eexists.
  split; [exact En|]. split; [exact Estatus|]. split; [exact Eh|].
  assert (Len : length status = length limits)
    by (symmetry; eapply Forall2_length; exact Fs').
  split; [exact Len|]. split; [lia|]. split; [congruence|].
  intros N. cbn [HealthScore.score_factors ScoreFactors.spending_discipline].
  rewrite Esd. destruct status as [|st0 sts]; [contradiction|].
  apply LimitCountFacts.max_compat.
  rewrite ScoreFacts.sum_ones. rewrite C3, <- C1. reflexivity.
Qed.

(** ** The projections of [financial_analysis_simple.py] *)

Module SimpleProjectionFacts.






End SimpleProjectionFacts.




(** ** The monthly summaries of the two analyzers *)

Module SummaryFacts.

Lemma sum_from (l : list Q) (acc : Q) :
  (fold_left Qplus l acc == acc + Py.sum l)%Q.
Proof.
  unfold Py.sum. revert acc. induction l as [|a l IH]; intros acc; simpl.
  - ring.
  - rewrite (IH (acc + a)%Q), (IH (0 + a)%Q). ring.
Qed.

Lemma sum_cons (a : Q) (l : list Q) : (Py.sum (a :: l) == a + Py.sum l)%Q.
Proof. unfold Py.sum at 1. simpl. rewrite sum_from. ring. Qed.

Lemma sum_app (l1 l2 : list Q) : (Py.sum (l1 ++ l2) == Py.sum l1 + Py.sum l2)%Q.
Proof.
  induction l1 as [|a l1 IH]; simpl.
  - change (Py.sum []) with 0%Q. ring.
  - rewrite !sum_cons, IH. ring.
Qed.

(** [total or 0.0] is the sum, also over no rows. *)
Lemma or_zero_sum (xs : list Q) : (Py.or_zero (Sql.sum xs) == Py.sum xs)%Q.
Proof.
  destruct xs as [|x xs]; [reflexivity|]. unfold Sql.sum, Py.or_zero.
  destruct (Py.eqb (Py.sum (x :: xs)) 0) eqn:E; [|reflexivity].
  apply PyFacts.eqb_eq in E. symmetry. exact E.
Qed.

Lemma float_or_zero_or_zero (o : option Q) : Py.float_or_zero o = Py.or_zero o.
Proof.
  destruct o as [q|]; [|reflexivity]. unfold Py.float_or_zero, Py.or_zero, Py.truthy.
  destruct (Py.eqb q 0); reflexivity.
Qed.

(** The rows of the grouped query, for categories of different names,
    make a dictionary with one entry per row. *)
Lemma of_rows_distinct {V : Type} (rows : list (string * V)) :
  List.NoDup (map fst rows) -> Dict.of_rows rows = rows.
Proof.
  unfold Dict.of_rows. intros N.
  assert (G : forall d, (forall k, In k (map fst rows) -> ~ In k (Dict.keys d)) ->
                        fold_left (fun d kv => Dict.set d (fst kv) (snd kv)) rows d
                        = d ++ rows).
  { induction rows as [|[k v] rows IH]; intros d Hd; simpl.
    - rewrite app_nil_r. reflexivity.
    - simpl in N. apply NoDup_cons_iff in N. destruct N as [N0 N].
      rewrite DictFacts.set_fresh by (apply Hd; left; reflexivity).
      rewrite IH; [rewrite <- app_assoc; reflexivity | exact N |].
      intros k' Hk'. unfold Dict.keys. rewrite map_app, in_app_iff. simpl.
      intros [H|[H|[]]].
      + apply (Hd k'); [right; exact Hk' | exact H].
      + subst k'. contradiction. }
  apply (G []). intros k _ [].
Qed.

Section Grouped.

Variable A : Type.
Variable name : A -> string.
Variable total : A -> option Q.

Lemma rows_names (cs : list A) (k : string) :
  In k (map fst (rows_of name total cs)) -> In k (map name cs).
Proof.
  induction cs as [|c cs IH]; simpl; [auto|].
  rewrite map_app, in_app_iff. intros [H|H]; [|right; apply IH; exact H].
  destruct (total c); simpl in H; [|contradiction].
  destruct H as [H|[]]. left. exact H.
Qed.

Lemma rows_distinct (cs : list A) :
  List.NoDup (map name cs) -> List.NoDup (map fst (rows_of name total cs)).
Proof.
  induction cs as [|c cs IH]; simpl; intros N; [constructor|].
  apply NoDup_cons_iff in N. destruct N as [N0 N]. rewrite map_app.
  destruct (total c); simpl; [|apply IH; exact N].
  constructor; [|apply IH; exact N].
  intros H. apply N0. apply rows_names. exact H.
Qed.

Lemma rows_sum (cs : list A) :
  (Py.sum (map snd (rows_of name total cs))
   == Py.sum (map (fun c => match total c with Some t => t | None => 0 end) cs))%Q.
Proof.
  induction cs as [|c cs IH]; simpl; [reflexivity|].
  rewrite map_app, sum_app, sum_cons, IH.
  destruct (total c); simpl.
  - rewrite sum_cons. change (Py.sum []) with 0%Q. ring.
  - change (Py.sum []) with 0%Q. ring.
Qed.

End Grouped.

(** A key that is the id of exactly one category. *)
Lemma one_category (cs : list Category.t) (k : Z) (a : Q) :
  List.NoDup (map Category.id cs) -> In k (map Category.id cs) ->
  (Py.sum (map (fun c : Category.t => if k =? Category.id c then a else 0) cs) == a)%Q.
Proof.
  induction cs as [|c cs IH]; simpl; intros N H; [contradiction|].
  apply NoDup_cons_iff in N. destruct N as [N0 N]. rewrite sum_cons.
  destruct (k =? Category.id c) eqn:E.
  - apply Z.eqb_eq in E. subst k.
    assert (Z0 : (Py.sum (map (fun c0 : Category.t =>
                                 if Category.id c =? Category.id c0 then a else 0) cs)
                  == 0)%Q).
    { clear IH H N. induction cs as [|c1 cs IH]; [reflexivity|].
      simpl. rewrite sum_cons.
      destruct (Category.id c =? Category.id c1) eqn:E1.
      - apply Z.eqb_eq in E1. exfalso. apply N0. left. symmetry. exact E1.
      - rewrite IH; [ring|]. intros H. apply N0. right. exact H. }
    rewrite Z0. ring.
  - apply Z.eqb_neq in E. destruct H as [H|H]; [congruence|].
    rewrite (IH N H). ring.
Qed.

Lemma sum_map_plus {A : Type} (f g : A -> Q) (l : list A) :
  (Py.sum (map (fun c => f c + g c) l) == Py.sum (map f l) + Py.sum (map g l))%Q.
Proof.
  induction l as [|c l IH]; simpl; [reflexivity|].
  rewrite !sum_cons, IH. ring.
Qed.

Lemma sum_map_ext {A : Type} (f g : A -> Q) (l : list A) :
  (forall c, (f c == g c)%Q) -> (Py.sum (map f l) == Py.sum (map g l))%Q.
Proof.
  intros H. induction l as [|c l IH]; simpl; [reflexivity|].
  rewrite !sum_cons, IH, (H c). reflexivity.
Qed.

Lemma sum_map_zero {A : Type} (l : list A) :
  (Py.sum (map (fun _ => 0%Q) l) == 0)%Q.
Proof.
  induction l as [|c l IH]; simpl; [reflexivity|]. rewrite sum_cons, IH. ring.
Qed.

(** Adding up by category adds up everything, when every transaction
    belongs to exactly one category. *)
Lemma by_category_total (cs : list Category.t) (p : Transaction.t -> bool)
    (ts : list Transaction.t) :
  List.NoDup (map Category.id cs) ->
  Forall (fun x => In (Transaction.category_id x) (map Category.id cs)) ts ->
  (Py.sum (map (fun c : Category.t =>
                  Py.sum (Query.amounts
                            (List.filter
                               (fun x => (Transaction.category_id x =? Category.id c)
                                         && p x) ts))) cs)
   == Py.sum (Query.amounts (List.filter p ts)))%Q.
Proof.
  intros N F. induction F as [|x ts Hx F IH]; simpl.
  - apply sum_map_zero.
  - rewrite (sum_map_ext _
               (fun c : Category.t =>
                  (if Transaction.category_id x =? Category.id c
                   then (if p x then Transaction.amount x else 0%Q) else 0%Q)
                  + Py.sum (Query.amounts
                              (List.filter
                                 (fun x => (Transaction.category_id x =? Category.id c)
                                           && p x) ts)))%Q).
    + rewrite sum_map_plus, IH, (one_category cs _ _ N Hx).
      destruct (p x); simpl; [rewrite sum_cons; reflexivity | ring].
    + intros c. destruct (Transaction.category_id x =? Category.id c), (p x); simpl;
        try rewrite sum_cons; ring.
Qed.

End SummaryFacts.

(** X21. When the categories have different ids and different names and
    every transaction belongs to a category of the table, the summaries
    of the two analyzers agree on the month: the total the one adds up
    category by category is the total the other adds up over all
    expenses, the income is the same, and so is the partial balance. *)
Theorem analyzers_agree_on_the_month_totals (db : Store) (current_date : date) :
  List.NoDup (map Category.id (categories db)) ->
  List.NoDup (map Category.name (categories db)) ->
  Forall (fun x => In (Transaction.category_id x) (map Category.id (categories db)))
    (transactions db) ->
  let full := FinancialAnalysis.get_current_month_summary db current_date in
  let simple := FinancialAnalysisSimple.get_current_month_summary db current_date in
  Summary.total_income full = Summary.total_income simple
  /\ (Summary.total_expenses full == Summary.total_expenses simple)%Q
  /\ (Summary.partial_balance full == Summary.partial_balance simple)%Q.
Proof.
  intros Nid Nname F. cbv zeta.
  unfold FinancialAnalysis.get_current_month_summary,
    FinancialAnalysisSimple.get_current_month_summary. cbv zeta.
  cbn [Summary.total_income Summary.total_expenses Summary.partial_balance].
  unfold FinancialAnalysis.current_year, FinancialAnalysis.current_month.
  set (start := mkdate (year current_date) (month current_date) 1).
  assert (Ei : Py.float_or_zero
                 (Query.sum_where db (Query.in_period start current_date INCOME))
               = Py.or_zero
                   (Query.sum_where db (Query.in_period start current_date INCOME)))
    by apply SummaryFacts.float_or_zero_or_zero.
  assert (Ee : (Py.sum
                  (Dict.values
                     (Dict.of_rows
                        (flat_map
                           (fun c : Category.t =>
                              match Query.sum_where db
                                      (Query.in_period_of (Category.id c) start
                                         current_date EXPENSE) with
                              | Some total => [(Category.name c, total)]
                              | None => []
                              end) (categories db))))
                == Py.or_zero
                     (Query.sum_where db (Query.in_period start current_date EXPENSE)))%Q).
  { change (flat_map _ (categories db))
      with (rows_of Category.name
              (fun c => Query.sum_where db
                          (Query.in_period_of (Category.id c) start current_date EXPENSE))
              (categories db)).
    rewrite SummaryFacts.of_rows_distinct
      by (apply SummaryFacts.rows_distinct; exact Nname).
    unfold Dict.values. rewrite SummaryFacts.rows_sum.
    unfold Query.sum_where at 2. rewrite SummaryFacts.or_zero_sum.
    rewrite <- (SummaryFacts.by_category_total (categories db)
                  (Query.in_period start current_date EXPENSE) (transactions db) Nid F).
    apply SummaryFacts.sum_map_ext. intros c.
    unfold Query.sum_where, Query.in_period_of.
    destruct (Query.amounts _) as [|a l] eqn:E; [reflexivity|].
    reflexivity. }
  split; [exact Ei|]. split; [exact Ee|].
  rewrite Ei, Ee. reflexivity.
Qed.

Lemma analyzers_agree_on_the_month_totals_witness :
  (Summary.total_expenses
     (FinancialAnalysis.get_current_month_summary ledger_limit_exceeded
        (mkdate 2025 1 15))
   == Summary.total_expenses
        (FinancialAnalysisSimple.get_current_month_summary ledger_limit_exceeded
           (mkdate 2025 1 15)))%Q.
Proof.
  assert (Nid : List.NoDup (map Category.id (categories ledger_limit_exceeded))).
  { simpl. repeat constructor; simpl; intuition discriminate. }
  assert (Nname : List.NoDup (map Category.name (categories ledger_limit_exceeded))).
  { simpl. repeat constructor; simpl; intuition discriminate. }
  assert (F : Forall (fun x => In (Transaction.category_id x)
                                 (map Category.id (categories ledger_limit_exceeded)))
                (transactions ledger_limit_exceeded)).
  { repeat constructor; simpl; auto. }
  apply (analyzers_agree_on_the_month_totals ledger_limit_exceeded (mkdate 2025 1 15)
           Nid Nname F).
Defined.

(** Without different names the totals differ: of two categories of one
    name the dictionary of the one analyzer keeps one total only, while
    the other analyzer adds up all expenses. *)
Example same_name_hides_expenses :
  (Summary.total_expenses
     (FinancialAnalysis.get_current_month_summary ledger_same_name (mkdate 2025 1 15))
   < Summary.total_expenses
       (FinancialAnalysisSimple.get_current_month_summary ledger_same_name
          (mkdate 2025 1 15)))%Q
  /\ (Summary.total_expenses
        (FinancialAnalysisSimple.get_current_month_summary ledger_same_name
           (mkdate 2025 1 15)) == 300)%Q.
Proof. split; reflexivity. Qed.

(** ** Ledgers without negative amounts *)

Module SignFacts.




Section Ledger.

Variable db : Store.
Variable cd : date.
Hypothesis transactions_nonneg :
  Forall (fun x => (0 <= Transaction.amount x)%Q) (transactions db).
Hypothesis recurring_nonneg :
  Forall (fun r => (0 <= RecurringTransaction.amount r)%Q)
    (recurring_transactions db).




End Ledger.

End SignFacts.

Module SavingsFacts.


End SavingsFacts.



(** ** The figures the alerts carry *)

(** X23. The figures of the alerts on a spending limit. An alert for an
    exceeded limit carries a positive excess, spent minus limit, and a
    percentage above 100 when the limit is positive and of 0 when it is
    not. A warning is only given for a positive limit; it carries a
    remainder, limit minus spent, that is not negative, and a percentage
    from 80 to 100. *)
Theorem limit_alert_figures (db : Store) (current_date : date) (utcnow : nat -> Z)
    (alerts : list Alert.t) (limit : SpendingLimit.t) :
  let spent :=
    Query.current_spent db current_date (SpendingLimit.category_id limit) in
  let lim := SpendingLimit.monthly_limit limit in
  exists new,
    AlertSystem.check_limit db current_date utcnow alerts limit = Ok (alerts ++ new)
    /\ Forall (fun a =>
                 (Alert.alert_type a = SPENDING_LIMIT_EXCEEDED ->
                  data_float a "excess" (fun x => x = (spent - lim)%Q /\ (0 < x)%Q)
                  /\ data_float a "percentage"
                       (fun p => ((0 < lim)%Q -> (100 < p)%Q)
                                 /\ ((lim <= 0)%Q -> p = 0%Q)))
                 /\ (Alert.alert_type a = SPENDING_LIMIT_WARNING ->
                     (0 < lim)%Q
                     /\ data_float a "remaining"
                          (fun x => x = (lim - spent)%Q /\ (0 <= x)%Q)
                     /\ data_float a "percentage" (fun p => (80 <= p <= 100)%Q)))
         new.
Proof.
  intros spent lim. unfold AlertSystem.check_limit. fold spent. fold lim.
  rewrite (percentage_of_returns spent lim), percentage_of_value. cbn [rbind].
  unfold AlertSystem.append.
  destruct (Py.gtb spent lim) eqn:G1.
  - apply PyFacts.ltb_lt in G1.
    eexists. split; [reflexivity|]. constructor; [|constructor].
    split; [|discriminate]. intros _. split.
    + eexists. split; [reflexivity|]. split; [reflexivity | lra].
    + eexists. split; [reflexivity|].
      destruct (Py.gtb lim 0) eqn:G0.
      * apply PyFacts.ltb_lt in G0. split; [|intros H; lra]. intros _.
        assert (1 < spent / lim)%Q by (apply Qlt_shift_div_l; [exact G0 | lra]).
        lra.
      * apply PyFacts.ltb_ge in G0. split; [intros H; lra | reflexivity].
  - apply PyFacts.ltb_ge in G1.
    destruct (Py.geb (if Py.gtb lim 0 then (spent / lim * 100)%Q else 0%Q) 80) eqn:G2.
    + apply PyFacts.leb_le in G2.
      destruct (Py.gtb lim 0) eqn:G0; [|lra].
      apply PyFacts.ltb_lt in G0.
      eexists. split; [reflexivity|]. constructor; [|constructor].
      split; [discriminate|]. intros _. split; [exact G0|]. split.
      * eexists. split; [reflexivity|]. split; [reflexivity | lra].
      * eexists. split; [reflexivity|]. split; [exact G2|].
        assert (spent / lim <= 1)%Q by (apply Qle_shift_div_r; [exact G0 | lra]).
        lra.
    + exists []. rewrite app_nil_r. split; [reflexivity | constructor].
Qed.

Module DeficitFacts.



End DeficitFacts.


(** ** The filters of [GET /alerts] and the values of [GET /alerts/types] *)

Module FilterFacts.

(** The priority of an alert of a pass is the priority of its rule. *)
Lemma pass_by_rule (db : Store) (current_date today : date) (utcnow : nat -> Z) :
  exists alerts,
    AlertSystem.generate_all_alerts db current_date today utcnow = Ok alerts
    /\ Forall (fun a => Alert.priority a = rule_priority (Alert.alert_type a)) alerts.
Proof.
  destruct (RuleFacts.generate_all_alerts_parts db current_date today utcnow)
    as (n1 & n2 & n3 & n4 & n5 & n6 & sc & E & F1 & F2 & _ & E3 & F4 & F5 & F6).
  eexists. split; [exact E|].
  repeat (apply Forall_app; split);
    try (eapply List.Forall_impl; [|eassumption]; intros a [_ H]; exact H).
  destruct (RuleFacts.balance_loop_spec utcnow (Dict.items sc) (n1 ++ n2))
    as (new & E' & C).
  rewrite E3 in E'. apply app_inv_head in E'. subst new.
  destruct C as [[-> _]|(a & _ & _ & _ & -> & _ & _ & _ & T & Pr & _)].
  - constructor.
  - constructor; [|constructor]. rewrite Pr, T. reflexivity.
Qed.

Lemma AlertType_eqb_eq (a b : AlertType) : AlertType_eqb a b = true <-> a = b.
Proof. destruct a, b; simpl; split; intros H; try reflexivity; discriminate. Qed.

(** [GET /alerts] with a priority and a type named by their values. *)
Lemma get_alerts_selected (db : Store) (current_date today : date)
    (utcnow : nat -> Z) (p : AlertPriority) (t : AlertType)
    (unread_only : option string) (state alerts : list Alert.t) :
  AlertSystem.generate_all_alerts db current_date today utcnow = Ok alerts ->
  let selected :=
    List.filter (fun alert => AlertType_eqb (Alert.alert_type alert) t)
      (List.filter (fun alert => AlertPriority_eqb (Alert.priority alert) p) alerts) in
  AlertsRoutes.get_alerts db current_date today utcnow
    (AlertsRoutes.mkArgs (Some (AlertPriority_value p)) (Some (AlertType_value t))
       unread_only) state
  = (AlertsRoutes.ok
       (AlertsRoutes.AlertsData (map AlertSystem.to_dict selected)
          (Z.of_nat (length selected)) (AlertSystem.get_alerts_summary alerts)),
     alerts).
Proof.
  intros E selected.
  destruct (FreshFacts.generate_all_alerts_keeps db current_date today utcnow
              (fun a => Alert.is_read a = false)) as (alerts' & E' & F);
    [reflexivity|].
  rewrite E in E'. injection E' as <-.
  unfold AlertsRoutes.get_alerts, AlertsRoutes.regenerate. rewrite E. cbv zeta.
  cbn [AlertsRoutes.priority AlertsRoutes.type AlertsRoutes.unread_only].
  assert (Gp : AlertsRoutes.given (Some (AlertPriority_value p))
               = Some (AlertPriority_value p)) by (destruct p; reflexivity).
  assert (Gt : AlertsRoutes.given (Some (AlertType_value t))
               = Some (AlertType_value t)) by (destruct t; reflexivity).
  rewrite Gp, Gt, RouteFacts.AlertPriority_of_value_value,
    RouteFacts.AlertType_of_value_value.
  fold selected.
  replace (if String.eqb _ "true"
           then List.filter (fun alert => negb (Alert.is_read alert)) selected
           else selected) with selected.
  - rewrite length_map. reflexivity.
  - destruct (String.eqb _ "true"); [|reflexivity].
    symmetry. apply RouteFacts.filter_unread_id.
    unfold selected. repeat apply RouteFacts.filter_keeps_unread. exact F.
Qed.

End FilterFacts.

(** X25. The filters of [GET /alerts]. The priority of every alert of a
    pass is the one its rule gives to its type. A request that names a
    priority and a type by their values is answered with 200 and lists
    the alerts of the fresh pass that have both, each listed with that
    priority and that type; it lists none when the priority is not the
    one of the rule of the type. *)
Theorem get_alerts_filters_select (db : Store) (current_date today : date)
    (utcnow : nat -> Z) (p : AlertPriority) (t : AlertType)
    (unread_only : option string) (state : list Alert.t) :
  exists alerts selected,
    AlertSystem.generate_all_alerts db current_date today utcnow = Ok alerts
    /\ Forall (fun a => Alert.priority a = rule_priority (Alert.alert_type a)) alerts
    /\ AlertsRoutes.get_alerts db current_date today utcnow
         (AlertsRoutes.mkArgs (Some (AlertPriority_value p)) (Some (AlertType_value t))
            unread_only) state
       = (AlertsRoutes.ok
            (AlertsRoutes.AlertsData (map AlertSystem.to_dict selected)
               (Z.of_nat (length selected)) (AlertSystem.get_alerts_summary alerts)),
          alerts)
    /\ (forall a, In a selected <->
                  In a alerts /\ Alert.priority a = p /\ Alert.alert_type a = t)
    /\ Forall (fun d => AlertDict.priority d = AlertPriority_value p
                        /\ AlertDict.type d = AlertType_value t)
         (map AlertSystem.to_dict selected)
    /\ (rule_priority t <> p -> selected = []).
Proof.
  destruct (FilterFacts.pass_by_rule db current_date today utcnow) as (alerts & E & R).
  set (selected :=
         List.filter (fun alert => AlertType_eqb (Alert.alert_type alert) t)
           (List.filter (fun alert => AlertPriority_eqb (Alert.priority alert) p) alerts)).
  assert (S : forall a, In a selected <->
                        In a alerts /\ Alert.priority a = p /\ Alert.alert_type a = t).
  { intros a. unfold selected. rewrite !filter_In.
    rewrite RouteFacts.AlertPriority_eqb_eq, FilterFacts.AlertType_eqb_eq. tauto. }
  exists alerts, selected. split; [exact E|]. split; [exact R|].
  split; [apply FilterFacts.get_alerts_selected; exact E|].
  split; [exact S|]. split.
  - apply Forall_map. apply List.Forall_forall. intros a Ha. apply S in Ha.
    destruct Ha as (_ & <- & <-). split; reflexivity.
  - intros N. destruct selected as [|a l] eqn:Es; [reflexivity|]. exfalso.
    assert (Ha : In a (a :: l)) by (left; reflexivity).
    apply S in Ha. destruct Ha as (Ia & Pa & Ta).
    rewrite List.Forall_forall in R. specialize (R a Ia). congruence.
Qed.

(** ** The recurring totals of the two analyzers *)

Module RecurringFacts.

Lemma simple_recurring_total_sum db ty :
  FinancialAnalysisSimple.recurring_total db ty
  = Py.sum (map RecurringTransaction.amount
              (List.filter (fun r =>
                              RecurringTransaction.is_active r
                              && TransactionType_eqb
                                   (RecurringTransaction.transaction_type r) ty)
                 (recurring_transactions db))).
Proof.
  unfold FinancialAnalysisSimple.recurring_total, Py.sum. cbv zeta.
  generalize (List.filter (fun r =>
                             RecurringTransaction.is_active r
                             && TransactionType_eqb
                                  (RecurringTransaction.transaction_type r) ty)
                (recurring_transactions db)).
  intros l. generalize 0%Q.
  induction l as [|r l IH]; intros acc; simpl; [reflexivity | apply IH].
Qed.

Lemma filter_twice {A : Type} (p q : A -> bool) (l : list A) :
  List.filter q (List.filter p l) = List.filter (fun x => p x && q x) l.
Proof.
  induction l as [|x l IH]; simpl; [reflexivity|].
  destruct (p x); simpl; [destruct (q x)|]; rewrite IH; reflexivity.
Qed.

(** Of amounts that are not negative, a narrower selection adds up to
    no more than a wider one. *)
Lemma narrower_sum (p q : RecurringTransaction.t -> bool)
    (rs : list RecurringTransaction.t) :
  Forall (fun r => (0 <= RecurringTransaction.amount r)%Q) rs ->
  (forall r, p r = true -> q r = true) ->
  (Py.sum (map RecurringTransaction.amount (List.filter p rs))
   <= Py.sum (map RecurringTransaction.amount (List.filter q rs)))%Q.
Proof.
  intros F H. induction F as [|r rs Hr F IH]; simpl; [apply Qle_refl|].
  destruct (p r) eqn:P.
  - rewrite (H r P). simpl. rewrite !SummaryFacts.sum_cons. lra.
  - destruct (q r); simpl; [rewrite SummaryFacts.sum_cons; lra | exact IH].
Qed.

Lemma same_sum (p q : RecurringTransaction.t -> bool)
    (rs : list RecurringTransaction.t) :
  Forall (fun r => p r = q r) rs ->
  Py.sum (map RecurringTransaction.amount (List.filter p rs))
  = Py.sum (map RecurringTransaction.amount (List.filter q rs)).
Proof.
  intros F. do 2 f_equal. induction F as [|r rs Hr F IH]; simpl; [reflexivity|].
  rewrite Hr, IH. reflexivity.
Qed.

End RecurringFacts.

(** X26. The recurring totals of the two analyzers. With recurring
    amounts that are not negative, [financial_analysis.py] never counts
    more for a month than [financial_analysis_simple.py], which adds up
    every active recurring transaction of the type whatever its dates and
    frequency. The two totals are the same when every active recurring
    transaction of the type is monthly or weekly, has started by the first
    day of the month and has not ended before it. *)
Theorem simple_recurring_total_covers_the_full_one (db : Store)
    (ty : TransactionType) (y m : Z) :
  Forall (fun r => (0 <= RecurringTransaction.amount r)%Q) (recurring_transactions db) ->
  (FinancialAnalysis.recurring_total db ty y m
   <= FinancialAnalysisSimple.recurring_total db ty)%Q
  /\ (Forall (fun r =>
                RecurringTransaction.is_active r = true ->
                RecurringTransaction.transaction_type r = ty ->
                FinancialAnalysis.recurring_in_window ty (mkdate y m 1) r = true
                /\ (RecurringTransaction.frequency r = "monthly"%string
                    \/ RecurringTransaction.frequency r = "weekly"%string))
        (recurring_transactions db) ->
      FinancialAnalysis.recurring_total db ty y m
      = FinancialAnalysisSimple.recurring_total db ty).
Proof.
  intros F.
  rewrite recurring_total_counted, RecurringFacts.simple_recurring_total_sum.
  unfold counted_in_month. rewrite RecurringFacts.filter_twice.
  split.
  - apply RecurringFacts.narrower_sum; [exact F|].
    intros r H. apply andb_true_iff in H. destruct H as [H _].
    unfold FinancialAnalysis.recurring_in_window in H.
    apply andb_true_iff in H. destruct H as [H _].
    apply andb_true_iff in H. destruct H as [H _]. exact H.
  - intros G. apply RecurringFacts.same_sum.
    eapply List.Forall_impl; [|exact G]. intros r Hr. cbv beta in Hr.
    destruct (RecurringTransaction.is_active r) eqn:A.
    + destruct (TransactionType_eqb (RecurringTransaction.transaction_type r) ty) eqn:T.
      * assert (Ty : RecurringTransaction.transaction_type r = ty).
        { destruct (RecurringTransaction.transaction_type r), ty;
            try reflexivity; discriminate. }
        destruct (Hr eq_refl Ty) as [W Fq]. rewrite W. simpl.
        unfold FinancialAnalysis._should_occur_in_month.
        destruct Fq as [-> | ->]; reflexivity.
      * unfold FinancialAnalysis.recurring_in_window. rewrite A, T. reflexivity.
    + unfold FinancialAnalysis.recurring_in_window. rewrite A. reflexivity.
Qed.

Lemma simple_recurring_total_covers_the_full_one_witness :
  (FinancialAnalysis._get_recurring_expenses_for_month ledger_salary_and_rent 2023 6
   <= FinancialAnalysisSimple._calculate_recurring_expenses ledger_salary_and_rent
        (mkdate 2023 6 1))%Q
  /\ FinancialAnalysis._get_recurring_expenses_for_month ledger_salary_and_rent 2023 6
     = 0%Q.
Proof.
  assert (F : Forall (fun r => (0 <= RecurringTransaction.amount r)%Q)
                (recurring_transactions ledger_salary_and_rent)).
  { repeat constructor; vm_compute; discriminate. }
  split; [|reflexivity].
  apply (simple_recurring_total_covers_the_full_one ledger_salary_and_rent EXPENSE
           2023 6 F).
Defined.

(** X27. [GET /alerts/types] lists the eight alert types and the four
    priorities, each once and each with a description of its own: the
    default description is never served. Every value it lists is accepted
    as a filter: [GET /alerts] with a listed priority and a listed type
    is answered with 200. *)
Theorem listed_values_are_accepted_as_filters (db : Store) (current_date today : date)
    (utcnow : nat -> Z) (state : list Alert.t) :
  exists types priorities,
    AlertsRoutes.get_alert_types
    = AlertsRoutes.ok (AlertsRoutes.TypesData types priorities)
    /\ length types = 8%nat /\ length priorities = 4%nat
    /\ List.NoDup (map AlertsRoutes.value types)
    /\ List.NoDup (map AlertsRoutes.value priorities)
    /\ List.NoDup (map AlertsRoutes.description types)
    /\ List.NoDup (map AlertsRoutes.description priorities)
    /\ Forall (fun e => AlertsRoutes.description e <> "Tipo de alerta desconhecido"%string)
         types
    /\ Forall (fun e => AlertsRoutes.description e <> "Prioridade desconhecida"%string)
         priorities
    /\ (forall et ep unread_only,
          In et types -> In ep priorities ->
          AlertsRoutes.status
            (fst (AlertsRoutes.get_alerts db current_date today utcnow
                    (AlertsRoutes.mkArgs (Some (AlertsRoutes.value ep))
                       (Some (AlertsRoutes.value et)) unread_only) state))
          = 200).
Proof.
  eexists. eexists. split; [reflexivity|].
  split; [reflexivity|]. split; [reflexivity|].
  split; [repeat constructor; simpl; intuition discriminate|].
  split; [repeat constructor; simpl; intuition discriminate|].
  split; [repeat constructor; simpl; intuition discriminate|].
  split; [repeat constructor; simpl; intuition discriminate|].
  split; [repeat constructor; discriminate|].
  split; [repeat constructor; discriminate|].
  intros et ep unread_only Ht Hp.
  apply in_map_iff in Ht. destruct Ht as (t & <- & _).
  apply in_map_iff in Hp. destruct Hp as (p & <- & _).
  cbn [AlertsRoutes.value].
  destruct (FilterFacts.pass_by_rule db current_date today utcnow) as (alerts & E & _).
  rewrite (FilterFacts.get_alerts_selected db current_date today utcnow p t
             unread_only state alerts E).
  reflexivity.
Qed.

(** ** The feasibility of the goals *)

Module FeasibilityFacts.

Lemma analyze_goal_verdict db cd (goal : Goal.t) (sc : Dict.t SavingsEntry.t) :
  FinancialAnalysis.calculate_savings_capacity db cd 3 = Ok sc ->
  exists ga,
    FinancialAnalysis.analyze_goal db cd goal = Ok ga
    /\ FinancialAnalysis.GoalAnalysis.id ga = Goal.id goal
    /\ FinancialAnalysis.GoalAnalysis.avg_monthly_savings_capacity ga
       = mean_projected_savings sc
    /\ (FinancialAnalysis.GoalAnalysis.is_achievable ga = true
        <-> (FinancialAnalysis.GoalAnalysis.monthly_savings_needed ga
             <= mean_projected_savings sc)%Q)
    /\ ((FinancialAnalysis.GoalAnalysis.amount_needed ga <= 0)%Q ->
        (FinancialAnalysis.GoalAnalysis.monthly_savings_needed ga <= 0)%Q)
    /\ ((0 < FinancialAnalysis.GoalAnalysis.amount_needed ga)%Q ->
        (0 < FinancialAnalysis.GoalAnalysis.monthly_savings_needed ga)%Q).
Proof.
  intros Es. unfold FinancialAnalysis.analyze_goal. cbv zeta.
  set (months := Py.max 1
                   (inject_Z (Date.days_between (Goal.target_date goal) cd)
                    / (3044 # 100))%Q).
  assert (G : Py.gtb months 0 = true) by apply GoalFacts.max_one_positive.
  rewrite G, (PyFacts.truediv_pos _ _ G). cbn [rbind].
  rewrite Es. cbn [rbind].
  destruct (GoalFacts.savings_capacity_nonempty db cd) as (item & rest & Es').
  rewrite Es in Es'. injection Es' as ->.
  rewrite AnalysisFacts.truediv_length. cbn [rbind].
  rewrite AnalysisFacts.guarded_percentage. cbn [rbind].
  eexists. split; [reflexivity|].
  cbn [FinancialAnalysis.GoalAnalysis.id
       FinancialAnalysis.GoalAnalysis.avg_monthly_savings_capacity
       FinancialAnalysis.GoalAnalysis.is_achievable
       FinancialAnalysis.GoalAnalysis.monthly_savings_needed
       FinancialAnalysis.GoalAnalysis.amount_needed].
  apply PyFacts.ltb_lt in G.
  split; [reflexivity|]. split; [reflexivity|].
  split; [apply PyFacts.leb_le|]. split.
  - intros H. apply Qle_shift_div_r; [exact G | lra].
  - intros H. apply Qlt_shift_div_l; [exact G | lra].
Qed.

End FeasibilityFacts.

(** X28. [analyze_goals_progress] returns one analysis per active goal,
    in order, and never divides by zero: the savings capacity of three
    months has at least one entry. Every analysis carries the same average
    capacity, the mean of the projected savings of that capacity, and
    calls the goal achievable exactly when the monthly savings it needs do
    not exceed that mean. So a goal that needs nothing more is achievable
    whenever the mean is not negative, and a goal that needs more is not
    achievable when the mean is not positive. *)
Theorem goal_feasibility_verdict (db : Store) (current_date : date) :
  exists sc analysis,
    FinancialAnalysis.calculate_savings_capacity db current_date 3 = Ok sc
    /\ sc <> []
    /\ FinancialAnalysis.analyze_goals_progress db current_date = Ok analysis
    /\ map FinancialAnalysis.GoalAnalysis.id analysis
       = map Goal.id (Query.active_goals db)
    /\ Forall (fun ga =>
                 FinancialAnalysis.GoalAnalysis.avg_monthly_savings_capacity ga
                 = mean_projected_savings sc
                 /\ (FinancialAnalysis.GoalAnalysis.is_achievable ga = true
                     <-> (FinancialAnalysis.GoalAnalysis.monthly_savings_needed ga
                          <= mean_projected_savings sc)%Q)
                 /\ ((FinancialAnalysis.GoalAnalysis.amount_needed ga <= 0)%Q ->
                     (0 <= mean_projected_savings sc)%Q ->
                     FinancialAnalysis.GoalAnalysis.is_achievable ga = true)
                 /\ ((0 < FinancialAnalysis.GoalAnalysis.amount_needed ga)%Q ->
                     (mean_projected_savings sc <= 0)%Q ->
                     FinancialAnalysis.GoalAnalysis.is_achievable ga = false))
         analysis.
Proof.
  destruct (GoalFacts.savings_capacity_nonempty db current_date) as (item & rest & Es).
  exists (item :: rest). set (sc := item :: rest) in *.
  destruct (for_append_forall2 (FinancialAnalysis.analyze_goal db current_date)
              (Query.active_goals db)) with (out := @nil FinancialAnalysis.GoalAnalysis.t)
    as (analysis & Ea & Fa).
  { intros g _.
    destruct (FeasibilityFacts.analyze_goal_verdict db current_date g sc Es)
      as (ga & E & _).
    exists ga. exact E. }
  exists analysis. split; [exact Es|]. split; [discriminate|].
  split; [exact Ea|].
  assert (P : Forall2 (fun g ga =>
                         FinancialAnalysis.GoalAnalysis.id ga = Goal.id g
                         /\ FinancialAnalysis.GoalAnalysis.avg_monthly_savings_capacity ga
                            = mean_projected_savings sc
                         /\ (FinancialAnalysis.GoalAnalysis.is_achievable ga = true
                             <-> (FinancialAnalysis.GoalAnalysis.monthly_savings_needed ga
                                  <= mean_projected_savings sc)%Q)
                         /\ ((FinancialAnalysis.GoalAnalysis.amount_needed ga <= 0)%Q ->
                             (FinancialAnalysis.GoalAnalysis.monthly_savings_needed ga
                              <= 0)%Q)
                         /\ ((0 < FinancialAnalysis.GoalAnalysis.amount_needed ga)%Q ->
                             (0 < FinancialAnalysis.GoalAnalysis.monthly_savings_needed ga)%Q))
                (Query.active_goals db) analysis).
  { eapply Forall2_impl; [exact Fa|]. intros g ga Hg. cbv beta in Hg.
    destruct (FeasibilityFacts.analyze_goal_verdict db current_date g sc Es)
      as (ga' & E & R).
    rewrite Hg in E. injection E as <-. exact R. }
  clear Fa Ea. split.
  - induction P as [|g ga gs gas (I & _) P IH]; simpl; [reflexivity|].
    rewrite I, IH. reflexivity.
  - induction P as [|g ga gs gas (_ & A & V & N0 & N1) P IH]; constructor; [|exact IH].
    split; [exact A|]. split; [exact V|]. split.
    + intros Hn Hm. apply V. specialize (N0 Hn). lra.
    + intros Hn Hm. specialize (N1 Hn).
      destruct (FinancialAnalysis.GoalAnalysis.is_achievable ga) eqn:B; [|reflexivity].
      assert (H : (FinancialAnalysis.GoalAnalysis.monthly_savings_needed ga
                   <= mean_projected_savings sc)%Q) by (apply V; reflexivity).
      lra.
Qed.

(** ** The dates the code constructs *)


